(** * Lifecycle core of the model manager: state machine, downloads, deployments

    A shallow embedding of
      - api/services/model_state_machine.py
      - api/models/download_task.py, api/services/download_service.py
      - api/models/deployment.py, api/services/deployment_service.py
      - api/services/system_service.py (port checks)
      - tasks/download_tasks.py (the progress callback)
      - api/utils/event_queue.py (the listener of a channel)
    Python objects living in the SQLAlchemy session are rows of tables; the
    effects of the code (session writes, commit and rollback, the log, the
    MODEL_STATUS queue, the file system, the clock) are threaded through a
    state-and-exception monad.  Python floats are IEEE 754 binary64 values,
    computed with the Standard Library's specification of floating-point
    arithmetic. *)

From Stdlib Require Import ZArith Ascii String SpecFloat.
From stdpp Require Import base option list strings pretty gmap fin_maps.

Local Open Scope Z_scope.

(** ** Python values that travel in event payloads and log arguments *)

Inductive PyVal :=
  | VNone
  | VBool (b : bool)
  | VInt (z : Z)
  | VStr (s : string)
  | VIso (t : Z).             (* datetime.isoformat() of the clock reading t *)

Definition Dict := list (string * PyVal).

Definition VOptStr (o : option string) : PyVal :=
  match o with Some s => VStr s | None => VNone end.

(** Truthiness of an optional string: [None] and [''] are falsy. *)
Definition truthy_str (o : option string) : bool :=
  match o with
  | Some s => negb (String.eqb s "")
  | None => false
  end.

(** ** Exceptions (api/utils/exceptions.py and what the libraries raise) *)

Inductive ExnKind :=
  | ValidationError
  | NotFoundError
  | ConflictError
  | DownloadError
  | StorageError
  | IntegrityError            (* sqlalchemy.exc.IntegrityError *)
  | OtherException.           (* any other Exception *)

Record Exn := mkExn { exn_kind : ExnKind; exn_msg : string }.

Inductive Outcome (A : Type) :=
  | Ret (a : A)
  | Raise (e : Exn).
Arguments Ret {A} a.
Arguments Raise {A} e.

(** ** Python numbers

    A [float] is an IEEE 754 binary64 value: the Standard Library's
    specification of floating-point arithmetic at precision 53 and maximal
    exponent 1024. *)

Module Float64.

Definition prec : Z := 53.
Definition emax : Z := 1024.

(** The int [z] as an exact operand. *)
Definition of_int (z : Z) : spec_float :=
  match z with
  | Z0 => S754_zero false
  | Zpos p => S754_finite false p 0
  | Zneg p => S754_finite true p 0
  end.

(** [float(100)] *)
Definition hundred : spec_float := binary_normalize prec emax 100 0 false.

(** [a / b] on ints: the correctly rounded quotient of the two integers;
    ZeroDivisionError when [b] is 0, OverflowError when the quotient is too
    large for a float. *)
Definition true_divide (a b : Z) : Outcome spec_float :=
  if b =? 0 then Raise (mkExn OtherException "division by zero")
  else
    match SFdiv prec emax (of_int a) (of_int b) with
    | S754_infinity _ =>
        Raise (mkExn OtherException "integer division result too large for a float")
    | q => Ret q
    end.

(** [x * y] on floats. *)
Definition mul (x y : spec_float) : spec_float := SFmul prec emax x y.

End Float64.

(** The number held by an attribute: an int or a float. *)
Inductive PyNum :=
  | PyInt (z : Z)
  | PyFloat (f : spec_float).

(** ** The state machine's enumerations *)

Module StateMachine.

Inductive ModelState :=
  | INACTIVE | DOWNLOADING | DEPLOYING | ACTIVE | TRAINING | ERROR.

Inductive ModelEvent :=
  | DOWNLOAD_STARTED | DOWNLOAD_COMPLETED | DOWNLOAD_FAILED | DOWNLOAD_CANCELLED
  | DEPLOY_STARTED | DEPLOY_COMPLETED | DEPLOY_FAILED | DEPLOY_STOPPED
  | HEALTH_CHECK_FAILED | MANUAL_ERROR_SET | MANUAL_RESET.

#[global] Instance ModelState_eq_dec : EqDecision ModelState.
Proof. solve_decision. Defined.

#[global] Instance ModelEvent_eq_dec : EqDecision ModelEvent.
Proof. solve_decision. Defined.

(** [.value] of the enum members. *)
Definition state_value (s : ModelState) : string :=
  match s with
  | INACTIVE => "inactive"
  | DOWNLOADING => "downloading"
  | DEPLOYING => "deploying"
  | ACTIVE => "active"
  | TRAINING => "training"
  | ERROR => "error"
  end.

Definition event_value (e : ModelEvent) : string :=
  match e with
  | DOWNLOAD_STARTED => "download_started"
  | DOWNLOAD_COMPLETED => "download_completed"
  | DOWNLOAD_FAILED => "download_failed"
  | DOWNLOAD_CANCELLED => "download_cancelled"
  | DEPLOY_STARTED => "deploy_started"
  | DEPLOY_COMPLETED => "deploy_completed"
  | DEPLOY_FAILED => "deploy_failed"
  | DEPLOY_STOPPED => "deploy_stopped"
  | HEALTH_CHECK_FAILED => "health_check_failed"
  | MANUAL_ERROR_SET => "manual_error_set"
  | MANUAL_RESET => "manual_reset"
  end.

Definition all_states : list ModelState :=
  [INACTIVE; DOWNLOADING; DEPLOYING; ACTIVE; TRAINING; ERROR].

Definition all_events : list ModelEvent :=
  [DOWNLOAD_STARTED; DOWNLOAD_COMPLETED; DOWNLOAD_FAILED; DOWNLOAD_CANCELLED;
   DEPLOY_STARTED; DEPLOY_COMPLETED; DEPLOY_FAILED; DEPLOY_STOPPED;
   HEALTH_CHECK_FAILED; MANUAL_ERROR_SET; MANUAL_RESET].

(** [ModelState(v)] and [ModelEvent(v)]: lookup by value; [None] stands for
    the ValueError Python raises on an unknown value. *)
Definition ModelState_of (v : string) : option ModelState :=
  List.find (fun s => String.eqb (state_value s) v) all_states.

Definition ModelEvent_of (v : string) : option ModelEvent :=
  List.find (fun e => String.eqb (event_value e) v) all_events.

(** The class attribute [TRANSITIONS], entries in source order. *)
Definition TRANSITIONS : list ((ModelState * ModelEvent) * ModelState) :=
  [ ((INACTIVE, DOWNLOAD_STARTED), DOWNLOADING);
    ((INACTIVE, DEPLOY_STARTED), DEPLOYING);

    ((DOWNLOADING, DOWNLOAD_COMPLETED), INACTIVE);
    ((DOWNLOADING, DOWNLOAD_FAILED), ERROR);
    ((DOWNLOADING, DOWNLOAD_CANCELLED), INACTIVE);
    ((DOWNLOADING, DEPLOY_STARTED), DEPLOYING);

    ((DEPLOYING, DEPLOY_COMPLETED), ACTIVE);
    ((DEPLOYING, DEPLOY_FAILED), ERROR);

    ((ACTIVE, DEPLOY_STOPPED), INACTIVE);
    ((ACTIVE, HEALTH_CHECK_FAILED), ERROR);
    ((ACTIVE, DEPLOY_STARTED), DEPLOYING);
    ((ACTIVE, DOWNLOAD_STARTED), DOWNLOADING);

    ((ERROR, DOWNLOAD_STARTED), DOWNLOADING);
    ((ERROR, DEPLOY_STARTED), DEPLOYING);
    ((ERROR, MANUAL_RESET), INACTIVE);

    ((TRAINING, MANUAL_RESET), INACTIVE);

    ((INACTIVE, MANUAL_ERROR_SET), ERROR);
    ((DOWNLOADING, MANUAL_ERROR_SET), ERROR);
    ((DEPLOYING, MANUAL_ERROR_SET), ERROR);
    ((ACTIVE, MANUAL_ERROR_SET), ERROR);
    ((TRAINING, MANUAL_ERROR_SET), ERROR) ].

(** [[event for (state, event) in TRANSITIONS.keys() if state == current]] *)
Definition get_valid_transitions (current_state : ModelState) : list ModelEvent :=
  List.map (fun kv => snd (fst kv))
    (List.filter (fun kv => bool_decide (fst (fst kv) = current_state)) TRANSITIONS).

(** [(current_state, event) in TRANSITIONS] *)
Definition can_transition (current_state : ModelState) (event : ModelEvent) : bool :=
  existsb (fun kv => bool_decide (fst kv = (current_state, event))) TRANSITIONS.

(** [TRANSITIONS.get((current_state, event))] *)
Definition get_next_state (current_state : ModelState) (event : ModelEvent)
  : option ModelState :=
  snd <$> List.find (fun kv => bool_decide (fst kv = (current_state, event))) TRANSITIONS.

(** [repr] of a list of enum values, as the f-string prints it:
    ['a', 'b'].  The values hold no quote or backslash. *)
Fixpoint join_comma (l : list string) : string :=
  match l with
  | [] => ""
  | [s] => s
  | s :: rest => s +:+ ", " +:+ join_comma rest
  end.

Definition repr_str_list (l : list string) : string :=
  "[" +:+ join_comma (List.map (fun s => "'" +:+ s +:+ "'") l) +:+ "]".

End StateMachine.

(** ** Rows of the three tables the core touches *)

(** [models]: the primary key [id] keys the table; only the columns the
    state machine reads or writes are kept. *)
Record Model := mkModel {
  Model_source : string;
  Model_status : option string;
  Model_updated_at : option Z;
}.

(** [download_tasks].  [progress] and [download_size] carry their column
    default 0; [progress] and [download_speed] hold the number that the
    code assigns, an int or a float. *)
Record DownloadTask := mkDownloadTask {
  task_id : string;
  task_model_id : string;
  task_model_source : string;
  task_status : string;
  task_progress : PyNum;
  task_download_size : Z;
  task_total_size : option Z;
  task_download_speed : option PyNum;
  task_file_path : option string;
  task_updated_at : option Z;
  task_started_at : option Z;
  task_completed_at : option Z;
}.

(** [deployments] *)
Record Deployment := mkDeployment {
  dep_id : string;
  dep_model_id : string;
  dep_model_source : string;
  dep_name : string;
  dep_status : string;
  dep_port : option Z;
  dep_host : option string;
  dep_container_id : option string;
  dep_last_health_check : option Z;
  dep_health_status : option string;
  dep_updated_at : option Z;
}.

(** Rows of [download_tasks] and [deployments] are kept in the order in
    which an unordered query returns them: [.first()] takes the head. *)
Record DB := mkDB {
  models : gmap string Model;
  download_tasks : list DownloadTask;
  deployments : list Deployment;
}.

(** ** The log, the MODEL_STATUS queue, the file system *)

Inductive Level := LvlDebug | LvlInfo | LvlWarning | LvlError.

(** The dict [change_info] of [_record_state_change]. *)
Record StateChange := mkStateChange {
  sc_model_id : string;
  sc_model_source : string;
  sc_old_status : option string;
  sc_new_status : string;
  sc_event : string;
  sc_event_data : option Dict;
  sc_timestamp : Z;
}.

(** A log line: the message template with its arguments, or the state
    change record that [_record_state_change] writes to the log. *)
Inductive LogMsg :=
  | Text (template : string) (args : list PyVal)
  | StateChangeRecorded (c : StateChange).

Record LogRecord := mkLog { log_level : Level; log_msg : LogMsg }.

(** One entry of the [models] list of a model_status event. *)
Record ModelStatusItem := mkItem {
  item_id : string;
  item_name : string;
  item_status : string;
  item_lastUpdated : string;
}.

Record ModelStatusEvent := mkStatusEvent {
  ev_models : list ModelStatusItem;
  ev_timestamp : Z;
  ev_interval : option Z;
}.

(** A call of [trigger_model_event(model_id, model_source, event_name, _)]. *)
Record RaisedEvent := mkRaised {
  raised_model_id : string;
  raised_model_source : string;
  raised_event_name : string;
}.

Inductive FsNode := File | Dir | Special.

(** [session] is what queries in the current transaction see (committed
    rows plus pending changes); [committed] is what survives a rollback.
    [raised] is a ghost trace of the calls of [trigger_model_event]. *)
Record World := mkWorld {
  session : DB;
  committed : DB;
  log : list LogRecord;
  model_status_queue : list ModelStatusEvent;
  raised : list RaisedEvent;
  fs : gmap string FsNode;
  clock : Z;
}.

Definition with_session (d : DB) (w : World) : World :=
  mkWorld d (committed w) (log w) (model_status_queue w) (raised w) (fs w) (clock w).

Definition with_models (ms : gmap string Model) (d : DB) : DB :=
  mkDB ms (download_tasks d) (deployments d).

Definition with_download_tasks (ts : list DownloadTask) (d : DB) : DB :=
  mkDB (models d) ts (deployments d).

Definition with_deployments (ds : list Deployment) (d : DB) : DB :=
  mkDB (models d) (download_tasks d) ds.

(** ** Faults and answers of the environment during one operation *)

Inductive ProbeResult :=
  | ProbeOk                   (* the health endpoint answered 200 *)
  | ProbeDown                 (* other status code, or requests.RequestException *)
  | ProbeCrash (msg : string). (* any other exception inside the try block *)

Record Conn := mkConn { laddr_port : Z; conn_listen : bool }.

Record Env := mkEnv {
  commit_raises : option Exn;              (* db.session.commit() raises *)
  push_raises : option string;             (* push_model_status raises; str(e) *)
  remove_raises : option string;           (* os.remove / shutil.rmtree raises *)
  hf_get_model_info : string → Outcome bool;          (* truthiness of the answer *)
  ollama_list_available_models : Outcome (list string); (* the 'name' fields *)
  resolve_download_path : string → string → string;   (* _resolve_download_path *)
  validate_download_path : string → option Exn;       (* _validate_download_path raises *)
  check_storage_space : option Exn;                   (* _check_storage_space raises *)
  uuid4 : string;
  check_container_status : string → bool;             (* _check_container_status *)
  probe : Deployment → ProbeResult;
  net_connections : option (list Conn);    (* psutil.net_connections(); None: it raises *)
}.

(** ** The state-and-exception monad *)

Definition M (A : Type) : Type := World → Outcome A * World.

Definition ret {A} (a : A) : M A := fun w => (Ret a, w).

Definition raise {A} (e : Exn) : M A := fun w => (Raise e, w).

Definition bind {A B} (m : M A) (k : A → M B) : M B :=
  fun w => match m w with
           | (Ret a, w') => k a w'
           | (Raise e, w') => (Raise e, w')
           end.

Definition try_catch {A} (m : M A) (handler : Exn → M A) : M A :=
  fun w => match m w with
           | (Ret a, w') => (Ret a, w')
           | (Raise e, w') => handler e w'
           end.

Notation "x <- c1 ;; c2" := (bind c1 (fun x => c2))
  (at level 100, c1 at next level, right associativity).
Notation "c1 ;; c2" := (bind c1 (fun _ => c2))
  (at level 100, right associativity).

Definition get_session : M DB := fun w => (Ret (session w), w).

Definition put_session (d : DB) : M unit := fun w => (Ret tt, with_session d w).

(** [datetime.utcnow()]: reads the clock, which then moves on. *)
Definition utcnow : M Z :=
  fun w => (Ret (clock w),
            mkWorld (session w) (committed w) (log w) (model_status_queue w)
                    (raised w) (fs w) (clock w + 1)).

Definition logger (lvl : Level) (msg : LogMsg) : M unit :=
  fun w => (Ret tt,
            mkWorld (session w) (committed w) (log w ++ [mkLog lvl msg])
                    (model_status_queue w) (raised w) (fs w) (clock w)).

(** [queues[EventType.MODEL_STATUS].put(event_data)] *)
Definition queue_put (ev : ModelStatusEvent) : M unit :=
  fun w => (Ret tt,
            mkWorld (session w) (committed w) (log w) (model_status_queue w ++ [ev])
                    (raised w) (fs w) (clock w)).

Definition note_raised (r : RaisedEvent) : M unit :=
  fun w => (Ret tt,
            mkWorld (session w) (committed w) (log w) (model_status_queue w)
                    (raised w ++ [r]) (fs w) (clock w)).

Definition put_fs (f : gmap string FsNode) : M unit :=
  fun w => (Ret tt,
            mkWorld (session w) (committed w) (log w) (model_status_queue w)
                    (raised w) f (clock w)).

(** [db.session.commit()] and [db.session.rollback()] *)
Definition commit (env : Env) : M unit :=
  fun w => match commit_raises env with
           | Some e => (Raise e, w)
           | None => (Ret tt,
                      mkWorld (session w) (session w) (log w) (model_status_queue w)
                              (raised w) (fs w) (clock w))
           end.

Definition rollback : M unit :=
  fun w => (Ret tt, with_session (committed w) w).

(** ** api/services/model_state_machine.py: the effectful part *)

Module ModelStateMachine.
Import StateMachine.

(** [with cls._atomic_transaction(): body]: commit when the body leaves
    normally (a [return] inside the block included), roll back and re-raise
    when the body or the commit raises. *)
Definition _atomic_transaction {A} (env : Env) (body : M A) : M A :=
  try_catch
    (a <- body ;; commit env ;; ret a)
    (fun e => rollback ;; raise e).

(** [Model.query.filter(and_(Model.id == model_id,
                             Model.source == model_source)).first()] *)
Definition query_model (model_id model_source : string) : M (option Model) :=
  d <- get_session ;;
  ret (match models d !! model_id with
       | Some m => if bool_decide (Model_source m = model_source) then Some m else None
       | None => None
       end).

(** [model.status = v; model.updated_at = t] on the row of the session. *)
Definition set_model_status (model_id : string) (v : string) (t : Z) : M unit :=
  d <- get_session ;;
  put_session
    (with_models
       (alter (fun m => mkModel (Model_source m) (Some v) (Some t)) model_id (models d)) d).

(** [ModelState(model.status) if model.status else ModelState.INACTIVE],
    with the ValueError handler. *)
Definition current_state_of (model_id : string) (status : option string) : M ModelState :=
  if truthy_str status then
    match ModelState_of (default "" status) with
    | Some s => ret s
    | None =>
        logger LvlWarning
          (Text "Invalid current state '{}' for model {}, resetting to inactive"
                [VOptStr status; VStr model_id]) ;;
        ret INACTIVE
    end
  else ret INACTIVE.

Definition _record_state_change (model_id model_source : string)
    (old_status : option string) (new_status : string)
    (event : ModelEvent) (event_data : option Dict) : M unit :=
  t <- utcnow ;;
  logger LvlInfo
    (StateChangeRecorded
       (mkStateChange model_id model_source old_status new_status
                      (event_value event) event_data t)).

(** [model_id.split('/')[-1] if '/' in model_id else model_id] *)
Fixpoint after_last_slash (acc s : string) : string :=
  match s with
  | EmptyString => acc
  | String c rest =>
      if Ascii.eqb c "/"%char then after_last_slash "" rest
      else after_last_slash (acc +:+ String c "") rest
  end.

Definition model_name_of (model_id : string) : string := after_last_slash "" model_id.

Definition last_updated_text (new_status : string) : string :=
  if String.eqb new_status "downloading" then "正在下载"
  else if String.eqb new_status "deploying" then "部署中"
  else if String.eqb new_status "training" then "训练中"
  else "刚刚".

Definition _notify_state_change (env : Env) (model_id model_source : string)
    (old_status : option string) (new_status : string) : M unit :=
  let model_status :=
    mkItem model_id (model_name_of model_id) new_status (last_updated_text new_status) in
  t <- utcnow ;;
  match push_raises env with
  | Some e => logger LvlError (Text "Failed to notify state change: {}" [VStr e])
  | None =>
      queue_put (mkStatusEvent [model_status] t (Some 0)) ;;
      logger LvlDebug
        (Text "State change notification sent: {} {} -> {}"
              [VStr model_id; VOptStr old_status; VStr new_status])
  end.

Definition not_found_msg (model_id model_source : string) : string :=
  "Model not found: " +:+ model_id +:+ " (" +:+ model_source +:+ ")".

Definition invalid_transition_msg (current_state : ModelState) (event : ModelEvent) : string :=
  "Invalid transition: " +:+ state_value current_state +:+ " -> " +:+ event_value event
  +:+ ". Valid events: "
  +:+ repr_str_list (List.map event_value (get_valid_transitions current_state)).

Definition transition (env : Env) (model_id model_source : string)
    (event : ModelEvent) (event_data : option Dict) (auto_notify : bool)
  : M (bool * option string) :=
  try_catch
    (_atomic_transaction env
       (model <- query_model model_id model_source ;;
        match model with
        | None => ret (false, Some (not_found_msg model_id model_source))
        | Some m =>
            current_state <- current_state_of model_id (Model_status m) ;;
            if negb (can_transition current_state event) then
              ret (false, Some (invalid_transition_msg current_state event))
            else
              match get_next_state current_state event with
              | None =>
                  (* new_state is None: new_state.value raises AttributeError *)
                  raise (mkExn OtherException "'NoneType' object has no attribute 'value'")
              | Some new_state =>
                  if bool_decide (current_state ≠ new_state) then
                    let old_status := Model_status m in
                    t <- utcnow ;;
                    set_model_status model_id (state_value new_state) t ;;
                    logger LvlInfo
                      (Text "Model state transition: {} {} -> {} (event: {})"
                            [VStr model_id; VOptStr old_status;
                             VStr (state_value new_state); VStr (event_value event)]) ;;
                    _record_state_change model_id model_source old_status
                      (state_value new_state) event event_data ;;
                    (if auto_notify
                     then _notify_state_change env model_id model_source old_status
                            (state_value new_state)
                     else ret tt) ;;
                    ret (true, None)
                  else
                    logger LvlDebug
                      (Text "Model {} already in target state {}"
                            [VStr model_id; VStr (state_value new_state)]) ;;
                    ret (true, Some "Already in target state")
              end
        end))
    (fun e =>
       match exn_kind e with
       | IntegrityError =>
           logger LvlError
             (Text "Database integrity error during state transition: {}" [VStr (exn_msg e)]) ;;
           ret (false, Some ("Database integrity error: " +:+ exn_msg e))
       | _ =>
           logger LvlError (Text "Failed to transition model state: {}" [VStr (exn_msg e)]) ;;
           ret (false, Some ("State transition failed: " +:+ exn_msg e))
       end).

(** [get_model_state]: a plain read, no lock and no commit. *)
Definition get_model_state (model_id model_source : string) : M (option ModelState) :=
  model <- query_model model_id model_source ;;
  match model with
  | None => ret None
  | Some m =>
      if truthy_str (Model_status m) then
        match ModelState_of (default "" (Model_status m)) with
        | Some s => ret (Some s)
        | None =>
            logger LvlWarning
              (Text "Invalid status '{}' for model {}" [VOptStr (Model_status m); VStr model_id]) ;;
            ret (Some INACTIVE)
        end
      else ret (Some INACTIVE)
  end.

Definition force_set_data : Dict := [("force_set", VBool true)].

Definition force_state (env : Env) (model_id model_source : string)
    (target_state : ModelState) (auto_notify : bool) : M (bool * option string) :=
  try_catch
    (_atomic_transaction env
       (model <- query_model model_id model_source ;;
        match model with
        | None => ret (false, Some (not_found_msg model_id model_source))
        | Some m =>
            let old_status := Model_status m in
            t <- utcnow ;;
            set_model_status model_id (state_value target_state) t ;;
            logger LvlWarning
              (Text "Model state force set: {} {} -> {}"
                    [VStr model_id; VOptStr old_status; VStr (state_value target_state)]) ;;
            _record_state_change model_id model_source old_status
              (state_value target_state) MANUAL_RESET (Some force_set_data) ;;
            (if auto_notify
             then _notify_state_change env model_id model_source old_status
                    (state_value target_state)
             else ret tt) ;;
            ret (true, None)
        end))
    (fun e =>
       logger LvlError (Text "Failed to force model state: {}" [VStr (exn_msg e)]) ;;
       ret (false, Some ("Force state failed: " +:+ exn_msg e))).

(** The module-level helpers. *)
Definition trigger_model_event (env : Env) (model_id model_source event_name : string)
    (event_data : option Dict) : M (bool * option string) :=
  note_raised (mkRaised model_id model_source event_name) ;;
  match ModelEvent_of event_name with
  | Some event => transition env model_id model_source event event_data true
  | None =>
      logger LvlError (Text "Unknown event: {}" [VStr event_name]) ;;
      ret (false, Some ("Unknown event: " +:+ event_name))
  end.


End ModelStateMachine.

(** ** api/models/download_task.py *)

Module DownloadTaskM.
Import StateMachine ModelStateMachine.

(** [DownloadTask.query.get(task_id)] *)
Definition query_get (id : string) : M (option DownloadTask) :=
  d <- get_session ;;
  ret (List.find (fun t => bool_decide (id = task_id t)) (download_tasks d)).

(** Attribute writes on the object whose primary key is [id]. *)
Definition update_task (id : string) (f : DownloadTask → DownloadTask) : M unit :=
  d <- get_session ;;
  put_session
    (with_download_tasks
       (List.map (fun t => if bool_decide (id = task_id t) then f t else t)
                 (download_tasks d)) d).

Definition set_status (v : string) (t : DownloadTask) : DownloadTask :=
  mkDownloadTask (task_id t) (task_model_id t) (task_model_source t) v
    (task_progress t) (task_download_size t) (task_total_size t)
    (task_download_speed t) (task_file_path t) (task_updated_at t)
    (task_started_at t) (task_completed_at t).

Definition set_progress (p : PyNum) (t : DownloadTask) : DownloadTask :=
  mkDownloadTask (task_id t) (task_model_id t) (task_model_source t) (task_status t)
    p (task_download_size t) (task_total_size t)
    (task_download_speed t) (task_file_path t) (task_updated_at t)
    (task_started_at t) (task_completed_at t).

Definition set_download_size (n : Z) (t : DownloadTask) : DownloadTask :=
  mkDownloadTask (task_id t) (task_model_id t) (task_model_source t) (task_status t)
    (task_progress t) n (task_total_size t)
    (task_download_speed t) (task_file_path t) (task_updated_at t)
    (task_started_at t) (task_completed_at t).

Definition set_total_size (n : option Z) (t : DownloadTask) : DownloadTask :=
  mkDownloadTask (task_id t) (task_model_id t) (task_model_source t) (task_status t)
    (task_progress t) (task_download_size t) n
    (task_download_speed t) (task_file_path t) (task_updated_at t)
    (task_started_at t) (task_completed_at t).

Definition set_download_speed (s : option PyNum) (t : DownloadTask) : DownloadTask :=
  mkDownloadTask (task_id t) (task_model_id t) (task_model_source t) (task_status t)
    (task_progress t) (task_download_size t) (task_total_size t)
    s (task_file_path t) (task_updated_at t)
    (task_started_at t) (task_completed_at t).

Definition set_updated_at (x : Z) (t : DownloadTask) : DownloadTask :=
  mkDownloadTask (task_id t) (task_model_id t) (task_model_source t) (task_status t)
    (task_progress t) (task_download_size t) (task_total_size t)
    (task_download_speed t) (task_file_path t) (Some x)
    (task_started_at t) (task_completed_at t).

Definition set_started_at (x : Z) (t : DownloadTask) : DownloadTask :=
  mkDownloadTask (task_id t) (task_model_id t) (task_model_source t) (task_status t)
    (task_progress t) (task_download_size t) (task_total_size t)
    (task_download_speed t) (task_file_path t) (task_updated_at t)
    (Some x) (task_completed_at t).

Definition set_completed_at (x : Z) (t : DownloadTask) : DownloadTask :=
  mkDownloadTask (task_id t) (task_model_id t) (task_model_source t) (task_status t)
    (task_progress t) (task_download_size t) (task_total_size t)
    (task_download_speed t) (task_file_path t) (task_updated_at t)
    (task_started_at t) (Some x).

(** Truthiness of the optional numeric arguments: [None] and 0 are falsy,
    and so are the float zeros. *)
Definition truthy_int (o : option Z) : bool :=
  match o with Some n => negb (n =? 0) | None => false end.

Definition truthy_num (o : option PyNum) : bool :=
  match o with
  | Some (PyInt z) => negb (z =? 0)
  | Some (PyFloat (S754_zero _)) => false
  | Some (PyFloat _) => true
  | None => false
  end.

(** The body of [update_progress] on the object, up to the time stamp: the
    object as the statements leave it, and the exception if the division
    raises; the attributes written before it keep their new values. *)
Definition update_progress_obj (downloaded_size : Z) (total_size : option Z)
    (speed : option PyNum) (self : DownloadTask) : DownloadTask * option Exn :=
  let self := set_download_size downloaded_size self in
  let self := if truthy_int total_size then set_total_size total_size self else self in
  let self := if truthy_num speed then set_download_speed speed self else self in
  match task_total_size self with
  | Some total =>
      if negb (total =? 0) && (0 <? total) then
        match Float64.true_divide downloaded_size total with
        | Ret q => (set_progress (PyFloat (Float64.mul q Float64.hundred)) self, None)
        | Raise e => (self, Some e)
        end
      else (self, None)
  | None => (self, None)
  end.

Definition update_progress (id : string) (downloaded_size : Z)
    (total_size : option Z) (speed : option PyNum) : M unit :=
  self <- query_get id ;;
  match self with
  | None => ret tt
  | Some self =>
      let r := update_progress_obj downloaded_size total_size speed self in
      update_task id (fun _ => fst r) ;;
      match snd r with
      | Some e => raise e
      | None =>
          now <- utcnow ;;
          update_task id (set_updated_at now)
      end
  end.

Definition _trigger_state_event (env : Env) (id event_name : string)
    (event_data : Dict) : M unit :=
  self <- query_get id ;;
  match self with
  | None => ret tt
  | Some self =>
      try_catch
        (r <- trigger_model_event env (task_model_id self) (task_model_source self)
                event_name
                (Some ([("task_id", VStr (task_id self));
                        ("task_type", VStr "download");
                        ("task_status", VStr (task_status self))] ++ event_data)) ;;
         if negb (fst r)
         then logger LvlWarning
                (Text "State event '{}' failed for model {}: {}"
                      [VStr event_name; VStr (task_model_id self); VOptStr (snd r)])
         else ret tt)
        (fun e =>
           logger LvlError
             (Text "Failed to trigger state event '{}' for download task {}: {}"
                   [VStr event_name; VStr (task_id self); VStr (exn_msg e)]))
  end.

Definition start_download (env : Env) (id : string) : M unit :=
  update_task id (set_status "downloading") ;;
  t1 <- utcnow ;;
  update_task id (set_started_at t1) ;;
  t2 <- utcnow ;;
  update_task id (set_updated_at t2) ;;
  _trigger_state_event env id "download_started" [("started_at", VIso t1)].

(** Pausing raises no state machine event. *)
Definition pause_download (id : string) : M unit :=
  update_task id (set_status "paused") ;;
  t <- utcnow ;;
  update_task id (set_updated_at t).

Definition resume_download (env : Env) (id : string) : M unit :=
  update_task id (set_status "downloading") ;;
  t <- utcnow ;;
  update_task id (set_updated_at t) ;;
  _trigger_state_event env id "download_started" [("resumed", VBool true)].

Definition complete_download (env : Env) (id : string) : M unit :=
  update_task id (set_status "completed") ;;
  update_task id (set_progress (PyInt 100)) ;;
  t1 <- utcnow ;;
  update_task id (set_completed_at t1) ;;
  t2 <- utcnow ;;
  update_task id (set_updated_at t2) ;;
  self <- query_get id ;;
  _trigger_state_event env id "download_completed"
    [("completed_at", VIso t1);
     ("file_path", VOptStr (self ≫= task_file_path))].

Definition fail_download (env : Env) (id : string) (error_message : option string) : M unit :=
  update_task id (set_status "failed") ;;
  t <- utcnow ;;
  update_task id (set_updated_at t) ;;
  _trigger_state_event env id "download_failed"
    [("error_message", VOptStr error_message); ("failed_at", VIso t)].

Definition cancel_download (env : Env) (id : string) : M unit :=
  update_task id (set_status "cancelled") ;;
  t <- utcnow ;;
  update_task id (set_updated_at t) ;;
  _trigger_state_event env id "download_cancelled" [("cancelled_at", VIso t)].

(** [cls.query.filter(model_id == .., model_source == ..).first()] *)
Definition get_by_model (model_id model_source : string) : M (option DownloadTask) :=
  d <- get_session ;;
  ret (List.find
         (fun t => bool_decide (task_model_id t = model_id)
                   && bool_decide (task_model_source t = model_source))
         (download_tasks d)).

End DownloadTaskM.

(** ** The file system calls of the services *)

Module Os.

(** [q] lies below the directory [p]. *)
Definition path_under (p q : string) : bool := String.prefix (p +:+ "/") q.

Definition get_fs : M (gmap string FsNode) := fun w => (Ret (fs w), w).

(** [os.remove(p)] *)
Definition remove (env : Env) (p : string) : M unit :=
  match remove_raises env with
  | Some msg => raise (mkExn OtherException msg)
  | None => f <- get_fs ;; put_fs (delete p f)
  end.

(** [shutil.rmtree(p)]: the directory and everything below it. *)
Definition rmtree (env : Env) (p : string) : M unit :=
  match remove_raises env with
  | Some msg => raise (mkExn OtherException msg)
  | None =>
      f <- get_fs ;;
      put_fs (filter (fun kv => kv.1 ≠ p ∧ path_under p kv.1 = false) f)
  end.

End Os.

(** ** api/services/download_service.py *)

Module DownloadService.
Import StateMachine ModelStateMachine.

Definition lift_outcome {A} (o : Outcome A) : M A :=
  match o with Ret a => ret a | Raise e => raise e end.

Definition raise_if (o : option Exn) : M unit :=
  match o with Some e => raise e | None => ret tt end.

Definition active_conflict_msg (model_id : string) : string :=
  "model " +:+ model_id +:+ " already has a pending or downloading download task".

Definition new_task (id model_id source : string) (file_path : string) (now : Z)
  : DownloadTask :=
  mkDownloadTask id model_id source "pending" (PyInt 0) 0 None None (Some file_path)
                 (Some now) None None.

Definition create_download_task (env : Env) (model_id source : string) : M DownloadTask :=
  try_catch
    ((if String.eqb source "huggingface" then
        model_info <- lift_outcome (hf_get_model_info env model_id) ;;
        if negb model_info
        then raise (mkExn NotFoundError ("model " +:+ model_id +:+ " does not exist"))
        else ret tt
      else if String.eqb source "ollama" then
        available_models <- lift_outcome (ollama_list_available_models env) ;;
        if negb (bool_decide (model_id ∈ available_models))
        then raise (mkExn NotFoundError ("Ollama model " +:+ model_id +:+ " does not exist"))
        else ret tt
      else raise (mkExn ValidationError ("Unsupported model source: " +:+ source))) ;;
     existing_task <- DownloadTaskM.get_by_model model_id source ;;
     (match existing_task with
      | Some t =>
          if String.eqb (task_status t) "pending" || String.eqb (task_status t) "downloading"
          then raise (mkExn ValidationError (active_conflict_msg model_id))
          else ret tt
      | None => ret tt
      end) ;;
     let download_path := resolve_download_path env model_id source in
     raise_if (validate_download_path env download_path) ;;
     raise_if (check_storage_space env) ;;
     let id := uuid4 env in
     now <- utcnow ;;
     let task := new_task id model_id source download_path now in
     d <- get_session ;;
     put_session (with_download_tasks (download_tasks d ++ [task]) d) ;;
     commit env ;;
     logger LvlInfo
       (Text "Created download task: {} for {}, download path: {}"
             [VStr id; VStr model_id; VStr download_path]) ;;
     ret task)
    (fun e =>
       rollback ;;
       logger LvlError (Text "Failed to create download task: {}" [VStr (exn_msg e)]) ;;
       raise e).

Definition pause_download (env : Env) (id : string) : M Dict :=
  task <- DownloadTaskM.query_get id ;;
  match task with
  | None => raise (mkExn NotFoundError ("download task " +:+ id +:+ " does not exist"))
  | Some task =>
      if negb (String.eqb (task_status task) "downloading") then
        raise (mkExn ValidationError ("task status " +:+ task_status task +:+ " cannot pause"))
      else
        try_catch
          (DownloadTaskM.pause_download id ;;
           commit env ;;
           logger LvlInfo (Text "Pausing download task: {}" [VStr id]) ;;
           ret [("message", VStr "download has paused"); ("task_id", VStr id)])
          (fun e =>
             rollback ;;
             logger LvlError (Text "Failed to pause download: {}" [VStr (exn_msg e)]) ;;
             raise (mkExn DownloadError ("Failed to pause download: " +:+ exn_msg e)))
  end.

(** The block that deletes the partly downloaded file or directory. *)
Definition remove_partial (env : Env) (file_path : option string) : M unit :=
  f <- Os.get_fs ;;
  let p := default "" file_path in
  if truthy_str file_path && bool_decide (is_Some (f !! p)) then
    try_catch
      ((match f !! p with
        | Some File => Os.remove env p
        | Some Dir => Os.rmtree env p
        | _ => ret tt
        end) ;;
       logger LvlInfo (Text "Deleted download file/directory: {}" [VStr p]))
      (fun e => logger LvlWarning (Text "Failed to delete file: {}" [VStr (exn_msg e)]))
  else ret tt.

Definition cancel_download (env : Env) (id : string) : M Dict :=
  task <- DownloadTaskM.query_get id ;;
  match task with
  | None => raise (mkExn NotFoundError ("download task " +:+ id +:+ " does not exist"))
  | Some task =>
      if String.eqb (task_status task) "completed" || String.eqb (task_status task) "cancelled"
      then
        raise (mkExn ValidationError ("task status " +:+ task_status task +:+ " cannot cancel"))
      else
        try_catch
          (DownloadTaskM.cancel_download env id ;;
           commit env ;;
           task <- DownloadTaskM.query_get id ;;
           remove_partial env (task ≫= task_file_path) ;;
           logger LvlInfo (Text "Cancelled download task: {}" [VStr id]) ;;
           ret [("message", VStr "download has been cancelled"); ("task_id", VStr id)])
          (fun e =>
             rollback ;;
             logger LvlError (Text "Failed to cancel download: {}" [VStr (exn_msg e)]) ;;
             raise (mkExn DownloadError ("Failed to cancel download: " +:+ exn_msg e)))
  end.

End DownloadService.

(** ** api/models/deployment.py *)

Module DeploymentM.
Import StateMachine ModelStateMachine.

(** [Deployment.query.get(deployment_id)] *)
Definition query_get (id : string) : M (option Deployment) :=
  d <- get_session ;;
  ret (List.find (fun x => bool_decide (id = dep_id x)) (deployments d)).

Definition update_deployment (id : string) (f : Deployment → Deployment) : M unit :=
  d <- get_session ;;
  put_session
    (with_deployments
       (List.map (fun x => if bool_decide (id = dep_id x) then f x else x)
                 (deployments d)) d).

Definition set_status (v : string) (x : Deployment) : Deployment :=
  mkDeployment (dep_id x) (dep_model_id x) (dep_model_source x) (dep_name x) v
    (dep_port x) (dep_host x) (dep_container_id x) (dep_last_health_check x)
    (dep_health_status x) (dep_updated_at x).

Definition set_health_status (v : string) (x : Deployment) : Deployment :=
  mkDeployment (dep_id x) (dep_model_id x) (dep_model_source x) (dep_name x) (dep_status x)
    (dep_port x) (dep_host x) (dep_container_id x) (dep_last_health_check x)
    (Some v) (dep_updated_at x).

Definition set_last_health_check (t : Z) (x : Deployment) : Deployment :=
  mkDeployment (dep_id x) (dep_model_id x) (dep_model_source x) (dep_name x) (dep_status x)
    (dep_port x) (dep_host x) (dep_container_id x) (Some t)
    (dep_health_status x) (dep_updated_at x).

Definition set_updated_at (t : Z) (x : Deployment) : Deployment :=
  mkDeployment (dep_id x) (dep_model_id x) (dep_model_source x) (dep_name x) (dep_status x)
    (dep_port x) (dep_host x) (dep_container_id x) (dep_last_health_check x)
    (dep_health_status x) (Some t).

Definition VOptInt (o : option Z) : PyVal :=
  match o with Some z => VInt z | None => VNone end.

Definition _trigger_state_event (env : Env) (id event_name : string)
    (event_data : Dict) : M unit :=
  self <- query_get id ;;
  match self with
  | None => ret tt
  | Some self =>
      try_catch
        (r <- trigger_model_event env (dep_model_id self) (dep_model_source self)
                event_name
                (Some ([("deployment_id", VStr (dep_id self));
                        ("deployment_name", VStr (dep_name self));
                        ("deployment_status", VStr (dep_status self));
                        ("health_status", VOptStr (dep_health_status self));
                        ("port", VOptInt (dep_port self));
                        ("host", VOptStr (dep_host self))] ++ event_data)) ;;
         if negb (fst r)
         then logger LvlWarning
                (Text "State event '{}' failed for model {}: {}"
                      [VStr event_name; VStr (dep_model_id self); VOptStr (snd r)])
         else ret tt)
        (fun e =>
           logger LvlError
             (Text "Failed to trigger state event '{}' for deployment {}: {}"
                   [VStr event_name; VStr (dep_id self); VStr (exn_msg e)]))
  end.

(** The event is raised only when the health status turns unhealthy. *)
Definition update_health_status (env : Env) (id : string) (status : string) : M unit :=
  self <- query_get id ;;
  let old_health_status := self ≫= dep_health_status in
  update_deployment id (set_health_status status) ;;
  t1 <- utcnow ;;
  update_deployment id (set_last_health_check t1) ;;
  t2 <- utcnow ;;
  update_deployment id (set_updated_at t2) ;;
  if String.eqb status "unhealthy"
     && negb (bool_decide (old_health_status = Some "unhealthy"))
  then _trigger_state_event env id "health_check_failed"
         [("health_check_time", VIso t1);
          ("previous_status", VOptStr old_health_status)]
  else ret tt.

End DeploymentM.

(** ** api/services/system_service.py: the port checks *)

Module SystemService.

Definition check_port_availability (env : Env) (port : Z) : M bool :=
  match net_connections env with
  | Some connections =>
      ret (negb (existsb (fun conn => (laddr_port conn =? port) && conn_listen conn)
                         connections))
  | None =>
      logger LvlError (Text "Failed to check port availability: {}" []) ;;
      ret false
  end.

(** The loop [for port in ports: if available: return port], then [None]. *)
Fixpoint first_available (env : Env) (ports : list Z) : M (option Z) :=
  match ports with
  | [] => ret None
  | port :: rest =>
      ok <- check_port_availability env port ;;
      if ok then ret (Some port) else first_available env rest
  end.

(** [range(start_port, end_port + 1)] *)
Definition find_available_port (env : Env) (start_port end_port : Z) : M (option Z) :=
  first_available env (seqZ start_port (end_port + 1 - start_port)).

End SystemService.

(** ** api/services/deployment_service.py *)

Module DeploymentService.
Import StateMachine ModelStateMachine.

(** The fields of the request's [config] dict that [create_deployment]
    reads; an absent key and a [None] value read the same. *)
Record DeployConfig := mkConfig {
  cfg_port : option Z;
  cfg_host : option string;
}.

Definition _allocate_port (env : Env) (preferred_port : option Z) : M (option Z) :=
  if DownloadTaskM.truthy_int preferred_port then
    let p := default 0 preferred_port in
    ok <- SystemService.check_port_availability env p ;;
    if ok then ret (Some p)
    else raise (mkExn ValidationError ("端口 " +:+ pretty p +:+ " 已被占用"))
  else SystemService.find_available_port env 8000 9000.

Definition new_deployment (id model_id source name : string) (port : Z)
    (host : string) (now : Z) : Deployment :=
  mkDeployment id model_id source name "pending" (Some port) (Some host)
               None None (Some "unknown") (Some now).

Definition create_deployment (env : Env) (model_id source name : string)
    (config : option DeployConfig) : M Deployment :=
  try_catch
    (model <- query_model model_id source ;;
     (match model with
      | None => raise (mkExn NotFoundError ("模型 " +:+ model_id +:+ " 不存在"))
      | Some _ => ret tt
      end) ;;
     d <- get_session ;;
     (match List.find (fun x => bool_decide (dep_name x = name)) (deployments d) with
      | Some _ => raise (mkExn ConflictError ("部署名称 " +:+ name +:+ " 已存在"))
      | None => ret tt
      end) ;;
     port <- _allocate_port env (config ≫= cfg_port) ;;
     if negb (DownloadTaskM.truthy_int port) then
       raise (mkExn ValidationError "无法分配可用端口")
     else
       let id := uuid4 env in
       now <- utcnow ;;
       let deployment :=
         new_deployment id model_id source name (default 0 port)
                        (default "0.0.0.0" (config ≫= cfg_host)) now in
       d <- get_session ;;
       put_session (with_deployments (deployments d ++ [deployment]) d) ;;
       commit env ;;
       logger LvlInfo (Text "Created deployment: {} for {}" [VStr id; VStr model_id]) ;;
       ret deployment)
    (fun e =>
       rollback ;;
       logger LvlError (Text "Failed to create deployment: {}" [VStr (exn_msg e)]) ;;
       raise e).

Definition VOptIso (o : option Z) : PyVal :=
  match o with Some t => VIso t | None => VNone end.

(** ["last_check": deployment.last_health_check.isoformat() if .. else None] *)
Definition last_check (id : string) : M PyVal :=
  x <- DeploymentM.query_get id ;;
  ret (VOptIso (x ≫= dep_last_health_check)).

Definition check_deployment_health (env : Env) (id : string) : M Dict :=
  deployment <- DeploymentM.query_get id ;;
  match deployment with
  | None => raise (mkExn NotFoundError ("部署 " +:+ id +:+ " 不存在"))
  | Some deployment =>
      try_catch
        (if negb (String.eqb (dep_status deployment) "running") then
           DeploymentM.update_health_status env id "unhealthy" ;;
           commit env ;;
           x <- DeploymentM.query_get id ;;
           lc <- last_check id ;;
           ret [("deployment_id", VStr id); ("healthy", VBool false);
                ("status", VOptStr (dep_status <$> x)); ("last_check", lc)]
         else if truthy_str (dep_container_id deployment)
                 && negb (check_container_status env
                            (default "" (dep_container_id deployment))) then
           DeploymentM.update_health_status env id "unhealthy" ;;
           DeploymentM.update_deployment id (DeploymentM.set_status "stopped") ;;
           commit env ;;
           lc <- last_check id ;;
           ret [("deployment_id", VStr id); ("healthy", VBool false);
                ("error", VStr "进程不存在"); ("last_check", lc)]
         else
           healthy <-
             (if String.eqb (dep_model_source deployment) "huggingface"
                 || String.eqb (dep_model_source deployment) "ollama"
              then match probe env deployment with
                   | ProbeOk => ret true
                   | ProbeDown => ret false
                   | ProbeCrash msg => raise (mkExn OtherException msg)
                   end
              else ret false) ;;
           (if healthy
            then DeploymentM.update_health_status env id "healthy"
            else DeploymentM.update_health_status env id "unhealthy") ;;
           commit env ;;
           lc <- last_check id ;;
           ret [("deployment_id", VStr id); ("healthy", VBool healthy);
                ("port_accessible", VBool healthy); ("last_check", lc)])
        (fun e =>
           logger LvlError (Text "Health check failed: {}" [VStr (exn_msg e)]) ;;
           DeploymentM.update_health_status env id "error" ;;
           commit env ;;
           lc <- last_check id ;;
           ret [("deployment_id", VStr id); ("healthy", VBool false);
                ("error", VStr (exn_msg e)); ("last_check", lc)])
  end.

End DeploymentService.

(** * Specification vocabulary *)

Import StateMachine.

(** The state the machine takes a stored status for. *)
Definition state_of_status (status : option string) : ModelState :=
  if truthy_str status
  then default INACTIVE (ModelState_of (default "" status))
  else INACTIVE.

(** The status column of the row [model_id] as a table [d] holds it;
    the outer [None] says that the row is missing. *)
Definition stored_status (d : DB) (model_id : string) : option (option string) :=
  Model_status <$> models d !! model_id.

(** The row that the state machine's query finds for a model key. *)
Definition model_row (d : DB) (model_id model_source : string) : option Model :=
  match models d !! model_id with
  | Some m => if bool_decide (Model_source m = model_source) then Some m else None
  | None => None
  end.

(** [(state, event)] has an entry in the transition table. *)
Definition legal (s : ModelState) (e : ModelEvent) : Prop :=
  ∃ next, In ((s, e), next) TRANSITIONS.

(** The state change records of a log, oldest first. *)
Definition history (l : list LogRecord) : list StateChange :=
  omap (fun r => match log_msg r with
                 | StateChangeRecorded c => Some c
                 | Text _ _ => None
                 end) l.

(** The warning that reading an unrecognised stored status leaves in the log. *)
Definition invalid_state_warning (model_id : string) (status : option string)
  : list LogRecord :=
  if truthy_str status then
    match ModelState_of (default "" status) with
    | Some _ => []
    | None =>
        [mkLog LvlWarning
           (Text "Invalid current state '{}' for model {}, resetting to inactive"
                 [VOptStr status; VStr model_id])]
    end
  else [].

(** The model_status event that [_notify_state_change] publishes. *)
Definition status_event (model_id new_status : string) (t : Z) : ModelStatusEvent :=
  mkStatusEvent
    [mkItem model_id (ModelStateMachine.model_name_of model_id) new_status
            (ModelStateMachine.last_updated_text new_status)]
    t (Some 0).

(** The log line only [force_state] writes. *)
Definition is_force_set_line (r : LogRecord) : bool :=
  match log_msg r with
  | Text t _ => String.eqb t "Model state force set: {} {} -> {}"
  | StateChangeRecorded _ => false
  end.

(** The log line of a failed notification. *)
Definition is_notify_failure_line (r : LogRecord) : bool :=
  match log_msg r with
  | Text t _ => String.eqb t "Failed to notify state change: {}"
  | StateChangeRecorded _ => false
  end.

(** The download task whose primary key is [id], as the session sees it. *)
Definition task_of (d : DB) (id : string) : option DownloadTask :=
  List.find (fun t => bool_decide (id = task_id t)) (download_tasks d).

(** The deployment whose primary key is [id], as the session sees it. *)
Definition deployment_of (d : DB) (id : string) : option Deployment :=
  List.find (fun x => bool_decide (id = dep_id x)) (deployments d).

(** A progress report of the transfer worker: downloaded size, total size,
    speed. *)
Definition Report : Type := Z * option Z * option PyNum.

Definition reported_size (r : Report) : Z := fst (fst r).

(** The task object after each of a sequence of progress updates, the
    first of them stamped [now], beside the exception of the update that
    raised. *)
Fixpoint run_updates (now : Z) (reports : list Report) (t : DownloadTask)
  : list (DownloadTask * option Exn) :=
  match reports with
  | [] => []
  | r :: rest =>
      let u := DownloadTaskM.update_progress_obj (reported_size r) (snd (fst r)) (snd r) t in
      let t' :=
        match snd u with
        | None => DownloadTaskM.set_updated_at now (fst u)
        | Some _ => fst u
        end in
      (t', snd u) :: run_updates (now + 1) rest t'
  end.

(** A listening socket is bound to [port]. *)
Definition listening (conns : list Conn) (port : Z) : Prop :=
  Exists (fun c => laddr_port c = port ∧ conn_listen c = true) conns.

#[global] Instance listening_dec conns port : Decision (listening conns port).
Proof. unfold listening. apply _. Defined.

(** The worlds after each of a sequence of health checks of the deployment
    [id], one environment per call. *)
Fixpoint run_health_checks (envs : list Env) (id : string) (w : World) : list World :=
  match envs with
  | [] => []
  | env :: rest =>
      let w' := snd (DeploymentService.check_deployment_health env id w) in
      w' :: run_health_checks rest id w'
  end.

(** The HEALTH_CHECK_FAILED event of the deployment's model key, as the trace
    of raised events records it. *)
Definition health_check_failed_of (d : Deployment) : RaisedEvent :=
  mkRaised (dep_model_id d) (dep_model_source d) "health_check_failed".

(** ** Sample environments and worlds *)

Module Sample.

(** Nothing fails, the catalogs know every model, no socket is bound. *)
Definition env_ok : Env :=
  mkEnv None None None (fun _ => Ret true) (Ret ["llama3"])
        (fun model_id source => "/data/downloads/" +:+ source +:+ "/" +:+ model_id)
        (fun _ => None) None "00000000-0000-4000-8000-000000000001"
        (fun _ => true) (fun _ => ProbeOk) (Some []).

(** As [env_ok], but publishing on the event queue raises. *)
Definition env_push_fails : Env :=
  mkEnv None (Some "queue closed") None (fun _ => Ret true) (Ret ["llama3"])
        (fun model_id source => "/data/downloads/" +:+ source +:+ "/" +:+ model_id)
        (fun _ => None) None "00000000-0000-4000-8000-000000000001"
        (fun _ => true) (fun _ => ProbeOk) (Some []).

(** As [env_ok], but the health endpoint does not answer. *)
Definition env_probe_down : Env :=
  mkEnv None None None (fun _ => Ret true) (Ret ["llama3"])
        (fun model_id source => "/data/downloads/" +:+ source +:+ "/" +:+ model_id)
        (fun _ => None) None "00000000-0000-4000-8000-000000000001"
        (fun _ => true) (fun _ => ProbeDown) (Some []).

(** As [env_ok], with ports 8000 and 8001 bound by listening sockets. *)
Definition env_ports_bound : Env :=
  mkEnv None None None (fun _ => Ret true) (Ret ["llama3"])
        (fun model_id source => "/data/downloads/" +:+ source +:+ "/" +:+ model_id)
        (fun _ => None) None "00000000-0000-4000-8000-000000000001"
        (fun _ => true) (fun _ => ProbeOk)
        (Some [mkConn 8000 true; mkConn 8001 true; mkConn 8002 false]).

Definition model_active : Model := mkModel "huggingface" (Some "active") None.
Definition model_downloading : Model := mkModel "huggingface" (Some "downloading") None.
Definition model_deprecated : Model := mkModel "huggingface" (Some "deprecated") None.

Definition task_downloading : DownloadTask :=
  mkDownloadTask "t1" "org/m" "huggingface" "downloading" (PyInt 0) 0 None None
                 (Some "/data/downloads/huggingface/org_m") None (Some 5) None.

Definition task_cancelled_old : DownloadTask :=
  mkDownloadTask "t0" "org/m" "huggingface" "cancelled" (PyInt 0) 0 None None
                 (Some "/data/downloads/huggingface/org_m") None (Some 1) None.

Definition deployment_running : Deployment :=
  mkDeployment "d1" "org/m" "huggingface" "dep1" "running" (Some 8000)
               (Some "0.0.0.0") (Some "4242") None (Some "unknown") None.

Definition fs_partial : gmap string FsNode :=
  {[ "/data/downloads/huggingface/org_m" := Dir;
     "/data/downloads/huggingface/org_m/model.bin" := File;
     "/data/downloads/huggingface/org_m/sub" := Dir;
     "/data/downloads/huggingface/org_m/sub/part" := File;
     "/data/downloads/huggingface/org_mx" := File ]}.

Definition db_active : DB :=
  mkDB {[ "org/m" := model_active ]} [] [deployment_running].

Definition db_downloading : DB :=
  mkDB {[ "org/m" := model_downloading ]} [task_downloading] [].

(** An older, cancelled task of the key precedes the downloading one. *)
Definition db_two_tasks : DB :=
  mkDB {[ "org/m" := model_downloading ]} [task_cancelled_old; task_downloading] [].

Definition db_deprecated : DB :=
  mkDB {[ "org/m" := model_deprecated ]} [] [].

Definition world_of (d : DB) : World := mkWorld d d [] [] [] fs_partial 100.

End Sample.

(** * Further operations of the lifecycle core *)

(** ** api/services/download_service.py: start, resume, delete, queue *)

(** What submitting the Celery task does: the task system is missing
    ([download_model_task] is None), [delay] returns a result id, or
    [delay] raises. *)
Inductive Celery :=
  | CeleryUnavailable
  | CelerySubmitted (result_id : string)
  | CeleryRaises (msg : string).

(** The dict of [get_download_queue]. *)
Record QueueInfo := mkQueueInfo {
  total_active : nat;
  downloading : nat;
  pending : nat;
  paused : nat;
  queue_tasks : list DownloadTask;
}.

Module DownloadServiceOps.
Import ModelStateMachine.

Definition not_found (id : string) : Exn :=
  mkExn NotFoundError ("download task " +:+ id +:+ " does not exist").

Definition start_download (env : Env) (celery : Celery) (id : string) : M Dict :=
  task <- DownloadTaskM.query_get id ;;
  match task with
  | None => raise (not_found id)
  | Some task =>
      if negb (String.eqb (task_status task) "pending"
               || String.eqb (task_status task) "paused") then
        raise (mkExn ValidationError
                 ("task status " +:+ task_status task +:+ " cannot start download"))
      else
        try_catch
          (DownloadTaskM.start_download env id ;;
           commit env ;;
           (match celery with
            | CelerySubmitted result_id =>
                logger LvlInfo (Text "Celery task submitted: {}" [VStr result_id])
            | CeleryRaises msg =>
                logger LvlError (Text "Failed to submit Celery task: {}" [VStr msg])
            | CeleryUnavailable =>
                logger LvlWarning
                  (Text "Celery task system unavailable, download task will be created but not auto-started" [])
            end) ;;
           logger LvlInfo (Text "Starting download task: {}" [VStr id]) ;;
           ret [("message", VStr "download has started"); ("task_id", VStr id)])
          (fun e =>
             rollback ;;
             logger LvlError (Text "Failed to start download: {}" [VStr (exn_msg e)]) ;;
             raise (mkExn DownloadError ("Failed to start download: " +:+ exn_msg e)))
  end.

Definition resume_download (env : Env) (celery : Celery) (id : string) : M Dict :=
  task <- DownloadTaskM.query_get id ;;
  match task with
  | None => raise (not_found id)
  | Some task =>
      if negb (String.eqb (task_status task) "paused"
               || String.eqb (task_status task) "failed") then
        raise (mkExn ValidationError
                 ("task status " +:+ task_status task +:+ " cannot continue"))
      else
        try_catch
          (DownloadTaskM.resume_download env id ;;
           commit env ;;
           (match celery with
            | CelerySubmitted result_id =>
                logger LvlInfo (Text "Celery task resubmitted: {}" [VStr result_id])
            | CeleryRaises msg =>
                logger LvlError (Text "Failed to resubmit Celery task: {}" [VStr msg])
            | CeleryUnavailable =>
                logger LvlWarning
                  (Text "Celery task system unavailable, cannot continue download task" [])
            end) ;;
           logger LvlInfo (Text "Resuming download task: {}" [VStr id]) ;;
           ret [("message", VStr "download has continued"); ("task_id", VStr id)])
          (fun e =>
             rollback ;;
             logger LvlError (Text "Failed to resume download: {}" [VStr (exn_msg e)]) ;;
             raise (mkExn DownloadError ("Failed to resume download: " +:+ exn_msg e)))
  end.

(** [db.session.delete(task)] *)
Definition session_delete (id : string) : M unit :=
  d <- get_session ;;
  put_session
    (with_download_tasks
       (List.filter (fun t => negb (bool_decide (id = task_id t))) (download_tasks d)) d).

Definition delete_download (env : Env) (id : string) : M Dict :=
  task <- DownloadTaskM.query_get id ;;
  match task with
  | None => raise (not_found id)
  | Some task =>
      try_catch
        (task <- (if String.eqb (task_status task) "pending"
                     || String.eqb (task_status task) "downloading"
                  then DownloadService.cancel_download env id ;;
                       DownloadTaskM.query_get id
                  else ret (Some task)) ;;
         DownloadService.remove_partial env (task ≫= task_file_path) ;;
         session_delete id ;;
         commit env ;;
         logger LvlInfo (Text "Deleted download task: {}" [VStr id]) ;;
         ret [("message", VStr "download task has been deleted"); ("task_id", VStr id)])
        (fun e =>
           rollback ;;
           logger LvlError (Text "Failed to delete download task: {}" [VStr (exn_msg e)]) ;;
           raise (mkExn DownloadError ("Failed to delete download task: " +:+ exn_msg e)))
  end.

(** [DownloadTask.get_active_tasks()] *)
Definition get_active_tasks : M (list DownloadTask) :=
  d <- get_session ;;
  ret (List.filter
         (fun t => String.eqb (task_status t) "pending"
                   || String.eqb (task_status t) "downloading"
                   || String.eqb (task_status t) "paused")
         (download_tasks d)).

Definition count_status (v : string) (l : list DownloadTask) : nat :=
  length (List.filter (fun t => String.eqb (task_status t) v) l).

Definition get_download_queue : M QueueInfo :=
  active_tasks <- get_active_tasks ;;
  ret (mkQueueInfo (length active_tasks)
                   (count_status "downloading" active_tasks)
                   (count_status "pending" active_tasks)
                   (count_status "paused" active_tasks)
                   active_tasks).

(** [_check_storage_space]: [disk_usage] is what [shutil.disk_usage]
    answers for the free space, or the exception it raises.  The
    StorageError raised inside the try block is caught by the handler of
    the same block and wrapped again. *)
Definition _check_storage_space (disk_usage : Outcome Z) (required_space : Z) : M unit :=
  try_catch
    (free_space <- DownloadService.lift_outcome disk_usage ;;
     if free_space <? required_space then
       raise (mkExn StorageError
                ("Storage space insufficient, need "
                 +:+ pretty (required_space `div` 1024 ^ 3) +:+ "GB, available "
                 +:+ pretty (free_space `div` 1024 ^ 3) +:+ "GB"))
     else ret tt)
    (fun e =>
       logger LvlError (Text "Failed to check storage space: {}" [VStr (exn_msg e)]) ;;
       raise (mkExn StorageError ("Failed to check storage space: " +:+ exn_msg e))).

(** [s.replace(a, b)] for one-character [a] and [b]. *)
Fixpoint replace_char (a b : ascii) (s : string) : string :=
  match s with
  | EmptyString => EmptyString
  | String c rest =>
      String (if Ascii.eqb c a then b else c) (replace_char a b rest)
  end.

(** [model_id.replace('/', '_').replace(':', '_')], the directory name that
    [_resolve_download_path] joins to the storage path and the source. *)
Definition model_dir_name (model_id : string) : string :=
  replace_char ":" "_" (replace_char "/" "_" model_id).

End DownloadServiceOps.

(** ** tasks/download_tasks.py: the progress callback of the transfer *)

Module DownloadWorker.

(** [float(z)] as the division of an int by a float converts it: rounded
    to the nearest float, OverflowError when [z] is too large. *)
Definition float_of_int (z : Z) : Outcome spec_float :=
  match binary_normalize Float64.prec Float64.emax z 0 false with
  | S754_infinity _ => Raise (mkExn OtherException "int too large to convert to float")
  | x => Ret x
  end.

(** [progress_callback(progress_info)] of the task [id], the dict carrying
    all its keys: [elapsed_time] is the wall clock time since the first
    invocation, a float, [update_state_raises] says whether
    [celery_task.update_state] raises.  A task that has left the state
    downloading is not updated.  The log line of a stored update is kept
    by its sizes. *)
Definition progress_callback (env : Env) (update_state_raises : option string)
    (id : string) (downloaded_size total_size : Z) (elapsed_time : spec_float) : M unit :=
  try_catch
    (current_task <- DownloadTaskM.query_get id ;;
     match current_task with
     | None =>
         raise (mkExn OtherException "'NoneType' object has no attribute 'status'")
     | Some current_task =>
         if negb (String.eqb (task_status current_task) "downloading") then
           logger LvlInfo
             (Text "Task {} status changed to {}, stopping download"
                   [VStr id; VStr (task_status current_task)])
         else
           speed <-
             (if SFltb (S754_zero false) elapsed_time then
                x <- DownloadService.lift_outcome (float_of_int downloaded_size) ;;
                ret (PyFloat (SFdiv Float64.prec Float64.emax x elapsed_time))
              else ret (PyInt 0)) ;;
           DownloadTaskM.update_progress id downloaded_size (Some total_size) (Some speed) ;;
           commit env ;;
           (match update_state_raises with
            | Some msg => raise (mkExn OtherException msg)
            | None => ret tt
            end) ;;
           logger LvlInfo
             (Text "Download progress: ({}/{} bytes)"
                   [VInt downloaded_size; VInt total_size])
     end)
    (fun e => logger LvlError (Text "Failed to update progress: {}" [VStr (exn_msg e)])).

End DownloadWorker.

(** ** api/models/deployment.py: the status methods

    The row keeps no [deployed_at], [stopped_at] and [config] column: the
    two timestamps are written and never read by the core, so only their
    clock readings remain, and the error note that [fail_deployment] adds
    to [config] is left out. *)

Module DeploymentOps.
Import ModelStateMachine.

Definition set_container_id (v : string) (x : Deployment) : Deployment :=
  mkDeployment (dep_id x) (dep_model_id x) (dep_model_source x) (dep_name x) (dep_status x)
    (dep_port x) (dep_host x) (Some v) (dep_last_health_check x)
    (dep_health_status x) (dep_updated_at x).

Definition set_port (p : Z) (x : Deployment) : Deployment :=
  mkDeployment (dep_id x) (dep_model_id x) (dep_model_source x) (dep_name x) (dep_status x)
    (Some p) (dep_host x) (dep_container_id x) (dep_last_health_check x)
    (dep_health_status x) (dep_updated_at x).

(** [get_service_url]: [http://host:port] when port and host are truthy. *)
Definition get_service_url (x : Deployment) : option string :=
  if DownloadTaskM.truthy_int (dep_port x) && truthy_str (dep_host x)
  then Some ("http://" +:+ default "" (dep_host x) +:+ ":" +:+ pretty (default 0 (dep_port x)))
  else None.

Definition is_running (x : Deployment) : bool := String.eqb (dep_status x) "running".

Definition is_healthy (x : Deployment) : bool :=
  bool_decide (dep_health_status x = Some "healthy").

Definition start_deployment (env : Env) (id : string) : M unit :=
  DeploymentM.update_deployment id (DeploymentM.set_status "deploying") ;;
  t1 <- utcnow ;;
  t2 <- utcnow ;;
  DeploymentM.update_deployment id (DeploymentM.set_updated_at t2) ;;
  DeploymentM._trigger_state_event env id "deploy_started" [("started_at", VIso t1)].

Definition complete_deployment (env : Env) (id : string)
    (container_id : option string) (port : option Z) : M unit :=
  DeploymentM.update_deployment id (DeploymentM.set_status "running") ;;
  (if truthy_str container_id
   then DeploymentM.update_deployment id (set_container_id (default "" container_id))
   else ret tt) ;;
  (if DownloadTaskM.truthy_int port
   then DeploymentM.update_deployment id (set_port (default 0 port))
   else ret tt) ;;
  t <- utcnow ;;
  DeploymentM.update_deployment id (DeploymentM.set_updated_at t) ;;
  self <- DeploymentM.query_get id ;;
  DeploymentM._trigger_state_event env id "deploy_completed"
    [("completed_at", VIso t);
     ("container_id", VOptStr container_id);
     ("service_url", VOptStr (self ≫= get_service_url))].

Definition stop_deployment (env : Env) (id : string) : M unit :=
  DeploymentM.update_deployment id (DeploymentM.set_status "stopped") ;;
  t1 <- utcnow ;;
  t2 <- utcnow ;;
  DeploymentM.update_deployment id (DeploymentM.set_updated_at t2) ;;
  DeploymentM._trigger_state_event env id "deploy_stopped" [("stopped_at", VIso t1)].

Definition fail_deployment (env : Env) (id : string) (error_message : option string)
  : M unit :=
  DeploymentM.update_deployment id (DeploymentM.set_status "failed") ;;
  t <- utcnow ;;
  DeploymentM.update_deployment id (DeploymentM.set_updated_at t) ;;
  DeploymentM._trigger_state_event env id "deploy_failed"
    [("failed_at", VIso t); ("error_message", VOptStr error_message)].

End DeploymentOps.

(** ** api/services/deployment_service.py: stop, delete, status *)

Module DeploymentServiceOps.
Import ModelStateMachine.

Definition not_found (id : string) : Exn :=
  mkExn NotFoundError ("部署 " +:+ id +:+ " 不存在").

(** What stopping the process or container meets: it stops; terminating
    the process [pid] raises inside [kill_process]; or [docker stop]
    raises.  Both failures are caught and logged. *)
Inductive StopContainer :=
  | ContainerStopped
  | TerminateFails (pid : Z) (msg : string)
  | DockerStopFails (msg : string).

Definition _stop_container (how : StopContainer) : M bool :=
  match how with
  | ContainerStopped => ret true
  | TerminateFails pid msg =>
      logger LvlError (Text "Failed to terminate process PID {}: {}" [VInt pid; VStr msg]) ;;
      ret false
  | DockerStopFails msg =>
      logger LvlError (Text "Failed to stop container: {}" [VStr msg]) ;;
      ret false
  end.

Definition stop_deployment (env : Env) (how : StopContainer) (id : string) : M Dict :=
  deployment <- DeploymentM.query_get id ;;
  match deployment with
  | None => raise (not_found id)
  | Some deployment =>
      if negb (String.eqb (dep_status deployment) "running"
               || String.eqb (dep_status deployment) "deploying") then
        raise (mkExn ValidationError
                 ("部署状态 " +:+ dep_status deployment +:+ " 不能停止"))
      else
        try_catch
          ((if truthy_str (dep_container_id deployment)
            then _stop_container how ;; ret tt
            else ret tt) ;;
           DeploymentOps.stop_deployment env id ;;
           commit env ;;
           logger LvlInfo (Text "Stopping deployment: {}" [VStr id]) ;;
           ret [("message", VStr "部署已停止"); ("deployment_id", VStr id)])
          (fun e =>
             rollback ;;
             logger LvlError (Text "Failed to stop deployment: {}" [VStr (exn_msg e)]) ;;
             raise e)
  end.

(** [db.session.delete(deployment)] *)
Definition session_delete (id : string) : M unit :=
  d <- get_session ;;
  put_session
    (with_deployments
       (List.filter (fun x => negb (bool_decide (id = dep_id x))) (deployments d)) d).

Definition delete_deployment (env : Env) (how : StopContainer) (id : string) : M Dict :=
  deployment <- DeploymentM.query_get id ;;
  match deployment with
  | None => raise (not_found id)
  | Some deployment =>
      try_catch
        ((if String.eqb (dep_status deployment) "running"
             || String.eqb (dep_status deployment) "deploying"
          then stop_deployment env how id ;;
               DeploymentM.query_get id ;; ret tt
          else ret tt) ;;
         session_delete id ;;
         commit env ;;
         logger LvlInfo (Text "Deleting deployment: {}" [VStr id]) ;;
         ret [("message", VStr "部署已删除"); ("deployment_id", VStr id)])
        (fun e =>
           rollback ;;
           logger LvlError (Text "Failed to delete deployment: {}" [VStr (exn_msg e)]) ;;
           raise e)
  end.

(** [get_deployment_status]: a running deployment whose process is gone is
    marked stopped by a plain attribute write; the flush of that write
    stamps [updated_at] through the column's [onupdate].  The answer is the
    row ([to_dict]). *)
Definition get_deployment_status (env : Env) (id : string) : M (option Deployment) :=
  deployment <- DeploymentM.query_get id ;;
  match deployment with
  | None => raise (not_found id)
  | Some deployment =>
      (if DeploymentOps.is_running deployment
          && truthy_str (dep_container_id deployment)
          && negb (check_container_status env (default "" (dep_container_id deployment)))
       then
         DeploymentM.update_deployment id (DeploymentM.set_status "stopped") ;;
         t <- utcnow ;;
         DeploymentM.update_deployment id (DeploymentM.set_updated_at t) ;;
         commit env
       else ret tt) ;;
      DeploymentM.query_get id
  end.

End DeploymentServiceOps.

(** ** api/utils/event_queue.py: one channel's listener *)

Module EventQueue.

(** What one iteration of the listener loop meets: the [running] flag it
    tests, and what [get(timeout=1)] answers: an event, the stop signal
    [None], or the timeout [queue.Empty]. *)
Inductive GetResult (E : Type) :=
  | GotEvent (ev : E)
  | GotStop
  | GotEmpty.
Arguments GotEvent {E} ev.
Arguments GotStop {E}.
Arguments GotEmpty {E}.

(** The loop of [_queue_listener] over the iterations of a run of the
    channel [channel]; [callback] is the registered broadcast callback,
    answering the message of the exception it raises, and [type_of] reads
    [event_data.get('type')].  The result lists the events handed to the
    callback, in order, and the log lines.  A run that ends with the list
    of iterations is still looping. *)
Fixpoint listener_loop {E} (channel : string) (type_of : E → PyVal)
    (callback : option (E → option string))
    (steps : list (bool * GetResult E)) : list E * list LogRecord :=
  match steps with
  | [] => ([], [])
  | (running, got) :: rest =>
      let stopped :=
        ([], [mkLog LvlInfo (Text "Stopped listener for {} events" [VStr channel])]) in
      if negb running then stopped
      else
        match got with
        | GotStop => stopped
        | GotEmpty => listener_loop channel type_of callback rest
        | GotEvent ev =>
            let '(delivered, lines) := listener_loop channel type_of callback rest in
            match callback with
            | Some cb =>
                match cb ev with
                | None =>
                    (ev :: delivered,
                     mkLog LvlDebug
                           (Text "Broadcasted {} event: {}" [VStr channel; type_of ev])
                     :: lines)
                | Some msg =>
                    (ev :: delivered,
                     mkLog LvlError
                           (Text "Failed to broadcast {} event: {}" [VStr channel; VStr msg])
                     :: lines)
                end
            | None =>
                (delivered,
                 mkLog LvlWarning
                       (Text "No broadcast callback registered for {}" [VStr channel])
                 :: lines)
            end
        end
  end.

Definition _queue_listener {E} (channel : string) (type_of : E → PyVal)
    (callback : option (E → option string))
    (steps : list (bool * GetResult E)) : list E * list LogRecord :=
  let '(delivered, lines) := listener_loop channel type_of callback steps in
  (delivered,
   mkLog LvlInfo (Text "Started listener for {} events" [VStr channel]) :: lines).

(** The iteration ends the loop: the flag is cleared or the stop signal
    arrives. *)
Definition stops {E} (step : bool * GetResult E) : bool :=
  negb (fst step) || match snd step with GotStop => true | _ => false end.

(** The event that the iteration takes from the queue. *)
Definition event_of {E} (step : bool * GetResult E) : option E :=
  match snd step with GotEvent ev => Some ev | _ => None end.

End EventQueue.

(** ** Vocabulary of the further properties *)

(** The character [c] occurs in [s]. *)
Fixpoint contains_char (c : ascii) (s : string) : bool :=
  match s with
  | EmptyString => false
  | String c' rest => Ascii.eqb c' c || contains_char c rest
  end.

(** The prefix of the error message that [transition] returns when the
    storage raises [e]. *)
Definition storage_failure_prefix (e : Exn) : string :=
  match exn_kind e with
  | IntegrityError => "Database integrity error: "
  | _ => "State transition failed: "
  end.

(** How the model table of [d'] follows from that of [d] when the event [e]
    has been raised for a model in the state [current]: the table entry's
    state is written into the row, or, the event being refused, nothing. *)
Definition model_follows (d d' : DB) (model_id : string) (current : ModelState)
    (e : ModelEvent) : Prop :=
  (∀ next, In ((current, e), next) TRANSITIONS →
     ∃ ts, models d'
           = alter (fun m => mkModel (Model_source m) (Some (state_value next)) (Some ts))
                   model_id (models d))
  ∧ (¬ legal current e → models d' = models d).

(** What a status method of the task [id] leaves behind, storage available:
    the task carries [status], the other tasks are as before, the event [e]
    has been raised once for the task's model, and everything is
    committed. *)
Definition task_event_effect (w : World) (r : Outcome unit * World) (id : string)
    (t : DownloadTask) (m : Model) (e : ModelEvent) (status : string) : Prop :=
  fst r = Ret tt
  ∧ (∃ t', task_of (session (snd r)) id = Some t'
           ∧ task_status t' = status
           ∧ task_model_id t' = task_model_id t
           ∧ task_model_source t' = task_model_source t
           ∧ task_file_path t' = task_file_path t)
  ∧ (∀ id', id' ≠ id → task_of (session (snd r)) id' = task_of (session w) id')
  ∧ raised (snd r)
    = raised w ++ [mkRaised (task_model_id t) (task_model_source t) (event_value e)]
  ∧ deployments (session (snd r)) = deployments (session w)
  ∧ committed (snd r) = session (snd r)
  ∧ fs (snd r) = fs w
  ∧ model_follows (session w) (session (snd r)) (task_model_id t)
      (state_of_status (Model_status m)) e.

(** The same for a status method of the deployment [id]. *)
Definition deployment_event_effect (w : World) (r : Outcome unit * World) (id : string)
    (x : Deployment) (m : Model) (e : ModelEvent) (status : string) : Prop :=
  fst r = Ret tt
  ∧ (∃ x', deployment_of (session (snd r)) id = Some x'
           ∧ dep_status x' = status
           ∧ dep_model_id x' = dep_model_id x
           ∧ dep_model_source x' = dep_model_source x
           ∧ dep_health_status x' = dep_health_status x)
  ∧ (∀ id', id' ≠ id → deployment_of (session (snd r)) id' = deployment_of (session w) id')
  ∧ raised (snd r)
    = raised w ++ [mkRaised (dep_model_id x) (dep_model_source x) (event_value e)]
  ∧ download_tasks (session (snd r)) = download_tasks (session w)
  ∧ committed (snd r) = session (snd r)
  ∧ fs (snd r) = fs w
  ∧ model_follows (session w) (session (snd r)) (dep_model_id x)
      (state_of_status (Model_status m)) e.

(** Further sample data. *)
Module SampleMore.

(** As [Sample.env_ok], but the commit raises an operational error. *)
Definition env_commit_fails : Env :=
  mkEnv (Some (mkExn OtherException "server closed the connection")) None None
        (fun _ => Ret true) (Ret ["llama3"])
        (fun model_id source => "/data/downloads/" +:+ source +:+ "/" +:+ model_id)
        (fun _ => None) None "00000000-0000-4000-8000-000000000001"
        (fun _ => true) (fun _ => ProbeOk) (Some []).

(** As [Sample.env_ok], but the process of every deployment is gone. *)
Definition env_process_gone : Env :=
  mkEnv None None None (fun _ => Ret true) (Ret ["llama3"])
        (fun model_id source => "/data/downloads/" +:+ source +:+ "/" +:+ model_id)
        (fun _ => None) None "00000000-0000-4000-8000-000000000001"
        (fun _ => false) (fun _ => ProbeOk) (Some []).

(** As [Sample.env_ok], but the socket table cannot be read. *)
Definition env_psutil_fails : Env :=
  mkEnv None None None (fun _ => Ret true) (Ret ["llama3"])
        (fun model_id source => "/data/downloads/" +:+ source +:+ "/" +:+ model_id)
        (fun _ => None) None "00000000-0000-4000-8000-000000000001"
        (fun _ => true) (fun _ => ProbeOk) None.

(** As [Sample.env_ok] for a later request: another identifier is drawn. *)
Definition env_next : Env :=
  mkEnv None None None (fun _ => Ret true) (Ret ["llama3"])
        (fun model_id source => "/data/downloads/" +:+ source +:+ "/" +:+ model_id)
        (fun _ => None) None "00000000-0000-4000-8000-000000000002"
        (fun _ => true) (fun _ => ProbeOk) (Some []).

Definition task_paused : DownloadTask :=
  mkDownloadTask "t1" "org/m" "huggingface" "paused" (PyInt 0) 0 None None
                 (Some "/data/downloads/huggingface/org_m") None (Some 5) None.

Definition task_pending : DownloadTask :=
  mkDownloadTask "t2" "org/m" "huggingface" "pending" (PyInt 0) 0 None None
                 (Some "/data/downloads/huggingface/org_m") None None None.

Definition model_inactive : Model := mkModel "huggingface" (Some "inactive") None.
Definition model_deploying : Model := mkModel "huggingface" (Some "deploying") None.

Definition deployment_deploying : Deployment :=
  mkDeployment "d1" "org/m" "huggingface" "dep1" "deploying" (Some 8000)
               (Some "0.0.0.0") None None (Some "unknown") None.

Definition deployment_pending : Deployment :=
  mkDeployment "d1" "org/m" "huggingface" "dep1" "pending" (Some 8000)
               (Some "0.0.0.0") None None (Some "unknown") None.

(** The model is downloading and its task is paused. *)
Definition db_paused : DB :=
  mkDB {[ "org/m" := Sample.model_downloading ]} [task_paused] [].

(** The model is inactive with a pending task and a pending deployment. *)
Definition db_inactive : DB :=
  mkDB {[ "org/m" := model_inactive ]} [task_pending] [deployment_pending].

(** The model and its deployment are deploying. *)
Definition db_deploying : DB :=
  mkDB {[ "org/m" := model_deploying ]} [] [deployment_deploying].

End SampleMore.

(** * The transition table *)

Section AssocList.
Context {K V : Type} `{EqDecision K}.
Implicit Types (l : list (K * V)) (k : K) (v : V).

Lemma find_key_Some l k kv :
  List.find (fun kv => bool_decide (fst kv = k)) l = Some kv →
  fst kv = k ∧ In kv l.
Proof.
  intros H. apply find_some in H as [Hin Hk].
  apply bool_decide_eq_true in Hk. done.
Qed.

Lemma find_key_None l k :
  List.find (fun kv => bool_decide (fst kv = k)) l = None →
  ∀ v, ¬ In (k, v) l.
Proof.
  intros H v Hin. eapply find_none in H; [|exact Hin].
  simpl in H. by rewrite bool_decide_eq_false in H.
Qed.

Lemma find_key_NoDup l k v :
  NoDup (List.map fst l) → In (k, v) l →
  List.find (fun kv => bool_decide (fst kv = k)) l = Some (k, v).
Proof.
  induction l as [|[k' v'] l IH]; simpl; [done|].
  intros Hnd [Heq|Hin]; apply NoDup_cons in Hnd as [Hnotin Hnd].
  - simplify_eq. by rewrite bool_decide_true.
  - case_bool_decide as Hk; [|by apply IH].
    simplify_eq. exfalso. apply Hnotin.
    apply list_elem_of_In. by apply (in_map fst) in Hin.
Qed.

Lemma existsb_key l k :
  existsb (fun kv => bool_decide (fst kv = k)) l = true ↔ ∃ v, In (k, v) l.
Proof.
  rewrite existsb_exists. split.
  - intros [[k' v] [Hin Hk]]. apply bool_decide_eq_true in Hk.
    simpl in Hk. subst. eauto.
  - intros [v Hin]. exists (k, v). by rewrite bool_decide_true.
Qed.
End AssocList.

Lemma TRANSITIONS_keys_NoDup : NoDup (List.map fst TRANSITIONS).
Proof. apply (bool_decide_unpack _). by vm_compute. Qed.

Lemma can_transition_legal s e : can_transition s e = true ↔ legal s e.
Proof. apply existsb_key. Qed.

Lemma get_next_state_Some s e next :
  get_next_state s e = Some next ↔ In ((s, e), next) TRANSITIONS.
Proof.
  unfold get_next_state. split.
  - destruct (List.find _ _) as [[k v]|] eqn:Hf; [|done].
    intros [= ->]. apply find_key_Some in Hf as [Hk Hin]. simpl in Hk. by subst.
  - intros Hin. by rewrite (find_key_NoDup _ _ _ TRANSITIONS_keys_NoDup Hin).
Qed.

Lemma get_valid_transitions_legal s e :
  In e (get_valid_transitions s) ↔ legal s e.
Proof.
  unfold get_valid_transitions, legal. rewrite in_map_iff. split.
  - intros [[[s' e'] n] [<- Hin]]. apply filter_In in Hin as [Hin Hs].
    apply bool_decide_eq_true in Hs. simpl in *. subst. eauto.
  - intros [n Hin]. exists ((s, e), n). split; [done|].
    apply filter_In. split; [done|]. by rewrite bool_decide_true.
Qed.

(** No entry of the table maps a state to itself. *)
Lemma TRANSITIONS_change_state s e next :
  In ((s, e), next) TRANSITIONS → s ≠ next.
Proof.
  intros Hin ->. revert Hin.
  assert (Forall (fun kv => fst (fst kv) ≠ snd kv) TRANSITIONS) as Hall.
  { apply (bool_decide_unpack _). by vm_compute. }
  rewrite Forall_forall in Hall. intros Hin. apply list_elem_of_In in Hin.
  by apply Hall in Hin.
Qed.

(** * The state machine *)

Section StateMachineFacts.
Import ModelStateMachine.

Lemma current_state_of_run id st w :
  let r := current_state_of id st w in
  fst r = Ret (state_of_status st)
  ∧ session (snd r) = session w ∧ committed (snd r) = committed w
  ∧ log (snd r) = log w ++ invalid_state_warning id st
  ∧ model_status_queue (snd r) = model_status_queue w
  ∧ raised (snd r) = raised w ∧ fs (snd r) = fs w ∧ clock (snd r) = clock w.
Proof.
  unfold current_state_of, state_of_status, invalid_state_warning.
  destruct (truthy_str st); simpl; rewrite ?app_nil_r; [|done].
  destruct (ModelState_of _); simpl; by rewrite ?app_nil_r.
Qed.

Lemma history_app l1 l2 : history (l1 ++ l2) = history l1 ++ history l2.
Proof. apply omap_app. Qed.

Lemma history_invalid_state_warning id st : history (invalid_state_warning id st) = [].
Proof.
  unfold invalid_state_warning. destruct (truthy_str st); [|done].
  by destruct (ModelState_of _).
Qed.

Lemma force_set_free_invalid_state_warning id st :
  existsb is_force_set_line (invalid_state_warning id st) = false.
Proof.
  unfold invalid_state_warning. destruct (truthy_str st); [|done].
  by destruct (ModelState_of _).
Qed.

Lemma legal_next_state s e : legal s e → ∃ next, get_next_state s e = Some next.
Proof. intros [next H]. exists next. by apply get_next_state_Some. Qed.

End StateMachineFacts.

(** Runs [current_state_of] symbolically and records what it leaves alone. *)
Ltac run_current_state id st w :=
  let H := fresh "Hcur" in
  let r := fresh "r" in
  let w1 := fresh "w" in
  pose proof (current_state_of_run id st w) as H;
  destruct (ModelStateMachine.current_state_of id st w) as [r w1];
  simpl in H; destruct H as (-> & ? & ? & ? & ? & ? & ? & ?).

Ltac use_frame :=
  repeat match goal with
         | H : ?f ?w1 = _ |- context [?f ?w1] => rewrite H
         end.

Ltac unfold_sm :=
  unfold ModelStateMachine.transition, ModelStateMachine.force_state,
    ModelStateMachine._atomic_transaction, ModelStateMachine.query_model,
    ModelStateMachine.set_model_status, ModelStateMachine._record_state_change,
    ModelStateMachine._notify_state_change,
    try_catch, bind, get_session, put_session, utcnow, logger, queue_put,
    commit, rollback, raise, ret.

Section Transition.
Import ModelStateMachine.

(** A legal event on an existing row, storage available: the full effect. *)
Lemma transition_applied env w id src m ev data notify next :
  commit_raises env = None →
  model_row (session w) id src = Some m →
  In ((state_of_status (Model_status m), ev), next) TRANSITIONS →
  let r := transition env id src ev data notify w in
  fst r = Ret (true, None)
  ∧ session (snd r) =
      with_models
        (alter (fun m => mkModel (Model_source m) (Some (state_value next)) (Some (clock w)))
               id (models (session w)))
        (session w)
  ∧ committed (snd r) = session (snd r)
  ∧ raised (snd r) = raised w ∧ fs (snd r) = fs w
  ∧ history (log (snd r)) =
      history (log w) ++
      [mkStateChange id src (Model_status m) (state_value next) (event_value ev) data
                     (clock w + 1)]
  ∧ model_status_queue (snd r) =
      model_status_queue w ++
      (if notify then
         match push_raises env with
         | None => [status_event id (state_value next) (clock w + 2)]
         | Some _ => []
         end
       else [])
  ∧ (notify = true → is_Some (push_raises env) →
     existsb is_notify_failure_line (log (snd r)) = true).
Proof.
  intros Hc Hm Hnext. unfold_sm.
  unfold model_row in Hm. simpl. rewrite Hm.
  run_current_state id (Model_status m) w.
  assert (can_transition (state_of_status (Model_status m)) ev = true) as ->.
  { apply can_transition_legal. by exists next. }
  pose proof (TRANSITIONS_change_state _ _ _ Hnext) as Hne.
  apply get_next_state_Some in Hnext. rewrite Hnext. simpl.
  rewrite bool_decide_true by done. simpl.
  destruct notify; simpl; [destruct (push_raises env) eqn:Hpush; simpl|];
    rewrite Hc; simpl; use_frame; rewrite ?history_app, ?history_invalid_state_warning;
    simpl; rewrite ?app_nil_r; repeat split; try done.
  - intros _ _. rewrite !existsb_app. simpl. by rewrite !orb_true_r.
  - unfold status_event. do 3 f_equal. lia.
Qed.

(** An event with no entry for the current state is refused. *)
Lemma transition_rejected env w id src m ev data notify :
  commit_raises env = None →
  model_row (session w) id src = Some m →
  ¬ legal (state_of_status (Model_status m)) ev →
  let r := transition env id src ev data notify w in
  fst r = Ret (false, Some (invalid_transition_msg (state_of_status (Model_status m)) ev))
  ∧ session (snd r) = session w
  ∧ committed (snd r) = session w
  ∧ raised (snd r) = raised w ∧ fs (snd r) = fs w
  ∧ history (log (snd r)) = history (log w)
  ∧ model_status_queue (snd r) = model_status_queue w.
Proof.
  intros Hc Hm Hill. unfold_sm.
  unfold model_row in Hm. simpl. rewrite Hm.
  run_current_state id (Model_status m) w.
  assert (can_transition (state_of_status (Model_status m)) ev = false) as ->.
  { apply not_true_is_false. by rewrite can_transition_legal. }
  simpl. rewrite Hc. simpl. use_frame.
  by rewrite history_app, history_invalid_state_warning, app_nil_r.
Qed.

(** No row for the key: nothing is read further and nothing is written. *)
Lemma transition_not_found env w id src ev data notify :
  commit_raises env = None →
  model_row (session w) id src = None →
  let r := transition env id src ev data notify w in
  fst r = Ret (false, Some (not_found_msg id src))
  ∧ session (snd r) = session w ∧ committed (snd r) = session w
  ∧ log (snd r) = log w ∧ model_status_queue (snd r) = model_status_queue w
  ∧ raised (snd r) = raised w ∧ fs (snd r) = fs w ∧ clock (snd r) = clock w.
Proof.
  intros Hc Hm. unfold_sm. unfold model_row in Hm. simpl. rewrite Hm.
  simpl. by rewrite Hc.
Qed.

Lemma force_state_not_found env w id src target notify :
  commit_raises env = None →
  model_row (session w) id src = None →
  let r := force_state env id src target notify w in
  fst r = Ret (false, Some (not_found_msg id src))
  ∧ session (snd r) = session w ∧ committed (snd r) = session w
  ∧ log (snd r) = log w ∧ model_status_queue (snd r) = model_status_queue w
  ∧ raised (snd r) = raised w ∧ fs (snd r) = fs w ∧ clock (snd r) = clock w.
Proof.
  intros Hc Hm. unfold_sm. unfold model_row in Hm. simpl. rewrite Hm.
  simpl. by rewrite Hc.
Qed.

Lemma stored_status_alter d id m v t :
  models d !! id = Some m →
  stored_status
    (with_models (alter (fun m => mkModel (Model_source m) (Some v) (Some t)) id (models d)) d)
    id = Some (Some v).
Proof.
  intros Hm. unfold stored_status. simpl.
  rewrite lookup_alter. by rewrite decide_True, Hm.
Qed.

Lemma model_row_lookup d id src m :
  model_row d id src = Some m → models d !! id = Some m ∧ Model_source m = src.
Proof.
  unfold model_row. destruct (models d !! id) as [m'|]; [|done].
  case_bool_decide; [|done]. by intros [= ->].
Qed.

End Transition.

Section ForceState.
Import ModelStateMachine.

(** What a call of [transition] adds to the log, whatever its outcome. *)
Lemma transition_log env w id src ev data notify :
  ∃ added,
    log (snd (transition env id src ev data notify w)) = log w ++ added
    ∧ existsb is_force_set_line added = false
    ∧ ∀ c, In c (history added) →
           sc_event c = event_value ev ∧ sc_event_data c = data.
Proof.
  unfold_sm. simpl.
  destruct (models (session w) !! id) as [m|]; simpl;
    [destruct (bool_decide (Model_source m = src)); simpl|].
  2,3: destruct (commit_raises env) as [e|]; simpl;
       [destruct (exn_kind e); simpl|];
       first [ by (exists []; rewrite app_nil_r) | by (eexists; split; [reflexivity|]) ].
  run_current_state id (Model_status m) w.
  pose proof (force_set_free_invalid_state_warning id (Model_status m)) as Hfree.
  pose proof (history_invalid_state_warning id (Model_status m)) as Hhist.
  destruct (can_transition _ ev); simpl;
    [destruct (get_next_state _ ev) as [next|]; simpl;
     [case_bool_decide; simpl;
      [destruct notify; simpl; [destruct (push_raises env); simpl|]|]|]|];
    (destruct (commit_raises env) as [e|]; simpl; [destruct (exn_kind e); simpl|]);
    use_frame; rewrite <- ?app_assoc;
    (eexists; split; [reflexivity|]);
    rewrite ?existsb_app, ?history_app, Hfree, Hhist; simpl;
    (split; [done|]); intros c; simpl; intuition (subst; done).
Qed.

(** An existing row, storage available: the full effect of [force_state]. *)
Lemma force_state_applied env w id src m target notify :
  commit_raises env = None →
  model_row (session w) id src = Some m →
  let r := force_state env id src target notify w in
  fst r = Ret (true, None)
  ∧ session (snd r) =
      with_models
        (alter (fun m => mkModel (Model_source m) (Some (state_value target)) (Some (clock w)))
               id (models (session w)))
        (session w)
  ∧ committed (snd r) = session (snd r)
  ∧ history (log (snd r)) =
      history (log w) ++
      [mkStateChange id src (Model_status m) (state_value target)
                     (event_value MANUAL_RESET) (Some force_set_data) (clock w + 1)]
  ∧ ∃ added, log (snd r) = log w ++ added ∧ existsb is_force_set_line added = true.
Proof.
  intros Hc Hm. unfold_sm. unfold model_row in Hm. simpl. rewrite Hm. simpl.
  destruct notify; simpl; [destruct (push_raises env); simpl|];
    rewrite Hc; simpl; rewrite ?history_app; simpl; rewrite ?app_nil_r;
    repeat split; try done;
    rewrite <- ?app_assoc; by (eexists; split; [reflexivity|]).
Qed.

End ForceState.

(** * Claims about the state machine *)

Section StateMachineClaims.
Import ModelStateMachine.

(** C1 — For an existing Model row, with the storage available: if the pair
    (current state, event) has an entry in the transition table,
    [transition] returns applied = true and the stored status becomes the
    value of the table's next state; if the pair has no entry, [transition]
    returns applied = false with a message that lists exactly the events
    valid in the current state, and the stored status is unchanged. *)
Theorem transition_follows_table env w model_id model_source m event event_data auto_notify :
  commit_raises env = None →
  model_row (session w) model_id model_source = Some m →
  let current := state_of_status (Model_status m) in
  let r := transition env model_id model_source event event_data auto_notify w in
  (∀ next, In ((current, event), next) TRANSITIONS →
     fst r = Ret (true, None)
     ∧ stored_status (session (snd r)) model_id = Some (Some (state_value next))
     ∧ stored_status (committed (snd r)) model_id = Some (Some (state_value next)))
  ∧ (¬ legal current event →
     (∃ valid,
        (∀ e, In e valid ↔ legal current e)
        ∧ fst r = Ret (false,
                       Some ("Invalid transition: " +:+ state_value current +:+ " -> "
                             +:+ event_value event +:+ ". Valid events: "
                             +:+ repr_str_list (List.map event_value valid))))
     ∧ session (snd r) = session w
     ∧ stored_status (committed (snd r)) model_id = stored_status (session w) model_id).
Proof.
  intros Hc Hm current r. split.
  - intros next Hnext.
    destruct (transition_applied env w model_id model_source m event event_data
                auto_notify next Hc Hm Hnext) as (Hr & Hs & Hcm & _).
    apply model_row_lookup in Hm as [Hm _].
    fold r in Hr, Hs, Hcm. rewrite Hcm, Hs.
    split; [done|]. split; by eapply stored_status_alter.
  - intros Hill.
    destruct (transition_rejected env w model_id model_source m event event_data
                auto_notify Hc Hm Hill) as (Hr & Hs & Hcm & _).
    fold r in Hr, Hs, Hcm. split; [|by rewrite Hs, Hcm].
    exists (get_valid_transitions current). split; [|done].
    intros e. apply get_valid_transitions_legal.
Qed.

Lemma transition_follows_table_witness :
  commit_raises Sample.env_ok = None
  ∧ model_row (session (Sample.world_of Sample.db_active)) "org/m" "huggingface"
    = Some Sample.model_active
  ∧ let r := transition Sample.env_ok "org/m" "huggingface" HEALTH_CHECK_FAILED None true
               (Sample.world_of Sample.db_active) in
    fst r = Ret (true, None)
    ∧ stored_status (committed (snd r)) "org/m" = Some (Some "error").
Proof.
  split; [reflexivity|]. split; [reflexivity|].
  destruct (transition_follows_table Sample.env_ok (Sample.world_of Sample.db_active)
              "org/m" "huggingface" Sample.model_active HEALTH_CHECK_FAILED None true
              eq_refl eq_refl) as [Happlied _].
  destruct (Happlied ERROR) as (Hr & _ & Hcm).
  - vm_compute. tauto.
  - split; [exact Hr | exact Hcm].
Defined.

(** C2 — For every legal transition with notification switched on: when
    publishing the ModelStatus event raises, [transition] still returns
    applied = true, the new status is written and committed, the state
    change is recorded, nothing reaches the queue and the failure is only
    logged. *)
Theorem notification_failure_keeps_transition
    env w model_id model_source m event event_data next msg :
  commit_raises env = None →
  push_raises env = Some msg →
  model_row (session w) model_id model_source = Some m →
  In ((state_of_status (Model_status m), event), next) TRANSITIONS →
  let r := transition env model_id model_source event event_data true w in
  fst r = Ret (true, None)
  ∧ stored_status (session (snd r)) model_id = Some (Some (state_value next))
  ∧ stored_status (committed (snd r)) model_id = Some (Some (state_value next))
  ∧ model_status_queue (snd r) = model_status_queue w
  ∧ existsb is_notify_failure_line (log (snd r)) = true
  ∧ history (log (snd r)) =
      history (log w) ++
      [mkStateChange model_id model_source (Model_status m) (state_value next)
                     (event_value event) event_data (clock w + 1)].
Proof.
  intros Hc Hpush Hm Hnext r.
  destruct (transition_applied env w model_id model_source m event event_data
              true next Hc Hm Hnext) as (Hr & Hs & Hcm & _ & _ & Hh & Hq & Hl).
  apply model_row_lookup in Hm as [Hm _].
  fold r in Hr, Hs, Hcm, Hh, Hq, Hl. rewrite Hpush in Hq. simpl in Hq.
  rewrite app_nil_r in Hq. rewrite Hcm, Hs.
  repeat split; try done; try by eapply stored_status_alter.
  apply Hl; [done|]. rewrite Hpush. by eexists.
Qed.

Lemma notification_failure_keeps_transition_witness :
  commit_raises Sample.env_push_fails = None
  ∧ push_raises Sample.env_push_fails = Some "queue closed"
  ∧ model_row (session (Sample.world_of Sample.db_active)) "org/m" "huggingface"
    = Some Sample.model_active
  ∧ In ((state_of_status (Model_status Sample.model_active), DEPLOY_STOPPED), INACTIVE)
       TRANSITIONS
  ∧ let r := transition Sample.env_push_fails "org/m" "huggingface" DEPLOY_STOPPED None true
               (Sample.world_of Sample.db_active) in
    fst r = Ret (true, None)
    ∧ stored_status (committed (snd r)) "org/m" = Some (Some "inactive")
    ∧ model_status_queue (snd r) = [].
Proof.
  assert (In ((state_of_status (Model_status Sample.model_active), DEPLOY_STOPPED), INACTIVE)
             TRANSITIONS) as Hin by (vm_compute; tauto).
  split; [reflexivity|]. split; [reflexivity|]. split; [reflexivity|].
  split; [exact Hin|].
  destruct (notification_failure_keeps_transition Sample.env_push_fails
              (Sample.world_of Sample.db_active) "org/m" "huggingface"
              Sample.model_active DEPLOY_STOPPED None INACTIVE "queue closed"
              eq_refl eq_refl eq_refl Hin) as (Hr & _ & Hcm & Hq & _).
  split; [exact Hr|]. split; [exact Hcm | exact Hq].
Defined.

(** C3 — For an existing Model row, any stored status and any target state,
    with the storage available: [force_state] writes the target state
    (no table lookup decides it), returns success, and appends a state
    change record flagged force_set together with a warning line that no
    call of [transition] ever writes; the records of [transition] carry
    the event data of its caller. *)
Theorem force_state_manual_override env w model_id model_source m target_state auto_notify :
  commit_raises env = None →
  model_row (session w) model_id model_source = Some m →
  let r := force_state env model_id model_source target_state auto_notify w in
  fst r = Ret (true, None)
  ∧ stored_status (session (snd r)) model_id = Some (Some (state_value target_state))
  ∧ stored_status (committed (snd r)) model_id = Some (Some (state_value target_state))
  ∧ history (log (snd r)) =
      history (log w) ++
      [mkStateChange model_id model_source (Model_status m) (state_value target_state)
                     "manual_reset" (Some [("force_set", VBool true)]) (clock w + 1)]
  ∧ (∃ added, log (snd r) = log w ++ added ∧ existsb is_force_set_line added = true)
  ∧ (∀ env' w' id' src' event event_data notify',
       ∃ added',
         log (snd (transition env' id' src' event event_data notify' w')) = log w' ++ added'
         ∧ existsb is_force_set_line added' = false
         ∧ ∀ c, In c (history added') → sc_event_data c = event_data).
Proof.
  intros Hc Hm r.
  destruct (force_state_applied env w model_id model_source m target_state auto_notify
              Hc Hm) as (Hr & Hs & Hcm & Hh & Hl).
  apply model_row_lookup in Hm as [Hm _].
  fold r in Hr, Hs, Hcm, Hh, Hl. rewrite Hcm, Hs.
  repeat split; try done; try by eapply stored_status_alter.
  intros env' w' id' src' event event_data notify'.
  destruct (transition_log env' w' id' src' event event_data notify')
    as (added' & Hlog & Hfree & Hdata).
  exists added'. repeat split; try done. intros c Hc'. by apply Hdata.
Qed.

Lemma force_state_manual_override_witness :
  commit_raises Sample.env_ok = None
  ∧ model_row (session (Sample.world_of Sample.db_active)) "org/m" "huggingface"
    = Some Sample.model_active
  ∧ ¬ (∃ e, In ((ACTIVE, e), TRAINING) TRANSITIONS)
  ∧ let r := force_state Sample.env_ok "org/m" "huggingface" TRAINING true
               (Sample.world_of Sample.db_active) in
    fst r = Ret (true, None)
    ∧ stored_status (committed (snd r)) "org/m" = Some (Some "training").
Proof.
  split; [reflexivity|]. split; [reflexivity|]. split.
  - intros [e He]. vm_compute in He. intuition discriminate.
  - destruct (force_state_manual_override Sample.env_ok (Sample.world_of Sample.db_active)
                "org/m" "huggingface" Sample.model_active TRAINING true eq_refl eq_refl)
      as (Hr & _ & Hcm & _).
    split; [exact Hr | exact Hcm].
Defined.

(** C10 — For a model key with no stored row, with the storage available,
    [transition] (for every event) and [force_state] (for every target)
    return failure with the model-not-found message and change nothing,
    and [get_model_state] answers None; the default INACTIVE is what an
    existing row reads as when its stored status is null, empty or not the
    value of a state. *)
Theorem missing_row_is_not_inactive env w model_id model_source :
  commit_raises env = None →
  model_row (session w) model_id model_source = None →
  (∀ event event_data auto_notify,
     let r := transition env model_id model_source event event_data auto_notify w in
     fst r = Ret (false, Some ("Model not found: " +:+ model_id +:+ " ("
                               +:+ model_source +:+ ")"))
     ∧ session (snd r) = session w ∧ committed (snd r) = session w
     ∧ log (snd r) = log w ∧ model_status_queue (snd r) = model_status_queue w)
  ∧ (∀ target_state auto_notify,
     let r := force_state env model_id model_source target_state auto_notify w in
     fst r = Ret (false, Some ("Model not found: " +:+ model_id +:+ " ("
                               +:+ model_source +:+ ")"))
     ∧ session (snd r) = session w ∧ committed (snd r) = session w
     ∧ log (snd r) = log w ∧ model_status_queue (snd r) = model_status_queue w)
  ∧ fst (get_model_state model_id model_source w) = Ret None
  ∧ (∀ w' m,
       model_row (session w') model_id model_source = Some m →
       Model_status m = None ∨ Model_status m = Some ""
       ∨ (∃ v, Model_status m = Some v ∧ ∀ s, state_value s ≠ v) →
       state_of_status (Model_status m) = INACTIVE
       ∧ fst (get_model_state model_id model_source w') = Ret (Some INACTIVE)).
Proof.
  intros Hc Hm. split; [|split; [|split]].
  - intros event event_data auto_notify.
    destruct (transition_not_found env w model_id model_source event event_data
                auto_notify Hc Hm) as (? & ? & ? & ? & ? & _).
    done.
  - intros target_state auto_notify.
    destruct (force_state_not_found env w model_id model_source target_state
                auto_notify Hc Hm) as (? & ? & ? & ? & ? & _).
    done.
  - unfold get_model_state, query_model, bind, get_session, ret. simpl.
    unfold model_row in Hm. by rewrite Hm.
  - intros w' m Hm' Hst.
    assert (state_of_status (Model_status m) = INACTIVE
            ∧ (truthy_str (Model_status m) = true →
               ModelState_of (default "" (Model_status m)) = None)) as [Hin Hnone].
    { destruct Hst as [->| [->| (v & -> & Hv)]]; [done..|].
      unfold state_of_status. simpl.
      assert (ModelState_of v = None) as ->; [|by destruct (negb _)].
      destruct (ModelState_of v) as [s|] eqn:Hs; [|done].
      apply find_some in Hs as [_ Hs]. apply String.eqb_eq in Hs.
      by destruct (Hv s). }
    split; [done|].
    unfold get_model_state, query_model, bind, get_session, ret. simpl.
    unfold model_row in Hm'. rewrite Hm'.
    destruct (truthy_str (Model_status m)); [|done].
    by rewrite Hnone.
Qed.

Lemma missing_row_is_not_inactive_witness :
  commit_raises Sample.env_ok = None
  ∧ model_row (session (Sample.world_of Sample.db_active)) "org/other" "huggingface" = None
  ∧ legal INACTIVE DOWNLOAD_STARTED
  ∧ fst (transition Sample.env_ok "org/other" "huggingface" DOWNLOAD_STARTED None true
           (Sample.world_of Sample.db_active))
    = Ret (false, Some "Model not found: org/other (huggingface)").
Proof.
  split; [reflexivity|]. split; [reflexivity|]. split.
  - exists DOWNLOADING. vm_compute. tauto.
  - destruct (missing_row_is_not_inactive Sample.env_ok (Sample.world_of Sample.db_active)
                "org/other" "huggingface" eq_refl eq_refl) as (Ht & _).
    destruct (Ht DOWNLOAD_STARTED None true) as (Hr & _).
    exact Hr.
Defined.

(** A row whose stored status is not the value of a state ("deprecated")
    is read as INACTIVE: DOWNLOAD_STARTED applies to it. *)
Example deprecated_row_reads_inactive :
  state_of_status (Model_status Sample.model_deprecated) = INACTIVE
  ∧ let r := transition Sample.env_ok "org/m" "huggingface" DOWNLOAD_STARTED None true
               (Sample.world_of Sample.db_deprecated) in
    fst r = Ret (true, None)
    ∧ stored_status (committed (snd r)) "org/m" = Some (Some "downloading")
    ∧ log (snd r) !! 0%nat
      = Some (mkLog LvlWarning
                (Text "Invalid current state '{}' for model {}, resetting to inactive"
                      [VStr "deprecated"; VStr "org/m"])).
Proof.
  split; [by vm_compute|]. split; [by vm_compute|]. split; by vm_compute.
Qed.

End StateMachineClaims.

(** * What the state machine leaves alone *)

Section Frame.
Import ModelStateMachine.

(** With the storage available, [transition] always returns, touches no
    table but [models], commits the session, and leaves the trace of raised
    events and the file system as they are. *)
Lemma transition_frame env w id src ev data notify :
  commit_raises env = None →
  let r := transition env id src ev data notify w in
  (∃ res, fst r = Ret res)
  ∧ download_tasks (session (snd r)) = download_tasks (session w)
  ∧ deployments (session (snd r)) = deployments (session w)
  ∧ committed (snd r) = session (snd r)
  ∧ raised (snd r) = raised w ∧ fs (snd r) = fs w
  ∧ clock w ≤ clock (snd r).
Proof.
  intros Hc. unfold_sm. simpl.
  destruct (models (session w) !! id) as [m|]; simpl;
    [destruct (bool_decide (Model_source m = src)); simpl|].
  2,3: rewrite Hc; simpl; repeat split; eauto; lia.
  run_current_state id (Model_status m) w.
  destruct (can_transition _ ev) eqn:Hcan; simpl.
  - apply can_transition_legal, legal_next_state in Hcan as [next ->]. simpl.
    case_bool_decide; simpl;
      [destruct notify; simpl; [destruct (push_raises env); simpl|]|];
      rewrite Hc; simpl; use_frame; repeat split; eauto; lia.
  - rewrite Hc; simpl; use_frame; repeat split; eauto; lia.
Qed.

Lemma trigger_model_event_frame env w id src name data :
  commit_raises env = None →
  let r := trigger_model_event env id src name data w in
  (∃ res, fst r = Ret res)
  ∧ download_tasks (session (snd r)) = download_tasks (session w)
  ∧ deployments (session (snd r)) = deployments (session w)
  ∧ (is_Some (ModelEvent_of name) → committed (snd r) = session (snd r))
  ∧ raised (snd r) = raised w ++ [mkRaised id src name]
  ∧ fs (snd r) = fs w
  ∧ clock w ≤ clock (snd r).
Proof.
  intros Hc. unfold trigger_model_event, bind, note_raised. simpl.
  destruct (ModelEvent_of name) as [ev|]; simpl.
  - match goal with |- context [transition env id src ev data true ?w1] =>
      destruct (transition_frame env w1 id src ev data true Hc)
        as (Hr & Ht & Hd & Hcm & Hra & Hfs & Hcl)
    end.
    simpl in *. repeat split; eauto.
  - unfold logger, bind, ret. simpl. repeat split; eauto; [by intros [? ?]|lia].
Qed.

End Frame.

(** * Download tasks *)

Section RowUpdates.
Context {A : Type} (key : A → string).

(** Writing attributes of the object [id] through the identity map. *)
Lemma find_map_update id (f : A → A) (l : list A) :
  (∀ x, key (f x) = key x) →
  List.find (fun x => bool_decide (id = key x))
    (List.map (fun x => if bool_decide (id = key x) then f x else x) l)
  = f <$> List.find (fun x => bool_decide (id = key x)) l.
Proof.
  intros Hkey. induction l as [|x l IH]; simpl; [done|].
  destruct (bool_decide (id = key x)) eqn:Hx.
  - by rewrite Hkey, Hx.
  - by rewrite Hx.
Qed.

Lemma find_map_update_ne id id' (f : A → A) (l : list A) :
  (∀ x, key (f x) = key x) → id ≠ id' →
  List.find (fun x => bool_decide (id' = key x))
    (List.map (fun x => if bool_decide (id = key x) then f x else x) l)
  = List.find (fun x => bool_decide (id' = key x)) l.
Proof.
  intros Hkey Hne. induction l as [|x l IH]; simpl; [done|].
  destruct (bool_decide (id = key x)) eqn:Hx.
  - apply bool_decide_eq_true in Hx. rewrite Hkey.
    rewrite !bool_decide_false by congruence. done.
  - by rewrite IH.
Qed.
End RowUpdates.

Section DownloadTaskFacts.
Import ModelStateMachine.

Lemma true_divide_raises a b e :
  b ≠ 0 →
  Float64.true_divide a b = Raise e →
  e = mkExn OtherException "integer division result too large for a float".
Proof.
  intros Hb. unfold Float64.true_divide. apply Z.eqb_neq in Hb. rewrite Hb.
  destruct (SFdiv _ _ _ _); intros H; by simplify_eq.
Qed.

Ltac unfold_update_progress_obj :=
  unfold DownloadTaskM.update_progress_obj;
  repeat (match goal with
          | |- context [if ?b then _ else _] => destruct b eqn:?
          | |- context [match ?x with _ => _ end] => destruct x eqn:?
          end; cbn [fst snd]).

Lemma update_progress_obj_status d tot sp t :
  task_status (fst (DownloadTaskM.update_progress_obj d tot sp t)) = task_status t.
Proof. unfold_update_progress_obj; done. Qed.

Lemma update_progress_obj_size d tot sp t :
  task_download_size (fst (DownloadTaskM.update_progress_obj d tot sp t)) = d.
Proof. unfold_update_progress_obj; done. Qed.

(** An update that returns has stored the float the code computes. *)
Lemma update_progress_obj_progress d tot sp t total q :
  let u := DownloadTaskM.update_progress_obj d tot sp t in
  task_total_size (fst u) = Some total → 0 < total →
  Float64.true_divide d total = Ret q →
  snd u = None ∧ task_progress (fst u) = PyFloat (Float64.mul q Float64.hundred).
Proof.
  cbv zeta. unfold DownloadTaskM.update_progress_obj.
  set (self := if DownloadTaskM.truthy_num sp then _ else _).
  destruct (task_total_size self) as [total'|] eqn:Htotal.
  - destruct (negb (total' =? 0) && (0 <? total')) eqn:Hpos.
    + destruct (Float64.true_divide d total') as [q'|e] eqn:Hdiv; cbn [fst snd].
      * intros H _ Hq. change (task_total_size self = Some total) in H.
        rewrite Htotal in H. injection H as ->.
        rewrite Hdiv in Hq. injection Hq as ->. done.
      * intros H _ Hq. rewrite Htotal in H. injection H as ->.
        rewrite Hdiv in Hq. discriminate.
    + cbn [fst snd]. intros H Hlt _. rewrite Htotal in H. injection H as ->.
      apply andb_false_iff in Hpos as [Hpos|Hpos].
      * apply negb_false_iff, Z.eqb_eq in Hpos. lia.
      * apply Z.ltb_ge in Hpos. lia.
  - cbn [fst snd]. intros H. rewrite Htotal in H. discriminate.
Qed.

(** An update raises only when the division overflows. *)
Lemma update_progress_obj_raises d tot sp t e :
  let u := DownloadTaskM.update_progress_obj d tot sp t in
  snd u = Some e →
  e = mkExn OtherException "integer division result too large for a float"
  ∧ ∃ total, task_total_size (fst u) = Some total ∧ 0 < total
             ∧ Float64.true_divide d total = Raise e.
Proof.
  cbv zeta. unfold DownloadTaskM.update_progress_obj.
  set (self := if DownloadTaskM.truthy_num sp then _ else _).
  destruct (task_total_size self) as [total|] eqn:Htotal; [|done].
  destruct (negb (total =? 0) && (0 <? total)) eqn:Hpos; [|done].
  apply andb_true_iff in Hpos as [Hne Hpos]. apply Z.ltb_lt in Hpos.
  destruct (Float64.true_divide d total) as [q|e'] eqn:Hdiv; cbn [fst snd]; [done|].
  intros [= ->]. split; [by apply (true_divide_raises d total); [lia|]|].
  exists total. done.
Qed.

(** The event hook of a task: it always returns, raises the named event
    for the task's model key, and leaves the task table alone. *)
Lemma task_trigger_frame env w id name data :
  commit_raises env = None →
  let r := DownloadTaskM._trigger_state_event env id name data w in
  fst r = Ret tt
  ∧ download_tasks (session (snd r)) = download_tasks (session w)
  ∧ deployments (session (snd r)) = deployments (session w)
  ∧ (is_Some (ModelEvent_of name) → is_Some (task_of (session w) id) →
     committed (snd r) = session (snd r))
  ∧ raised (snd r) =
      raised w ++
      match task_of (session w) id with
      | Some t => [mkRaised (task_model_id t) (task_model_source t) name]
      | None => []
      end
  ∧ fs (snd r) = fs w.
Proof.
  intros Hc.
  unfold DownloadTaskM._trigger_state_event, DownloadTaskM.query_get, task_of,
    bind, get_session, ret. simpl.
  destruct (List.find _ (download_tasks (session w))) as [t|]; simpl.
  2: { rewrite app_nil_r. repeat split; done. }
  unfold try_catch, bind.
  match goal with |- context [trigger_model_event env ?a ?b name ?c w] =>
    pose proof (trigger_model_event_frame env w a b name c Hc) as H;
    destruct (trigger_model_event env a b name c w) as [r1 w1]
  end.
  simpl in H. destruct H as ([res ->] & Ht & Hd & Hcm & Hra & Hfs & _).
  destruct (negb (fst res)); simpl; repeat split; eauto.
Qed.

End DownloadTaskFacts.

Ltac run_task_trigger Hc :=
  match goal with
  | |- context [DownloadTaskM._trigger_state_event ?env ?id ?n ?d ?w1] =>
      let H := fresh "Htrig" in
      pose proof (task_trigger_frame env w1 id n d Hc) as H;
      destruct (DownloadTaskM._trigger_state_event env id n d w1) as [? ?];
      simpl in H; destruct H as (-> & ? & ? & ? & ? & ?)
  end.

Ltac unfold_task :=
  unfold DownloadTaskM.complete_download, DownloadTaskM.cancel_download,
    DownloadTaskM.pause_download, DownloadTaskM.update_task, DownloadTaskM.query_get,
    bind, get_session, put_session, utcnow, ret.

Section DownloadTaskClaims.

Lemma complete_download_effect env w id t :
  commit_raises env = None →
  task_of (session w) id = Some t →
  let r := DownloadTaskM.complete_download env id w in
  fst r = Ret tt
  ∧ ∃ t', task_of (session (snd r)) id = Some t'
          ∧ task_status t' = "completed" ∧ task_progress t' = PyInt 100.
Proof.
  intros Hc Ht. unfold_task. simpl.
  run_task_trigger Hc. simpl. split; [done|].
  unfold task_of in *. use_frame.
  rewrite !(find_map_update task_id) by done. rewrite Ht. simpl. eauto.
Qed.

(** The next object of a run: the stamp is written unless the update
    raised. *)
Lemma run_updates_cons now r rest t :
  run_updates now (r :: rest) t
  = let u := DownloadTaskM.update_progress_obj (reported_size r) (snd (fst r)) (snd r) t in
    let t' := match snd u with
              | None => DownloadTaskM.set_updated_at now (fst u)
              | Some _ => fst u
              end in
    (t', snd u) :: run_updates (now + 1) rest t'.
Proof. reflexivity. Qed.

Lemma stamp_keeps (P : DownloadTask → Prop) now (u : DownloadTask * option Exn) :
  P (fst u) → P (DownloadTaskM.set_updated_at now (fst u)) →
  P (match snd u with
     | None => DownloadTaskM.set_updated_at now (fst u)
     | Some _ => fst u
     end).
Proof. by destruct (snd u). Qed.

Lemma run_updates_sizes now reports t :
  List.map (fun a => task_download_size (fst a)) (run_updates now reports t)
  = List.map reported_size reports.
Proof.
  revert now t. induction reports as [|r rest IH]; intros now t; [done|].
  rewrite run_updates_cons. cbv zeta. cbn [List.map fst]. rewrite IH. f_equal.
  apply (stamp_keeps (fun x => task_download_size x = reported_size r));
    apply update_progress_obj_size.
Qed.

Lemma run_updates_status now reports t :
  Forall (fun a => task_status (fst a) = task_status t) (run_updates now reports t).
Proof.
  revert now t. induction reports as [|r rest IH]; intros now t; [done|].
  rewrite run_updates_cons. cbv zeta.
  match goal with |- Forall _ ((?t1, _) :: _) =>
    assert (task_status t1 = task_status t) as Hs
  end.
  { apply (stamp_keeps (fun x => task_status x = task_status t));
      apply update_progress_obj_status. }
  constructor; [done|].
  eapply Forall_impl; [apply IH|]. cbn beta. intros a ->. exact Hs.
Qed.

Lemma run_updates_progress now reports t :
  Forall (fun a => ∀ total q,
            task_total_size (fst a) = Some total → 0 < total →
            Float64.true_divide (task_download_size (fst a)) total = Ret q →
            snd a = None ∧ task_progress (fst a) = PyFloat (Float64.mul q Float64.hundred))
         (run_updates now reports t).
Proof.
  revert now t. induction reports as [|r rest IH]; intros now t; [done|].
  rewrite run_updates_cons. cbv zeta. constructor; [|apply IH].
  cbn [fst snd]. intros total q Htotal Hpos Hq.
  set (u := DownloadTaskM.update_progress_obj (reported_size r) (snd (fst r)) (snd r) t)
    in *.
  assert (task_download_size (fst u) = reported_size r) as Hsize
    by apply update_progress_obj_size.
  assert (task_total_size (fst u) = Some total
          ∧ Float64.true_divide (reported_size r) total = Ret q) as [Htotal' Hq'].
  { destruct (snd u); simpl in Htotal, Hq; rewrite <- Hsize; done. }
  destruct (update_progress_obj_progress (reported_size r) (snd (fst r)) (snd r) t total q
              Htotal' Hpos Hq') as [Hnone Hp].
  fold u in Hnone, Hp. split; [done|]. by rewrite Hnone.
Qed.

Lemma run_updates_raises now reports t :
  Forall (fun a => ∀ e,
            snd a = Some e →
            e = mkExn OtherException "integer division result too large for a float"
            ∧ ∃ total, task_total_size (fst a) = Some total ∧ 0 < total
                       ∧ Float64.true_divide (task_download_size (fst a)) total = Raise e)
         (run_updates now reports t).
Proof.
  revert now t. induction reports as [|r rest IH]; intros now t; [done|].
  rewrite run_updates_cons. cbv zeta. constructor; [|apply IH].
  cbn [fst snd]. intros e He.
  destruct (update_progress_obj_raises (reported_size r) (snd (fst r)) (snd r) t e He)
    as (-> & total & Htotal & Hpos & Hdiv).
  rewrite He. split; [done|]. exists total.
  by rewrite update_progress_obj_size.
Qed.

(** C5 (amended) — For every DownloadTask and every sequence of progress
    updates: an update never changes the status; after each update
    downloaded_bytes is the size that update reported (so it never
    decreases as long as the reported sizes do not); after every update at
    which total_bytes is known and positive, progress is the
    double-precision float (downloaded_bytes / total_bytes) * 100 as the
    code computes it, unless the division overflows, and only then does
    the update raise (OverflowError); and [complete_download] sets status
    completed together with progress 100. *)
Theorem progress_follows_reports env w id t now reports :
  commit_raises env = None →
  task_of (session w) id = Some t →
  let states := run_updates now reports t in
  List.map (fun a => task_download_size (fst a)) states = List.map reported_size reports
  ∧ Forall (fun a => task_status (fst a) = task_status t) states
  ∧ Forall (fun a => ∀ total q,
              task_total_size (fst a) = Some total → 0 < total →
              Float64.true_divide (task_download_size (fst a)) total = Ret q →
              snd a = None
              ∧ task_progress (fst a) = PyFloat (Float64.mul q Float64.hundred))
           states
  ∧ Forall (fun a => ∀ e,
              snd a = Some e →
              e = mkExn OtherException "integer division result too large for a float"
              ∧ ∃ total, task_total_size (fst a) = Some total ∧ 0 < total
                         ∧ Float64.true_divide (task_download_size (fst a)) total = Raise e)
           states
  ∧ ∃ t', task_of (session (snd (DownloadTaskM.complete_download env id w))) id = Some t'
          ∧ task_status t' = "completed" ∧ task_progress t' = PyInt 100.
Proof.
  intros Hc Ht states. split; [apply run_updates_sizes|].
  split; [apply run_updates_status|]. split; [apply run_updates_progress|].
  split; [apply run_updates_raises|].
  destruct (complete_download_effect env w id t Hc Ht) as (_ & t' & Ht' & Hs & Hp).
  exists t'. done.
Qed.

Lemma progress_follows_reports_witness :
  commit_raises Sample.env_ok = None
  ∧ task_of (session (Sample.world_of Sample.db_downloading)) "t1"
    = Some Sample.task_downloading
  ∧ List.map (fun a => task_download_size (fst a))
      (run_updates 100 [(500000000, Some 1000000000, None); (1000000000, Some 1000000000, None)]
                   Sample.task_downloading)
    = [500000000; 1000000000]
  ∧ List.map (fun a => task_progress (fst a))
      (run_updates 100 [(500000000, Some 1000000000, None); (1000000000, Some 1000000000, None)]
                   Sample.task_downloading)
    = [PyFloat (S754_finite false 7036874417766400 (-47));
       PyFloat (S754_finite false 7036874417766400 (-46))].
Proof.
  split; [reflexivity|]. split; [reflexivity|].
  destruct (progress_follows_reports Sample.env_ok (Sample.world_of Sample.db_downloading)
              "t1" Sample.task_downloading 100
              [(500000000, Some 1000000000, None); (1000000000, Some 1000000000, None)]
              eq_refl eq_refl) as (Hsizes & _).
  split; [exact Hsizes|]. by vm_compute.
Defined.

(** C5 as stated fails: a task in status downloading takes a smaller
    reported size, and reaches progress 100.0 without being completed;
    and one byte of three gives the float 33.33333333333333, which is not
    100 * 1 / 3. *)
Lemma progress_invariant_counterexample :
  let t1 := fst (DownloadTaskM.update_progress_obj 500 (Some 1000) None
                   Sample.task_downloading) in
  let t2 := fst (DownloadTaskM.update_progress_obj 300 None None t1) in
  let t3 := fst (DownloadTaskM.update_progress_obj 1000 None None t2) in
  let t4 := fst (DownloadTaskM.update_progress_obj 1 (Some 3) None t3) in
  task_status Sample.task_downloading = "downloading"
  ∧ task_status t1 = "downloading" ∧ task_status t2 = "downloading"
  ∧ task_status t3 = "downloading"
  ∧ task_download_size t2 < task_download_size t1
  ∧ task_total_size t3 = Some 1000
  ∧ task_progress t3 = PyFloat Float64.hundred
  ∧ task_status t3 ≠ "completed"
  ∧ task_progress t4 = PyFloat (S754_finite false 4691249611844266 (-47))
  ∧ 4691249611844266 * 3 ≠ 100 * 2 ^ 47.
Proof. by vm_compute. Qed.

(** The method itself does not look at the status: a completed task at
    progress 100 that takes another update ends at 50.0, still completed.
    Only the progress callback of the transfer worker keeps updates away
    from a task that has left the status downloading. *)
Remark update_progress_ignores_status :
  let completed :=
    DownloadTaskM.set_progress (PyInt 100)
      (DownloadTaskM.set_status "completed" Sample.task_downloading) in
  let u := DownloadTaskM.update_progress_obj 500 (Some 1000) None completed in
  snd u = None
  ∧ task_status (fst u) = "completed"
  ∧ task_progress (fst u) = PyFloat (S754_finite false 7036874417766400 (-47)).
Proof. by vm_compute. Qed.

End DownloadTaskClaims.

(** * The download service *)

Ltac unfold_task_in H :=
  unfold DownloadTaskM.complete_download, DownloadTaskM.cancel_download,
    DownloadTaskM.pause_download, DownloadTaskM.update_task, DownloadTaskM.query_get,
    bind, get_session, put_session, utcnow, ret in H.

Section DownloadServiceClaims.

(** C7 — For a task in state downloading, with the storage available,
    [pause_download] sets the task's status to paused (and commits it),
    raises no state machine event and leaves every Model row, hence the
    model's aggregate status, and the event queue as they were; for a task
    in any other state it fails with a ValidationError and changes
    nothing. *)
Theorem pause_sets_paused_without_event env w id t :
  commit_raises env = None →
  task_of (session w) id = Some t →
  let r := DownloadService.pause_download env id w in
  (task_status t = "downloading" →
     fst r = Ret [("message", VStr "download has paused"); ("task_id", VStr id)]
     ∧ (∃ t', task_of (session (snd r)) id = Some t'
              ∧ task_of (committed (snd r)) id = Some t'
              ∧ task_status t' = "paused")
     ∧ raised (snd r) = raised w
     ∧ models (session (snd r)) = models (session w)
     ∧ stored_status (session (snd r)) (task_model_id t)
       = stored_status (session w) (task_model_id t)
     ∧ model_status_queue (snd r) = model_status_queue w)
  ∧ (task_status t ≠ "downloading" →
     fst r = Raise (mkExn ValidationError
                      ("task status " +:+ task_status t +:+ " cannot pause"))
     ∧ snd r = w).
Proof.
  intros Hc Ht r. subst r.
  destruct (DownloadService.pause_download env id w) as [res w'] eqn:Hrun.
  unfold DownloadService.pause_download, DownloadTaskM.query_get, bind at 1,
    get_session, ret in Hrun.
  unfold task_of in Ht. simpl in Hrun. rewrite Ht in Hrun. simpl. split; intros Hs.
  - rewrite Hs in Hrun. simpl in Hrun.
    unfold try_catch, commit, logger in Hrun. unfold_task_in Hrun.
    simpl in Hrun. rewrite Hc in Hrun. simplify_eq. simpl.
    unfold task_of. simpl.
    rewrite !(find_map_update task_id) by done. rewrite Ht. simpl.
    repeat split; eauto.
  - apply String.eqb_neq in Hs. rewrite Hs in Hrun. simpl in Hrun.
    unfold raise in Hrun. by simplify_eq.
Qed.

Lemma pause_sets_paused_without_event_witness :
  commit_raises Sample.env_ok = None
  ∧ task_of (session (Sample.world_of Sample.db_downloading)) "t1"
    = Some Sample.task_downloading
  ∧ task_status Sample.task_downloading = "downloading"
  ∧ let r := DownloadService.pause_download Sample.env_ok "t1"
               (Sample.world_of Sample.db_downloading) in
    (∃ t', task_of (session (snd r)) "t1" = Some t'
           ∧ task_of (committed (snd r)) "t1" = Some t'
           ∧ task_status t' = "paused")
    ∧ raised (snd r) = []
    ∧ stored_status (session (snd r)) "org/m" = Some (Some "downloading").
Proof.
  split; [reflexivity|]. split; [reflexivity|]. split; [reflexivity|].
  destruct (pause_sets_paused_without_event Sample.env_ok
              (Sample.world_of Sample.db_downloading) "t1" Sample.task_downloading
              eq_refl eq_refl) as [Hpause _].
  destruct (Hpause eq_refl) as (_ & Ht' & Hraised & _ & Hst & _).
  split; [exact Ht'|]. split; [exact Hraised | exact Hst].
Defined.

(** The removal block, with a file system that lets files be removed. *)
Lemma remove_partial_effect env w fp :
  remove_raises env = None →
  let r := DownloadService.remove_partial env fp w in
  fst r = Ret tt
  ∧ session (snd r) = session w ∧ committed (snd r) = committed w
  ∧ raised (snd r) = raised w
  ∧ (∀ p, fp = Some p → p ≠ "" →
       (fs w !! p = Some File → fs (snd r) = delete p (fs w))
       ∧ (fs w !! p = Some Dir →
          fs (snd r) = filter (fun kv => kv.1 ≠ p ∧ Os.path_under p kv.1 = false) (fs w))).
Proof.
  intros Hrm. unfold DownloadService.remove_partial, Os.get_fs, bind. simpl.
  destruct fp as [p|]; simpl; [|repeat split; done].
  destruct (String.eqb p "") eqn:Hp; simpl.
  { apply String.eqb_eq in Hp. repeat split; try done; intros; simplify_eq. }
  destruct (fs w !! p) as [node|] eqn:Hnode.
  2: { rewrite bool_decide_false by (by intros [? ?]).
       simpl. repeat split; try done; intros; simplify_eq. }
  rewrite bool_decide_true by eauto.
  unfold try_catch, bind, Os.remove, Os.rmtree, Os.get_fs, put_fs, logger, ret.
  rewrite Hrm.
  destruct node; simpl; repeat split; try done; intros; by simplify_eq.
Qed.

Lemma lookup_rmtree (f : gmap string FsNode) p q :
  filter (fun kv => kv.1 ≠ p ∧ Os.path_under p kv.1 = false) f !! q
  = if bool_decide (q = p) || Os.path_under p q then None else f !! q.
Proof.
  rewrite map_lookup_filter.
  destruct (f !! q) as [node|] eqn:Hq; simpl.
  - case_bool_decide as Hqp; simpl.
    + rewrite option_guard_False; [done|]. simpl. tauto.
    + destruct (Os.path_under p q) eqn:Hu.
      * rewrite option_guard_False; [done|]. simpl. by intros [_ ?].
      * by rewrite option_guard_True.
  - by destruct (bool_decide (q = p) || Os.path_under p q).
Qed.

(** C8 — For a task that is neither completed nor cancelled, with the
    storage and the file system available, [cancel_download] sets the
    status to cancelled, raises download_cancelled for the task's model
    key, and removes what lies at file_path: a file is unlinked, a
    directory goes with everything below it, nothing else is touched.  A
    second cancel of the same task fails with the illegal-state
    ValidationError and changes nothing. *)
Theorem cancel_removes_partial_download env w id t :
  commit_raises env = None →
  remove_raises env = None →
  task_of (session w) id = Some t →
  task_status t ≠ "completed" →
  task_status t ≠ "cancelled" →
  let r := DownloadService.cancel_download env id w in
  fst r = Ret [("message", VStr "download has been cancelled"); ("task_id", VStr id)]
  ∧ (∃ t', task_of (session (snd r)) id = Some t'
           ∧ task_of (committed (snd r)) id = Some t'
           ∧ task_status t' = "cancelled")
  ∧ raised (snd r)
    = raised w ++ [mkRaised (task_model_id t) (task_model_source t) "download_cancelled"]
  ∧ (∀ p, task_file_path t = Some p → p ≠ "" →
       (fs w !! p = Some File → fs (snd r) = delete p (fs w))
       ∧ (fs w !! p = Some Dir →
          ∀ q, fs (snd r) !! q
               = if bool_decide (q = p) || Os.path_under p q then None else fs w !! q))
  ∧ (let r2 := DownloadService.cancel_download env id (snd r) in
     fst r2 = Raise (mkExn ValidationError "task status cancelled cannot cancel")
     ∧ snd r2 = snd r).
Proof.
  intros Hc Hrm Ht Hs1 Hs2 r. subst r.
  destruct (DownloadService.cancel_download env id w) as [res w'] eqn:Hrun.
  revert Hrun.
  unfold DownloadService.cancel_download, DownloadTaskM.query_get, bind at 1,
    get_session, ret.
  unfold task_of in Ht. simpl. rewrite Ht.
  apply String.eqb_neq in Hs1, Hs2. rewrite Hs1, Hs2. simpl.
  unfold try_catch. unfold_task. simpl.
  run_task_trigger Hc. simpl.
  match goal with
  | H1 : is_Some _ → is_Some _ → committed _ = _, H2 : raised _ = _ |- _ =>
      unfold task_of in H1, H2; simpl in H1, H2;
      rewrite !(find_map_update task_id), Ht in H1, H2 by done; simpl in H1, H2;
      specialize (H1 ltac:(vm_compute; eauto) ltac:(eauto)); rename H1 into Hcm;
      rename H2 into Hraised
  end.
  unfold commit. rewrite Hc. simpl. use_frame.
  rewrite !(find_map_update task_id), Ht by done. simpl.
  match goal with
  | |- context [DownloadService.remove_partial env ?fp ?w1] =>
      pose proof (remove_partial_effect env w1 fp Hrm) as Hrem;
      destruct (DownloadService.remove_partial env fp w1) as [? w2];
      simpl in Hrem; destruct Hrem as (-> & Hses & Hcom & Hrai & Hfs)
  end.
  simpl. intros Hrun. simplify_eq. simpl.
  split; [done|].
  assert (List.find (fun x => bool_decide (id = task_id x)) (download_tasks (session w2))
          = Some (DownloadTaskM.set_updated_at (clock w)
                    (DownloadTaskM.set_status "cancelled" t))) as Hfind.
  { rewrite Hses. use_frame. rewrite !(find_map_update task_id) by done.
    by rewrite Ht. }
  rewrite Hfind. simpl. unfold task_of. rewrite Hcom, <- Hses, Hfind.
  split; [eauto|]. split; [done|]. split; [|done].
  intros p Hp Hne. destruct (Hfs p Hp Hne) as [Hfile Hdir].
  split; [done|]. intros Hd q. rewrite (Hdir Hd). apply lookup_rmtree.
Qed.

Lemma cancel_removes_partial_download_witness :
  commit_raises Sample.env_ok = None
  ∧ remove_raises Sample.env_ok = None
  ∧ task_of (session (Sample.world_of Sample.db_downloading)) "t1"
    = Some Sample.task_downloading
  ∧ task_status Sample.task_downloading ≠ "completed"
  ∧ task_status Sample.task_downloading ≠ "cancelled"
  ∧ fs (Sample.world_of Sample.db_downloading) !! "/data/downloads/huggingface/org_m"
    = Some Dir
  ∧ let r := DownloadService.cancel_download Sample.env_ok "t1"
               (Sample.world_of Sample.db_downloading) in
    raised (snd r) = [mkRaised "org/m" "huggingface" "download_cancelled"]
    ∧ fs (snd r) !! "/data/downloads/huggingface/org_m/sub/part" = None
    ∧ fs (snd r) !! "/data/downloads/huggingface/org_mx" = Some File.
Proof.
  split; [reflexivity|]. split; [reflexivity|]. split; [reflexivity|].
  split; [discriminate|]. split; [discriminate|]. split; [reflexivity|].
  destruct (cancel_removes_partial_download Sample.env_ok
              (Sample.world_of Sample.db_downloading) "t1" Sample.task_downloading
              eq_refl eq_refl eq_refl ltac:(discriminate) ltac:(discriminate))
    as (_ & _ & Hraised & Hfs & _).
  split; [exact Hraised|].
  destruct (Hfs "/data/downloads/huggingface/org_m" eq_refl ltac:(discriminate))
    as [_ Hdir].
  split; rewrite (Hdir eq_refl); reflexivity.
Defined.

(** C6 (amended) — When the task that the lookup by model key returns (the
    first task row of that key) is pending or downloading, create fails and
    creates no new task: the session is rolled back to the committed
    tables; once the catalog has confirmed the model, the error is the
    ValidationError saying that the model already has a pending or
    downloading download task. *)
Theorem create_rejects_active_task env w model_id source t :
  fst (DownloadTaskM.get_by_model model_id source w) = Ret (Some t) →
  task_status t = "pending" ∨ task_status t = "downloading" →
  let r := DownloadService.create_download_task env model_id source w in
  (∃ e, fst r = Raise e)
  ∧ session (snd r) = committed w
  ∧ committed (snd r) = committed w
  ∧ ((source = "huggingface" ∧ hf_get_model_info env model_id = Ret true)
     ∨ (source = "ollama"
        ∧ ∃ names, ollama_list_available_models env = Ret names ∧ model_id ∈ names) →
     fst r = Raise (mkExn ValidationError
                      ("model " +:+ model_id
                       +:+ " already has a pending or downloading download task"))).
Proof.
  intros Hget Hst r. subst r.
  unfold DownloadTaskM.get_by_model, bind, get_session, ret in Hget. simpl in Hget.
  injection Hget as Hget.
  assert (String.eqb (task_status t) "pending" || String.eqb (task_status t) "downloading"
          = true) as Hact.
  { destruct Hst as [-> | ->]; done. }
  destruct (DownloadService.create_download_task env model_id source w) as [res w'] eqn:Hrun.
  revert Hrun.
  unfold DownloadService.create_download_task, try_catch, bind at 1.
  unfold DownloadService.lift_outcome, DownloadTaskM.get_by_model, bind, get_session,
    rollback, logger, raise, ret.
  destruct (String.eqb source "huggingface") eqn:Hhf;
    [|destruct (String.eqb source "ollama") eqn:Hol].
  - destruct (hf_get_model_info env model_id) as [[|]|e] eqn:Hinfo; simpl;
      rewrite ?Hget, ?Hact; simpl; intros Hrun; simplify_eq; simpl;
      (split; [eauto|]); repeat split; try done;
      intros [[_ ?]|[-> _]]; by simplify_eq.
  - destruct (ollama_list_available_models env) as [names|e] eqn:Hnames; simpl;
      [case_bool_decide as Hin; simpl|];
      rewrite ?Hget, ?Hact; simpl; intros Hrun; simplify_eq; simpl;
      (split; [eauto|]); repeat split; try done;
      (intros [[-> _]|[_ (names' & ? & ?)]]; by simplify_eq).
  - simpl. intros Hrun. simplify_eq. simpl.
    split; [eauto|]. repeat split; try done.
    apply String.eqb_neq in Hhf, Hol. by intros [[-> _]|[-> _]].
Qed.

Lemma create_rejects_active_task_witness :
  fst (DownloadTaskM.get_by_model "org/m" "huggingface"
         (Sample.world_of Sample.db_downloading)) = Ret (Some Sample.task_downloading)
  ∧ (task_status Sample.task_downloading = "pending"
     ∨ task_status Sample.task_downloading = "downloading")
  ∧ let r := DownloadService.create_download_task Sample.env_ok "org/m" "huggingface"
               (Sample.world_of Sample.db_downloading) in
    (∃ e, fst r = Raise e)
    ∧ download_tasks (session (snd r)) = [Sample.task_downloading].
Proof.
  split; [reflexivity|]. split; [right; reflexivity|].
  destruct (create_rejects_active_task Sample.env_ok (Sample.world_of Sample.db_downloading)
              "org/m" "huggingface" Sample.task_downloading eq_refl
              (or_intror eq_refl)) as (Hfail & Hses & _).
  split; [exact Hfail|]. rewrite Hses. reflexivity.
Defined.

(** The lookup by model key sees the first task row only: behind an older
    cancelled task, a downloading task of the same key is not noticed. *)
Remark create_looks_at_first_row :
  task_of (session (Sample.world_of Sample.db_two_tasks)) "t1"
  = Some Sample.task_downloading
  ∧ ∃ task,
      fst (DownloadService.create_download_task Sample.env_ok "org/m" "huggingface"
             (Sample.world_of Sample.db_two_tasks)) = Ret task
      ∧ task_status task = "pending".
Proof. split; [reflexivity|]. eexists. split; reflexivity. Qed.

(** C6 as stated fails: the key has a downloading task, the catalog knows
    the model, and create raises a ValidationError, which is not a
    ConflictError. *)
Lemma create_conflict_counterexample :
  task_of (session (Sample.world_of Sample.db_downloading)) "t1"
  = Some Sample.task_downloading
  ∧ task_model_id Sample.task_downloading = "org/m"
  ∧ task_model_source Sample.task_downloading = "huggingface"
  ∧ task_status Sample.task_downloading = "downloading"
  ∧ fst (DownloadService.create_download_task Sample.env_ok "org/m" "huggingface"
           (Sample.world_of Sample.db_downloading))
    = Raise (mkExn ValidationError
               "model org/m already has a pending or downloading download task")
  ∧ ValidationError ≠ ConflictError.
Proof. repeat split; try reflexivity. discriminate. Qed.

End DownloadServiceClaims.

(** * Port allocation *)

Section PortAllocation.

Lemma port_check_listening conns port :
  negb (existsb (fun conn => (laddr_port conn =? port) && conn_listen conn) conns)
  = bool_decide (¬ listening conns port).
Proof.
  unfold listening. induction conns as [|c conns IH]; cbn [existsb].
  - rewrite bool_decide_true; [done|]. intros H. by apply Exists_nil in H.
  - rewrite negb_orb, IH. clear IH.
    destruct (laddr_port c =? port) eqn:Hp; [apply Z.eqb_eq in Hp|apply Z.eqb_neq in Hp];
      destruct (conn_listen c) eqn:Hl; cbn [negb andb].
    + rewrite bool_decide_false; [done|]. intros H. apply H. by left.
    + apply bool_decide_ext. rewrite Exists_cons. rewrite Hl. intuition discriminate.
    + apply bool_decide_ext. rewrite Exists_cons. intuition congruence.
    + apply bool_decide_ext. rewrite Exists_cons. intuition congruence.
Qed.

Lemma check_port_availability_run env conns port w :
  net_connections env = Some conns →
  SystemService.check_port_availability env port w
  = (Ret (bool_decide (¬ listening conns port)), w).
Proof.
  intros Hn. unfold SystemService.check_port_availability. rewrite Hn.
  unfold ret. by rewrite port_check_listening.
Qed.

(** The scan returns the first port of the list that is not bound. *)
Lemma first_available_run env conns ports w :
  net_connections env = Some conns →
  SystemService.first_available env ports w
  = (Ret (snd <$> list_find (fun p => ¬ listening conns p) ports), w).
Proof.
  intros Hn. induction ports as [|p ports IH]; [done|].
  cbn [SystemService.first_available]. unfold bind.
  rewrite (check_port_availability_run env conns p w Hn).
  cbn [list_find]. case_decide as Hp; case_bool_decide; try contradiction.
  - reflexivity.
  - rewrite IH. by destruct (list_find _ ports) as [[i x]|].
Qed.

Lemma find_available_port_Some env conns w start stop p :
  net_connections env = Some conns →
  fst (SystemService.find_available_port env start stop w) = Ret (Some p)
  ↔ start ≤ p ≤ stop ∧ ¬ listening conns p ∧ ∀ q, start ≤ q < p → listening conns q.
Proof.
  intros Hn. unfold SystemService.find_available_port.
  rewrite (first_available_run env conns _ w Hn). simpl. split.
  - intros [= Hf]. destruct (list_find _ _) as [[i x]|] eqn:Hfind; simplify_eq/=.
    apply list_find_Some in Hfind as (Hi & Hfree & Hbefore).
    apply lookup_seqZ in Hi as [-> Hi]. split; [lia|]. split; [done|].
    intros q Hq. destruct (decide (listening conns q)) as [|Hnot]; [done|].
    exfalso. apply (Hbefore (Z.to_nat (q - start)) q); [|lia|done].
    apply lookup_seqZ. lia.
  - intros (Hrange & Hfree & Hbefore).
    assert (list_find (fun p => ¬ listening conns p) (seqZ start (stop + 1 - start))
            = Some (Z.to_nat (p - start), p)) as ->; [|done].
    apply list_find_Some. split; [apply lookup_seqZ; lia|]. split; [done|].
    intros j y Hy Hj Hnot. apply lookup_seqZ in Hy as [-> Hy].
    apply Hnot, Hbefore. lia.
Qed.

Lemma find_available_port_None env conns w start stop :
  net_connections env = Some conns →
  fst (SystemService.find_available_port env start stop w) = Ret None
  ↔ ∀ q, start ≤ q ≤ stop → listening conns q.
Proof.
  intros Hn. unfold SystemService.find_available_port.
  rewrite (first_available_run env conns _ w Hn). simpl. split.
  - intros [= Hf]. destruct (list_find _ _) as [[i x]|] eqn:Hfind; simplify_eq/=.
    apply list_find_None in Hfind. rewrite Forall_forall in Hfind.
    intros q Hq. destruct (decide (listening conns q)) as [|Hnot]; [done|].
    exfalso. apply (Hfind q); [|done]. apply elem_of_seqZ. lia.
  - intros Hall.
    assert (list_find (fun p => ¬ listening conns p) (seqZ start (stop + 1 - start))
            = None) as ->; [|done].
    apply list_find_None, Forall_forall. intros q Hq%elem_of_seqZ Hnot.
    apply Hnot, Hall. lia.
Qed.

Lemma allocate_port_world env conns w preferred_port :
  net_connections env = Some conns →
  snd (DeploymentService._allocate_port env preferred_port w) = w.
Proof.
  intros Hn. unfold DeploymentService._allocate_port.
  destruct (DownloadTaskM.truthy_int preferred_port).
  - unfold bind. rewrite (check_port_availability_run env conns _ w Hn).
    by case_bool_decide.
  - unfold SystemService.find_available_port.
    by rewrite (first_available_run env conns _ w Hn).
Qed.

Lemma allocate_port_nonzero env conns w preferred_port p :
  net_connections env = Some conns →
  fst (DeploymentService._allocate_port env preferred_port w) = Ret (Some p) → p ≠ 0.
Proof.
  intros Hn. unfold DeploymentService._allocate_port.
  destruct (DownloadTaskM.truthy_int preferred_port) eqn:Htruthy.
  - unfold bind. rewrite (check_port_availability_run env conns _ w Hn).
    destruct preferred_port as [z|]; [|done]. simpl in Htruthy.
    apply negb_true_iff, Z.eqb_neq in Htruthy.
    case_bool_decide; simpl; [|done]. by intros [= <-].
  - intros Hf. apply (find_available_port_Some env conns w 8000 9000 p Hn) in Hf. lia.
Qed.

(** C9 — With the socket table readable: a preferred port (a non-zero
    [config.port]) is returned exactly when no listening socket is bound to
    it, otherwise the allocation, and with it create, fails with a
    ValidationError; without a preferred port the allocator returns the
    first port of 8000..9000, in ascending order, to which no listening
    socket is bound, and reports None, upon which create fails, exactly
    when every port of the range is bound.  The allocation changes
    nothing. *)
Theorem port_allocation env conns w preferred_port :
  net_connections env = Some conns →
  let r := DeploymentService._allocate_port env preferred_port w in
  snd r = w
  ∧ (∀ p, preferred_port = Some p → p ≠ 0 →
       (¬ listening conns p → fst r = Ret (Some p))
       ∧ (listening conns p →
          fst r = Raise (mkExn ValidationError ("端口 " +:+ pretty p +:+ " 已被占用"))))
  ∧ (preferred_port = None ∨ preferred_port = Some 0 →
       (∀ p, fst r = Ret (Some p)
             ↔ 8000 ≤ p ≤ 9000 ∧ ¬ listening conns p
               ∧ ∀ q, 8000 ≤ q < p → listening conns q)
       ∧ (fst r = Ret None ↔ ∀ q, 8000 ≤ q ≤ 9000 → listening conns q))
  ∧ (∀ model_id source name config m,
       commit_raises env = None →
       model_row (session w) model_id source = Some m →
       List.find (fun x => bool_decide (dep_name x = name)) (deployments (session w)) = None →
       config ≫= DeploymentService.cfg_port = preferred_port →
       let c := DeploymentService.create_deployment env model_id source name config w in
       match fst r with
       | Ret (Some p) =>
           ∃ d, fst c = Ret d ∧ dep_port d = Some p ∧ dep_status d = "pending"
                ∧ deployments (committed (snd c)) = deployments (session w) ++ [d]
       | Ret None => fst c = Raise (mkExn ValidationError "无法分配可用端口")
       | Raise e => fst c = Raise e
       end).
Proof.
  intros Hn r.
  pose proof (allocate_port_world env conns w preferred_port Hn) as Hw.
  pose proof (fun p => allocate_port_nonzero env conns w preferred_port p Hn) as Hnz.
  fold r in Hw, Hnz. split; [done|]. split; [|split].
  - intros p -> Hp. subst r. unfold DeploymentService._allocate_port. simpl.
    apply Z.eqb_neq in Hp. rewrite Hp. simpl. unfold bind.
    rewrite (check_port_availability_run env conns p w Hn).
    split; intros Hl; case_bool_decide; done.
  - intros Hnone.
    assert (r = SystemService.find_available_port env 8000 9000 w) as ->.
    { subst r. unfold DeploymentService._allocate_port. by destruct Hnone as [-> | ->]. }
    split; [intros p; by apply find_available_port_Some|by apply find_available_port_None].
  - intros model_id source name config m Hc Hm Hname Hcfg c. subst c r.
    destruct (DeploymentService._allocate_port env preferred_port w) as [res w1] eqn:Hal.
    simpl in Hw, Hnz. subst w1.
    destruct (DeploymentService.create_deployment env model_id source name config w)
      as [cres cw] eqn:Hrun.
    revert Hrun.
    unfold DeploymentService.create_deployment, try_catch,
      ModelStateMachine.query_model, bind, get_session, ret.
    unfold model_row in Hm. simpl. rewrite Hm. simpl. rewrite Hname. simpl.
    rewrite Hcfg, Hal.
    destruct res as [[p|]|e]; simpl.
    + specialize (Hnz p eq_refl). apply Z.eqb_neq in Hnz. rewrite Hnz. simpl.
      unfold utcnow, put_session, commit, logger. simpl. rewrite Hc. simpl.
      intros Hrun. simplify_eq. simpl. eauto.
    + unfold raise. intros Hrun. by simplify_eq.
    + unfold raise. intros Hrun. by simplify_eq.
Qed.

Lemma port_allocation_witness :
  net_connections Sample.env_ports_bound
  = Some [mkConn 8000 true; mkConn 8001 true; mkConn 8002 false]
  ∧ fst (DeploymentService._allocate_port Sample.env_ports_bound None
           (Sample.world_of Sample.db_active)) = Ret (Some 8002).
Proof.
  split; [reflexivity|].
  destruct (port_allocation Sample.env_ports_bound
              [mkConn 8000 true; mkConn 8001 true; mkConn 8002 false]
              (Sample.world_of Sample.db_active) None eq_refl) as (_ & _ & Hscan & _).
  destruct (Hscan (or_introl eq_refl)) as [Hsome _].
  apply Hsome. split; [lia|]. split.
  - unfold listening. rewrite !Exists_cons, Exists_nil. simpl.
    intuition (discriminate || lia).
  - intros q Hq. unfold listening. rewrite !Exists_cons. simpl.
    destruct (decide (q = 8000)) as [->|]; [by left|].
    right. left. split; [lia|done].
Defined.

End PortAllocation.

(** * Health checks *)

Section HealthChecks.
Import ModelStateMachine.

(** The event hook of a deployment: it always returns, raises the named
    event for the deployment's model key, and leaves the deployment table
    alone. *)
Lemma deployment_trigger_frame env w id name data :
  commit_raises env = None →
  let r := DeploymentM._trigger_state_event env id name data w in
  fst r = Ret tt
  ∧ deployments (session (snd r)) = deployments (session w)
  ∧ (is_Some (ModelEvent_of name) → is_Some (deployment_of (session w) id) →
     committed (snd r) = session (snd r))
  ∧ raised (snd r) =
      raised w ++
      match deployment_of (session w) id with
      | Some d => [mkRaised (dep_model_id d) (dep_model_source d) name]
      | None => []
      end
  ∧ clock w ≤ clock (snd r).
Proof.
  intros Hc.
  unfold DeploymentM._trigger_state_event, DeploymentM.query_get, deployment_of,
    bind, get_session, ret. simpl.
  destruct (List.find _ (deployments (session w))) as [d|]; simpl.
  2: { rewrite app_nil_r. repeat split; done. }
  unfold try_catch, bind.
  match goal with |- context [trigger_model_event env ?a ?b name ?c w] =>
    pose proof (trigger_model_event_frame env w a b name c Hc) as H;
    destruct (trigger_model_event env a b name c w) as [r1 w1]
  end.
  simpl in H. destruct H as ([res ->] & Ht & Hd & Hcm & Hra & Hfs & Hcl).
  destruct (negb (fst res)); simpl; repeat split; eauto.
Qed.

(** One call of [update_health_status] on an existing deployment. *)
Lemma update_health_status_effect env w id d status :
  commit_raises env = None →
  deployment_of (session w) id = Some d →
  let r := DeploymentM.update_health_status env id status w in
  fst r = Ret tt
  ∧ deployment_of (session (snd r)) id
    = Some (DeploymentM.set_updated_at (clock w + 1)
              (DeploymentM.set_last_health_check (clock w)
                 (DeploymentM.set_health_status status d)))
  ∧ raised (snd r) =
      raised w ++
      (if String.eqb status "unhealthy"
          && negb (bool_decide (dep_health_status d = Some "unhealthy"))
       then [health_check_failed_of d] else [])
  ∧ clock w + 2 ≤ clock (snd r).
Proof.
  intros Hc Hd.
  unfold DeploymentM.update_health_status, DeploymentM.update_deployment,
    DeploymentM.query_get, bind, get_session, put_session, utcnow, ret.
  unfold deployment_of in Hd. simpl. rewrite Hd. simpl.
  destruct (String.eqb status "unhealthy"
            && negb (bool_decide (dep_health_status d = Some "unhealthy"))).
  - match goal with
    | |- context [DeploymentM._trigger_state_event env id ?n ?dt ?w1] =>
        pose proof (deployment_trigger_frame env w1 id n dt Hc) as Htrig;
        destruct (DeploymentM._trigger_state_event env id n dt w1) as [? w2];
        simpl in Htrig; destruct Htrig as (-> & Hdeps & _ & Hraised & Hclock)
    end.
    unfold deployment_of in *. simpl in *.
    rewrite !(find_map_update dep_id), Hd in Hraised by done. simpl in Hraised.
    rewrite Hdeps, !(find_map_update dep_id), Hd by done. simpl.
    repeat split; try done. lia.
  - unfold deployment_of. simpl.
    rewrite !(find_map_update dep_id), Hd by done. simpl.
    rewrite app_nil_r. repeat split; try done. lia.
Qed.

Lemma edge_condition status old :
  String.eqb status "unhealthy" && negb (bool_decide (old = Some "unhealthy"))
  = bool_decide (Some status = Some "unhealthy" ∧ old ≠ Some "unhealthy").
Proof.
  destruct (String.eqb status "unhealthy") eqn:Hs; simpl.
  - apply String.eqb_eq in Hs as ->.
    case_bool_decide; simpl; symmetry;
      [apply bool_decide_eq_false | apply bool_decide_eq_true]; tauto.
  - apply String.eqb_neq in Hs. symmetry. apply bool_decide_eq_false.
    intros [[= ?] _]. done.
Qed.

Ltac run_update_health Hc d :=
  match goal with
  | |- context [DeploymentM.update_health_status ?env ?id ?st ?w1] =>
      let H := fresh "Hupd" in
      assert (deployment_of (session w1) id = Some d) as H by done;
      apply (update_health_status_effect env w1 id d st Hc) in H;
      destruct (DeploymentM.update_health_status env id st w1) as [? ?];
      cbn [fst snd] in H; rewrite edge_condition in H;
      destruct H as (-> & ? & ? & ?)
  end.

Ltac finish_health_check Hc :=
  unfold bind, commit, DeploymentService.last_check, DeploymentM.query_get,
    DeploymentM.update_deployment, get_session, put_session, ret;
  rewrite Hc; simpl;
  let Hrun := fresh "Hrun" in
  intros Hrun; simplify_eq; simpl;
  eexists _, _; (split; [reflexivity|]);
  unfold deployment_of in *; simpl in *;
  rewrite ?(find_map_update dep_id) by done;
  repeat match goal with
         | H : List.find _ (deployments (session ?w1)) = Some _ |- context [session ?w1] =>
             rewrite H
         end;
  simpl; repeat split; eauto; try lia.

(** One health check of an existing deployment, storage available. *)
Lemma check_deployment_health_step env w id d :
  commit_raises env = None →
  deployment_of (session w) id = Some d →
  let r := DeploymentService.check_deployment_health env id w in
  ∃ d' res,
    fst r = Ret res
    ∧ deployment_of (session (snd r)) id = Some d'
    ∧ dep_model_id d' = dep_model_id d ∧ dep_model_source d' = dep_model_source d
    ∧ is_Some (dep_health_status d')
    ∧ dep_last_health_check d' = Some (clock w)
    ∧ clock w < clock (snd r)
    ∧ raised (snd r) =
        raised w ++
        (if bool_decide (dep_health_status d' = Some "unhealthy"
                         ∧ dep_health_status d ≠ Some "unhealthy")
         then [health_check_failed_of d] else []).
Proof.
  intros Hc Hd r. subst r.
  destruct (DeploymentService.check_deployment_health env id w) as [res w'] eqn:Hrun.
  revert Hrun.
  unfold DeploymentService.check_deployment_health, DeploymentM.query_get, bind at 1,
    get_session, ret.
  pose proof Hd as Hd'. unfold deployment_of in Hd'. simpl. rewrite Hd'.
  unfold try_catch.
  destruct (negb (String.eqb (dep_status d) "running")) eqn:Hrunning; simpl.
  - unfold bind at 1. run_update_health Hc d. finish_health_check Hc.
  - destruct (truthy_str (dep_container_id d)
              && negb (check_container_status env (default "" (dep_container_id d))));
      simpl.
    + unfold bind at 1. run_update_health Hc d. finish_health_check Hc.
    + unfold bind at 1.
      destruct (String.eqb (dep_model_source d) "huggingface"
                || String.eqb (dep_model_source d) "ollama"); simpl;
        [destruct (probe env d); simpl|]; unfold ret, raise; simpl.
      all: unfold bind at 1.
      all: first [ run_update_health Hc d
                 | unfold logger at 1; simpl; unfold bind at 1; run_update_health Hc d ].
      all: finish_health_check Hc.
Qed.

(** C4 — For an existing deployment and every sequence of health checks,
    storage available: each call writes health_status and stamps
    last_health_check with the clock reading of that call, and it raises
    HEALTH_CHECK_FAILED for the deployment's model key exactly when the
    health status it records is unhealthy while the status recorded before
    the call was not; a call that finds unhealthy already recorded raises
    nothing. *)
Theorem health_check_failed_edge_triggered envs w id d :
  Forall (fun env => commit_raises env = None) envs →
  deployment_of (session w) id = Some d →
  ∀ i before after,
    (w :: run_health_checks envs id w) !! i = Some before →
    (w :: run_health_checks envs id w) !! S i = Some after →
    ∃ d_before d_after,
      deployment_of (session before) id = Some d_before
      ∧ deployment_of (session after) id = Some d_after
      ∧ is_Some (dep_health_status d_after)
      ∧ dep_last_health_check d_after = Some (clock before)
      ∧ clock before < clock after
      ∧ raised after =
          raised before ++
          (if bool_decide (dep_health_status d_after = Some "unhealthy"
                           ∧ dep_health_status d_before ≠ Some "unhealthy")
           then [health_check_failed_of d] else [])
      ∧ (dep_health_status d_before = Some "unhealthy" → raised after = raised before).
Proof.
  intros Hok. revert w d.
  induction Hok as [|env envs Hc Hok IH]; intros w d Hd i before after Hb Ha.
  { destruct i; simplify_eq/=. }
  cbn [run_health_checks] in Hb, Ha.
  destruct (check_deployment_health_step env w id d Hc Hd)
    as (d' & res & _ & Hd' & Hmid & Hmsrc & Hsome & Hlast & Hclock & Hraised).
  destruct i as [|i]; simplify_eq/=.
  - exists d, d'. repeat split; try done.
    intros Hu. rewrite Hraised. rewrite bool_decide_false by tauto.
    by rewrite app_nil_r.
  - destruct (IH _ d' Hd' i before after Hb Ha) as (db & da & H).
    exists db, da. unfold health_check_failed_of in *. by rewrite <- Hmid, <- Hmsrc.
Qed.

End HealthChecks.
Lemma health_check_failed_edge_triggered_witness :
  Forall (fun env => commit_raises env = None) [Sample.env_probe_down; Sample.env_probe_down]
  ∧ deployment_of (session (Sample.world_of Sample.db_active)) "d1"
    = Some Sample.deployment_running
  ∧ let w0 := Sample.world_of Sample.db_active in
    let w1 := snd (DeploymentService.check_deployment_health Sample.env_probe_down "d1" w0) in
    let w2 := snd (DeploymentService.check_deployment_health Sample.env_probe_down "d1" w1) in
    raised w1 = [health_check_failed_of Sample.deployment_running]
    ∧ raised w2 = raised w1.
Proof.
  assert (Forall (fun env => commit_raises env = None)
                 [Sample.env_probe_down; Sample.env_probe_down]) as Hok.
  { repeat constructor. }
  split; [exact Hok|]. split; [by vm_compute|]. intros w0 w1 w2.
  pose proof (health_check_failed_edge_triggered
                [Sample.env_probe_down; Sample.env_probe_down] w0 "d1"
                Sample.deployment_running Hok eq_refl) as Hedge.
  destruct (Hedge 0%nat w0 w1 eq_refl eq_refl)
    as (d0 & d1 & Hd0 & Hd1 & _ & _ & _ & Hr1 & _).
  destruct (Hedge 1%nat w1 w2 eq_refl eq_refl)
    as (d1' & d2 & Hd1' & _ & _ & _ & _ & _ & Hr2).
  vm_compute in Hd0, Hd1, Hd1'.
  injection Hd0 as <-. injection Hd1 as <-. injection Hd1' as <-.
  split.
  - rewrite Hr1. by vm_compute.
  - apply Hr2. by vm_compute.
Defined.

(** * Further properties of the state machine *)

Section StateMachineMore.
Import ModelStateMachine.

Lemma ModelState_of_value s : ModelState_of (state_value s) = Some s.
Proof. by destruct s. Qed.

Lemma ModelEvent_of_value e : ModelEvent_of (event_value e) = Some e.
Proof. by destruct e. Qed.

Lemma ModelState_of_Some v s : ModelState_of v = Some s → state_value s = v.
Proof. intros Hs. apply find_some in Hs as [_ Hs]. by apply String.eqb_eq in Hs. Qed.

Lemma ModelEvent_of_Some v e : ModelEvent_of v = Some e → event_value e = v.
Proof. intros He. apply find_some in He as [_ He]. by apply String.eqb_eq in He. Qed.

(** X1 — The values of the two enumerations identify their members:
    looking a member's value up gives the member back, and a lookup that
    succeeds returns a member with exactly that value. *)
Theorem enum_value_round_trip :
  (∀ s, ModelState_of (state_value s) = Some s)
  ∧ (∀ e, ModelEvent_of (event_value e) = Some e)
  ∧ (∀ v s, ModelState_of v = Some s → state_value s = v)
  ∧ (∀ v e, ModelEvent_of v = Some e → event_value e = v).
Proof.
  split; [apply ModelState_of_value|]. split; [apply ModelEvent_of_value|].
  split; [apply ModelState_of_Some|apply ModelEvent_of_Some].
Qed.

(** X2 — [transition] never raises: whatever the storage and the event
    queue do, it returns a pair; success carries no message (the branch
    "Already in target state" is never taken, no table entry being a
    self-loop) and failure always carries one. *)
Theorem transition_result_shape env w model_id model_source event event_data auto_notify :
  ∃ applied msg,
    fst (transition env model_id model_source event event_data auto_notify w)
    = Ret (applied, msg)
    ∧ (applied = true → msg = None)
    ∧ (applied = false → is_Some msg).
Proof.
  unfold_sm. simpl.
  destruct (models (session w) !! model_id) as [m|]; simpl;
    [destruct (bool_decide (Model_source m = model_source)); simpl|].
  2,3: destruct (commit_raises env) as [e|]; simpl;
       [destruct (exn_kind e); simpl|]; eexists _, _; (split; [reflexivity|]);
       split; (done || eauto).
  run_current_state model_id (Model_status m) w.
  destruct (can_transition _ event) eqn:Hcan; simpl.
  - pose proof Hcan as Hlegal. apply can_transition_legal in Hlegal as [next Hnext].
    pose proof (TRANSITIONS_change_state _ _ _ Hnext) as Hne.
    apply get_next_state_Some in Hnext. rewrite Hnext. simpl.
    rewrite bool_decide_true by done. simpl.
    destruct auto_notify; simpl; [destruct (push_raises env); simpl|];
      (destruct (commit_raises env) as [e|]; simpl; [destruct (exn_kind e); simpl|]);
      eexists _, _; (split; [reflexivity|]); split; (done || eauto).
  - destruct (commit_raises env) as [e|]; simpl; [destruct (exn_kind e); simpl|];
      eexists _, _; (split; [reflexivity|]); split; (done || eauto).
Qed.

(** X3 — When the commit raises, [transition] and [force_state] report
    failure with the storage error's message, and the session is rolled
    back to the committed tables, which stay as they were.  The
    notification of a legal transition has then already been published. *)
Theorem storage_failure_rolls_back env w model_id model_source e :
  commit_raises env = Some e →
  (∀ event event_data auto_notify,
     let r := transition env model_id model_source event event_data auto_notify w in
     fst r = Ret (false, Some (storage_failure_prefix e +:+ exn_msg e))
     ∧ session (snd r) = committed w ∧ committed (snd r) = committed w
     ∧ (∀ m next,
          model_row (session w) model_id model_source = Some m →
          In ((state_of_status (Model_status m), event), next) TRANSITIONS →
          auto_notify = true → push_raises env = None →
          model_status_queue (snd r)
          = model_status_queue w ++ [status_event model_id (state_value next) (clock w + 2)]))
  ∧ (∀ target_state auto_notify,
     let r := force_state env model_id model_source target_state auto_notify w in
     fst r = Ret (false, Some ("Force state failed: " +:+ exn_msg e))
     ∧ session (snd r) = committed w ∧ committed (snd r) = committed w).
Proof.
  intros Hc. split.
  - intros event event_data auto_notify. unfold_sm. unfold storage_failure_prefix. simpl.
    destruct (models (session w) !! model_id) as [m|] eqn:Hlook; simpl;
      [destruct (bool_decide (Model_source m = model_source)) eqn:Hsrc; simpl|].
    2,3: rewrite Hc; simpl; destruct (exn_kind e); simpl; repeat split; try done;
         intros m' next Hrow; unfold model_row in Hrow; rewrite Hlook in Hrow;
         simpl in Hrow; rewrite ?Hsrc in Hrow; done.
    run_current_state model_id (Model_status m) w.
    destruct (can_transition _ event) eqn:Hcan; simpl.
    + pose proof Hcan as Hlegal. apply can_transition_legal in Hlegal as [next Hnext].
      pose proof (TRANSITIONS_change_state _ _ _ Hnext) as Hne.
      pose proof Hnext as Hget. apply get_next_state_Some in Hget. rewrite Hget. simpl.
      rewrite bool_decide_true by done. simpl.
      destruct auto_notify; simpl; [destruct (push_raises env) eqn:Hpush; simpl|];
        rewrite Hc; simpl; destruct (exn_kind e); simpl; use_frame;
        repeat split; try done.
      all: intros m' next' Hrow Hin _ _; unfold model_row in Hrow;
        rewrite Hlook, Hsrc in Hrow; simplify_eq.
      all: apply get_next_state_Some in Hin; rewrite Hget in Hin; simplify_eq.
      all: unfold status_event; do 3 f_equal; lia.
    + rewrite Hc; simpl; destruct (exn_kind e); simpl; use_frame; repeat split; try done.
      all: intros m' next' Hrow Hin _ _; unfold model_row in Hrow;
        rewrite Hlook, Hsrc in Hrow; simplify_eq.
      all: assert (can_transition (state_of_status (Model_status m')) event = true)
          as Hcan' by (apply can_transition_legal; by exists next').
      all: congruence.
  - intros target_state auto_notify. unfold_sm. simpl.
    destruct (models (session w) !! model_id) as [m|]; simpl;
      [destruct (bool_decide (Model_source m = model_source)); simpl|].
    2,3: by rewrite Hc.
    destruct auto_notify; simpl; [destruct (push_raises env); simpl|];
      by rewrite Hc.
Qed.

Lemma storage_failure_rolls_back_witness :
  commit_raises SampleMore.env_commit_fails
  = Some (mkExn OtherException "server closed the connection")
  ∧ let r := transition SampleMore.env_commit_fails "org/m" "huggingface"
               HEALTH_CHECK_FAILED None true (Sample.world_of Sample.db_active) in
    fst r = Ret (false, Some "State transition failed: server closed the connection")
    ∧ session (snd r) = Sample.db_active.
Proof.
  split; [reflexivity|].
  destruct (storage_failure_rolls_back SampleMore.env_commit_fails
              (Sample.world_of Sample.db_active) "org/m" "huggingface"
              (mkExn OtherException "server closed the connection") eq_refl)
    as [Htransition _].
  destruct (Htransition HEALTH_CHECK_FAILED None true) as (Hr & Hs & _).
  split; [exact Hr | exact Hs].
Defined.

(** What a call of [transition] does to the [models] table: nothing, or one
    write of status and updated_at on the row of the key. *)
Lemma transition_models env w id src ev data notify :
  commit_raises env = None →
  let r := transition env id src ev data notify w in
  models (session (snd r)) = models (session w)
  ∨ ∃ v t, models (session (snd r))
           = alter (fun m => mkModel (Model_source m) (Some v) (Some t)) id
                   (models (session w)).
Proof.
  intros Hc. unfold_sm. simpl.
  destruct (models (session w) !! id) as [m|]; simpl;
    [destruct (bool_decide (Model_source m = src)); simpl|].
  2,3: rewrite Hc; simpl; by left.
  run_current_state id (Model_status m) w.
  destruct (can_transition _ ev) eqn:Hcan; simpl.
  - apply can_transition_legal, legal_next_state in Hcan as [next ->]. simpl.
    case_bool_decide; simpl;
      [destruct notify; simpl; [destruct (push_raises env); simpl|]|];
      rewrite Hc; simpl; use_frame; eauto.
  - rewrite Hc; simpl; use_frame; eauto.
Qed.

(** X4 — With the storage available, a call of [transition] touches at
    most the row of its model key: every other Model row, the source of the
    row itself, the set of model ids, the download tasks, the deployments
    and the file system are as before. *)
Theorem transition_touches_one_row env w model_id model_source event event_data auto_notify :
  commit_raises env = None →
  let r := transition env model_id model_source event event_data auto_notify w in
  (∀ id', id' ≠ model_id → models (session (snd r)) !! id' = models (session w) !! id')
  ∧ Model_source <$> models (session (snd r)) !! model_id
    = Model_source <$> models (session w) !! model_id
  ∧ dom (models (session (snd r))) = dom (models (session w))
  ∧ download_tasks (session (snd r)) = download_tasks (session w)
  ∧ deployments (session (snd r)) = deployments (session w)
  ∧ fs (snd r) = fs w.
Proof.
  intros Hc r.
  destruct (transition_frame env w model_id model_source event event_data auto_notify Hc)
    as (_ & Ht & Hd & _ & _ & Hfs & _).
  destruct (transition_models env w model_id model_source event event_data auto_notify Hc)
    as [Hm | (v & t & Hm)]; fold r in Hm, Ht, Hd, Hfs; rewrite Hm.
  - done.
  - split; [intros id' Hne; by rewrite lookup_alter_ne|].
    split; [rewrite lookup_alter_eq; by destruct (models (session w) !! model_id)|].
    split; [apply dom_alter_L|done].
Qed.

Lemma transition_touches_one_row_witness :
  commit_raises Sample.env_ok = None
  ∧ let r := transition Sample.env_ok "org/m" "huggingface" HEALTH_CHECK_FAILED None true
               (Sample.world_of Sample.db_active) in
    deployments (session (snd r)) = [Sample.deployment_running]
    ∧ dom (models (session (snd r))) = dom (models Sample.db_active).
Proof.
  split; [reflexivity|].
  destruct (transition_touches_one_row Sample.env_ok (Sample.world_of Sample.db_active)
              "org/m" "huggingface" HEALTH_CHECK_FAILED None true eq_refl)
    as (_ & _ & Hdom & _ & Hd & _).
  split; [exact Hd | exact Hdom].
Defined.

Lemma get_model_state_after_write d id src m v t s w :
  model_row d id src = Some m →
  ModelState_of v = Some s → v ≠ "" →
  session w
  = with_models (alter (fun m => mkModel (Model_source m) (Some v) (Some t)) id (models d)) d →
  fst (get_model_state id src w) = Ret (Some s).
Proof.
  intros Hrow Hv Hne Hs.
  apply model_row_lookup in Hrow as [Hm Hsrc].
  unfold get_model_state, query_model, bind, get_session, ret. simpl. rewrite Hs. simpl.
  rewrite lookup_alter_eq, Hm. simpl. rewrite bool_decide_true by done. simpl.
  apply String.eqb_neq in Hne. rewrite Hne. simpl. by rewrite Hv.
Qed.

Lemma state_value_nonempty s : state_value s ≠ "".
Proof. by destruct s. Qed.

(** X5 — Writing and reading agree: after a legal [transition] on an
    existing row [get_model_state] answers the table's next state, and
    after [force_state] it answers the forced target. *)
Theorem state_write_then_read env w model_id model_source m :
  commit_raises env = None →
  model_row (session w) model_id model_source = Some m →
  (∀ event event_data auto_notify next,
     In ((state_of_status (Model_status m), event), next) TRANSITIONS →
     fst (get_model_state model_id model_source
            (snd (transition env model_id model_source event event_data auto_notify w)))
     = Ret (Some next))
  ∧ (∀ target_state auto_notify,
     fst (get_model_state model_id model_source
            (snd (force_state env model_id model_source target_state auto_notify w)))
     = Ret (Some target_state)).
Proof.
  intros Hc Hm. split.
  - intros event event_data auto_notify next Hnext.
    destruct (transition_applied env w model_id model_source m event event_data
                auto_notify next Hc Hm Hnext) as (_ & Hs & _).
    eapply get_model_state_after_write; [exact Hm| |apply state_value_nonempty|exact Hs].
    apply ModelState_of_value.
  - intros target_state auto_notify.
    destruct (force_state_applied env w model_id model_source m target_state auto_notify
                Hc Hm) as (_ & Hs & _).
    eapply get_model_state_after_write; [exact Hm| |apply state_value_nonempty|exact Hs].
    apply ModelState_of_value.
Qed.

Lemma state_write_then_read_witness :
  commit_raises Sample.env_ok = None
  ∧ model_row (session (Sample.world_of Sample.db_active)) "org/m" "huggingface"
    = Some Sample.model_active
  ∧ fst (get_model_state "org/m" "huggingface"
           (snd (force_state Sample.env_ok "org/m" "huggingface" TRAINING true
                   (Sample.world_of Sample.db_active))))
    = Ret (Some TRAINING).
Proof.
  split; [reflexivity|]. split; [reflexivity|].
  destruct (state_write_then_read Sample.env_ok (Sample.world_of Sample.db_active)
              "org/m" "huggingface" Sample.model_active eq_refl eq_refl) as [_ Hforce].
  exact (Hforce TRAINING true).
Defined.

Ltac no_event :=
  exists []; rewrite app_nil_r; split; [done|]; split; [simpl; lia|];
  split; [done|]; by intros x [].

(** X6 — The MODEL_STATUS queue only grows, by at most one event per call
    of [transition]: an event for the model key of the call, with interval
    0, and none at all when notification is switched off. *)
Theorem transition_publishes_at_most_once env w model_id model_source event event_data
    auto_notify :
  ∃ added,
    model_status_queue
      (snd (transition env model_id model_source event event_data auto_notify w))
    = model_status_queue w ++ added
    ∧ (length added ≤ 1)%nat
    ∧ (auto_notify = false → added = [])
    ∧ ∀ x, In x added →
           ev_interval x = Some 0
           ∧ ∃ status, ev_models x
                       = [mkItem model_id (model_name_of model_id) status
                                  (last_updated_text status)].
Proof.
  unfold_sm. simpl.
  destruct (models (session w) !! model_id) as [m|]; simpl;
    [destruct (bool_decide (Model_source m = model_source)); simpl|].
  2,3: destruct (commit_raises env) as [e|]; simpl;
       [destruct (exn_kind e); simpl|];
       no_event.
  run_current_state model_id (Model_status m) w.
  destruct (can_transition _ event) eqn:Hcan; simpl.
  - apply can_transition_legal, legal_next_state in Hcan as [next ->]. simpl.
    case_bool_decide; simpl;
      [destruct auto_notify; simpl; [destruct (push_raises env); simpl|]|];
      (destruct (commit_raises env) as [e|]; simpl; [destruct (exn_kind e); simpl|]);
      use_frame;
      first [ (eexists [_]; split; [reflexivity|]; split; [simpl; lia|];
               split; [done|]; intros x [<-|[]]; simpl; eauto)
            | no_event ].
  - destruct (commit_raises env) as [e|]; simpl; [destruct (exn_kind e); simpl|];
      use_frame; no_event.
Qed.



Lemma append_assoc (a b c : string) : (a +:+ b) +:+ c = a +:+ (b +:+ c).
Proof.
  induction a as [|x a IH]; [done|].
  change (String x ((a +:+ b) +:+ c) = String x (a +:+ (b +:+ c))). by rewrite IH.
Qed.

Lemma append_nil_r (a : string) : a +:+ "" = a.
Proof.
  induction a as [|x a IH]; [done|]. change (String x (a +:+ "") = String x a).
  by rewrite IH.
Qed.

Lemma contains_char_app c a b :
  contains_char c (a +:+ b) = contains_char c a || contains_char c b.
Proof.
  induction a as [|x a IH]; [done|].
  change (Ascii.eqb x c || contains_char c (a +:+ b)
          = Ascii.eqb x c || contains_char c a || contains_char c b).
  rewrite IH. by destruct (Ascii.eqb x c).
Qed.

Lemma after_last_slash_no_slash s acc :
  contains_char "/" acc = false →
  contains_char "/" (after_last_slash acc s) = false.
Proof.
  revert acc. induction s as [|c s IH]; intros acc Hacc; [done|].
  cbn [after_last_slash]. destruct (Ascii.eqb c "/") eqn:Hc.
  - by apply IH.
  - apply IH. rewrite contains_char_app, Hacc. simpl. by rewrite Hc.
Qed.

Lemma after_last_slash_suffix s acc :
  ∃ prefix,
    acc +:+ s = prefix +:+ after_last_slash acc s
    ∧ (prefix = "" ∨ ∃ p, prefix = p +:+ "/").
Proof.
  revert acc. induction s as [|c s IH]; intros acc.
  - exists "". split; [by rewrite append_nil_r|by left].
  - cbn [after_last_slash]. destruct (Ascii.eqb c "/") eqn:Hc.
    + apply Ascii.eqb_eq in Hc as ->.
      destruct (IH "") as (prefix & Heq & Hprefix). simpl in Heq.
      exists (acc +:+ "/" +:+ prefix). split.
      * rewrite !append_assoc. do 2 f_equal. exact Heq.
      * right. destruct Hprefix as [-> | [p ->]].
        -- exists acc. by rewrite append_nil_r.
        -- exists (acc +:+ "/" +:+ p). by rewrite !append_assoc.
    + destruct (IH (acc +:+ String c "")) as (prefix & Heq & Hprefix).
      exists prefix. split; [|done]. rewrite <- Heq. by rewrite append_assoc.
Qed.

Lemma after_last_slash_plain s acc :
  contains_char "/" s = false → after_last_slash acc s = acc +:+ s.
Proof.
  revert acc. induction s as [|c s IH]; intros acc Hs.
  - by rewrite append_nil_r.
  - cbn [after_last_slash]. simpl in Hs. apply orb_false_iff in Hs as [Hc Hs].
    rewrite Hc, IH by done. by rewrite append_assoc.
Qed.

(** X8 — The display name that the notification carries is the part of the
    model id after its last slash: it holds no slash, the id is that name
    behind a prefix that is empty or ends in a slash, and an id without
    slash is its own name. *)
Theorem model_name_is_last_segment model_id :
  contains_char "/" (model_name_of model_id) = false
  ∧ (∃ prefix, model_id = prefix +:+ model_name_of model_id
               ∧ (prefix = "" ∨ ∃ p, prefix = p +:+ "/"))
  ∧ (contains_char "/" model_id = false → model_name_of model_id = model_id).
Proof.
  unfold model_name_of. split; [by apply after_last_slash_no_slash|]. split.
  - destruct (after_last_slash_suffix model_id "") as (prefix & Heq & Hprefix).
    exists prefix. by split.
  - intros Hplain. by rewrite after_last_slash_plain.
Qed.

Lemma model_row_after_write d id src m v t :
  model_row d id src = Some m →
  model_row
    (with_models (alter (fun m => mkModel (Model_source m) (Some v) (Some t)) id (models d)) d)
    id src
  = Some (mkModel (Model_source m) (Some v) (Some t)).
Proof.
  intros Hrow. apply model_row_lookup in Hrow as [Hm Hsrc].
  unfold model_row. simpl. rewrite lookup_alter_eq, Hm. simpl.
  by rewrite bool_decide_true.
Qed.

(** X9 — The manual events compose: on an existing row whose state is not
    ERROR, MANUAL_ERROR_SET is applied and leads to error, and a following
    MANUAL_RESET is applied and leads to inactive; on a row that is already
    in ERROR, MANUAL_ERROR_SET is refused and the row stays as it is. *)
Theorem manual_error_then_reset env w model_id model_source m :
  commit_raises env = None →
  model_row (session w) model_id model_source = Some m →
  let r1 := transition env model_id model_source MANUAL_ERROR_SET None true w in
  let r2 := transition env model_id model_source MANUAL_RESET None true (snd r1) in
  (state_of_status (Model_status m) ≠ ERROR →
     fst r1 = Ret (true, None)
     ∧ stored_status (committed (snd r1)) model_id = Some (Some "error")
     ∧ fst r2 = Ret (true, None)
     ∧ stored_status (committed (snd r2)) model_id = Some (Some "inactive"))
  ∧ (state_of_status (Model_status m) = ERROR →
     fst r1 = Ret (false, Some "Invalid transition: error -> manual_error_set. Valid events: ['download_started', 'deploy_started', 'manual_reset']")
     ∧ session (snd r1) = session w).
Proof.
  intros Hc Hm r1 r2. split.
  - intros Hne.
    assert (In ((state_of_status (Model_status m), MANUAL_ERROR_SET), ERROR) TRANSITIONS)
      as Hin1.
    { destruct (state_of_status (Model_status m)); try done; vm_compute; tauto. }
    destruct (transition_applied env w model_id model_source m MANUAL_ERROR_SET None
                true ERROR Hc Hm Hin1) as (Hr1 & Hs1 & Hcm1 & _).
    fold r1 in Hr1, Hs1, Hcm1.
    pose proof (model_row_after_write _ _ _ _ (state_value ERROR) (clock w) Hm) as Hrow1.
    rewrite <- Hs1 in Hrow1.
    assert (In ((state_of_status
                   (Model_status (mkModel (Model_source m) (Some (state_value ERROR))
                                          (Some (clock w)))),
                 MANUAL_RESET), INACTIVE) TRANSITIONS) as Hin2.
    { vm_compute. tauto. }
    destruct (transition_applied env (snd r1) model_id model_source _ MANUAL_RESET None
                true INACTIVE Hc Hrow1 Hin2) as (Hr2 & Hs2 & Hcm2 & _).
    fold r2 in Hr2, Hs2, Hcm2.
    apply model_row_lookup in Hm as [Hm _]. apply model_row_lookup in Hrow1 as [Hrow1 _].
    split; [done|]. split.
    { rewrite Hcm1, Hs1. by eapply stored_status_alter. }
    split; [done|]. rewrite Hcm2, Hs2. by eapply stored_status_alter.
  - intros Herr.
    assert (¬ legal (state_of_status (Model_status m)) MANUAL_ERROR_SET) as Hill.
    { rewrite Herr. intros [next Hin]. vm_compute in Hin. intuition discriminate. }
    destruct (transition_rejected env w model_id model_source m MANUAL_ERROR_SET None
                true Hc Hm Hill) as (Hr & Hs & _).
    fold r1 in Hr, Hs. rewrite Herr in Hr. split; [|done]. rewrite Hr. reflexivity.
Qed.

Lemma manual_error_then_reset_witness :
  commit_raises Sample.env_ok = None
  ∧ model_row (session (Sample.world_of Sample.db_active)) "org/m" "huggingface"
    = Some Sample.model_active
  ∧ let r1 := transition Sample.env_ok "org/m" "huggingface" MANUAL_ERROR_SET None true
                (Sample.world_of Sample.db_active) in
    let r2 := transition Sample.env_ok "org/m" "huggingface" MANUAL_RESET None true
                (snd r1) in
    stored_status (committed (snd r1)) "org/m" = Some (Some "error")
    ∧ stored_status (committed (snd r2)) "org/m" = Some (Some "inactive").
Proof.
  split; [reflexivity|]. split; [reflexivity|].
  destruct (manual_error_then_reset Sample.env_ok (Sample.world_of Sample.db_active)
              "org/m" "huggingface" Sample.model_active eq_refl eq_refl) as [Hgo _].
  destruct Hgo as (_ & H1 & _ & H2); [by vm_compute|].
  split; [exact H1 | exact H2].
Defined.

End StateMachineMore.

(** * Events raised by tasks and deployments *)

Section TriggerEffects.
Import ModelStateMachine.

Lemma stored_status_of_alter (d d' : DB) id m v t :
  models d' = alter (fun m => mkModel (Model_source m) (Some v) (Some t)) id (models d) →
  models d !! id = Some m →
  stored_status d' id = Some (Some v).
Proof.
  intros Hd Hm. unfold stored_status. rewrite Hd, lookup_alter_eq, Hm. done.
Qed.

(** What raising the event [e] for an existing row does, storage available. *)
Lemma trigger_model_event_effect env w id src e data m :
  commit_raises env = None →
  model_row (session w) id src = Some m →
  let r := trigger_model_event env id src (event_value e) data w in
  raised (snd r) = raised w ++ [mkRaised id src (event_value e)]
  ∧ download_tasks (session (snd r)) = download_tasks (session w)
  ∧ deployments (session (snd r)) = deployments (session w)
  ∧ committed (snd r) = session (snd r)
  ∧ fs (snd r) = fs w
  ∧ (∀ next, In ((state_of_status (Model_status m), e), next) TRANSITIONS →
       fst r = Ret (true, None)
       ∧ models (session (snd r))
         = alter (fun m => mkModel (Model_source m) (Some (state_value next)) (Some (clock w)))
                 id (models (session w)))
  ∧ (¬ legal (state_of_status (Model_status m)) e →
       fst r = Ret (false, Some (invalid_transition_msg (state_of_status (Model_status m)) e))
       ∧ models (session (snd r)) = models (session w)).
Proof.
  intros Hc Hm. unfold trigger_model_event, bind, note_raised. simpl.
  assert (ModelEvent_of (event_value e) = Some e) as -> by apply ModelEvent_of_value.
  match goal with |- context [transition env id src e data true ?w1] => set (w1' := w1) end.
  assert (model_row (session w1') id src = Some m) as Hm' by done.
  destruct (transition_frame env w1' id src e data true Hc)
    as (_ & Ht & Hd & Hcm & Hra & Hfs & _).
  split; [done|]. split; [done|]. split; [done|]. split; [done|]. split; [done|].
  split.
  - intros next Hnext.
    destruct (transition_applied env w1' id src m e data true next Hc Hm' Hnext)
      as (Hr & Hs & _).
    split; [done|]. by rewrite Hs.
  - intros Hill.
    destruct (transition_rejected env w1' id src m e data true Hc Hm' Hill)
      as (Hr & Hs & _).
    split; [done|]. by rewrite Hs.
Qed.

Lemma legal_dec s e : {legal s e} + {¬ legal s e}.
Proof.
  destruct (can_transition s e) eqn:Hcan.
  - left. by apply can_transition_legal.
  - right. intros H. apply can_transition_legal in H. congruence.
Qed.

(** The event hook of a task whose model row exists. *)
Lemma task_trigger_effect env w id t e data m :
  commit_raises env = None →
  task_of (session w) id = Some t →
  model_row (session w) (task_model_id t) (task_model_source t) = Some m →
  let r := DownloadTaskM._trigger_state_event env id (event_value e) data w in
  fst r = Ret tt
  ∧ raised (snd r)
    = raised w ++ [mkRaised (task_model_id t) (task_model_source t) (event_value e)]
  ∧ download_tasks (session (snd r)) = download_tasks (session w)
  ∧ deployments (session (snd r)) = deployments (session w)
  ∧ committed (snd r) = session (snd r)
  ∧ fs (snd r) = fs w
  ∧ (∀ next, In ((state_of_status (Model_status m), e), next) TRANSITIONS →
       models (session (snd r))
       = alter (fun m => mkModel (Model_source m) (Some (state_value next)) (Some (clock w)))
               (task_model_id t) (models (session w)))
  ∧ (¬ legal (state_of_status (Model_status m)) e →
       models (session (snd r)) = models (session w)).
Proof.
  intros Hc Ht Hm.
  unfold DownloadTaskM._trigger_state_event, DownloadTaskM.query_get,
    bind, get_session, ret. simpl.
  unfold task_of in Ht. rewrite Ht. unfold try_catch, bind.
  match goal with |- context [trigger_model_event env ?a ?b ?n ?c w] =>
    pose proof (trigger_model_event_effect env w a b e c m Hc Hm) as H;
    destruct (trigger_model_event env a b n c w) as [r1 w1]
  end.
  simpl in H. destruct H as (Hra & Htasks & Hdeps & Hcm & Hfs & Hok & Hno).
  assert (∃ res, r1 = Ret res) as [res ->].
  { destruct (legal_dec (state_of_status (Model_status m)) e) as [[next Hn]|Hn].
    - destruct (Hok next Hn) as [-> _]. eauto.
    - destruct (Hno Hn) as [-> _]. eauto. }
  destruct (negb (fst res)); simpl.
  all: split; [done|]; split; [done|]; split; [done|]; split; [done|];
    split; [done|]; split; [done|]; split.
  all: try (intros next Hn; by destruct (Hok next Hn)).
  all: try (intros Hn; by destruct (Hno Hn)).
Qed.

(** The event hook of a deployment whose model row exists. *)
Lemma deployment_trigger_effect env w id x e data m :
  commit_raises env = None →
  deployment_of (session w) id = Some x →
  model_row (session w) (dep_model_id x) (dep_model_source x) = Some m →
  let r := DeploymentM._trigger_state_event env id (event_value e) data w in
  fst r = Ret tt
  ∧ raised (snd r)
    = raised w ++ [mkRaised (dep_model_id x) (dep_model_source x) (event_value e)]
  ∧ download_tasks (session (snd r)) = download_tasks (session w)
  ∧ deployments (session (snd r)) = deployments (session w)
  ∧ committed (snd r) = session (snd r)
  ∧ fs (snd r) = fs w
  ∧ (∀ next, In ((state_of_status (Model_status m), e), next) TRANSITIONS →
       models (session (snd r))
       = alter (fun m => mkModel (Model_source m) (Some (state_value next)) (Some (clock w)))
               (dep_model_id x) (models (session w)))
  ∧ (¬ legal (state_of_status (Model_status m)) e →
       models (session (snd r)) = models (session w)).
Proof.
  intros Hc Hx Hm.
  unfold DeploymentM._trigger_state_event, DeploymentM.query_get,
    bind, get_session, ret. simpl.
  unfold deployment_of in Hx. rewrite Hx. unfold try_catch, bind.
  match goal with |- context [trigger_model_event env ?a ?b ?n ?c w] =>
    pose proof (trigger_model_event_effect env w a b e c m Hc Hm) as H;
    destruct (trigger_model_event env a b n c w) as [r1 w1]
  end.
  simpl in H. destruct H as (Hra & Htasks & Hdeps & Hcm & Hfs & Hok & Hno).
  assert (∃ res, r1 = Ret res) as [res ->].
  { destruct (legal_dec (state_of_status (Model_status m)) e) as [[next Hn]|Hn].
    - destruct (Hok next Hn) as [-> _]. eauto.
    - destruct (Hno Hn) as [-> _]. eauto. }
  destruct (negb (fst res)); simpl.
  all: split; [done|]; split; [done|]; split; [done|]; split; [done|];
    split; [done|]; split; [done|]; split.
  all: try (intros next Hn; by destruct (Hok next Hn)).
  all: try (intros Hn; by destruct (Hno Hn)).
Qed.

End TriggerEffects.

(** * Further properties of download tasks *)

(** Runs the event hook of a task symbolically: [Ht] finds the task before
    the attribute writes, [Hm] its model row. *)
Ltac run_task_effect Hc Ht Hm e :=
  match goal with
  | |- context [DownloadTaskM._trigger_state_event ?env ?id ?n ?d ?w1] =>
      let Htask := fresh "Htask" in
      let Heff := fresh "Heff" in
      eassert (task_of (session w1) id = Some _) as Htask
        by (unfold task_of in *; simpl; rewrite ?(find_map_update task_id) by done;
            rewrite Ht; reflexivity);
      pose proof (task_trigger_effect env w1 id _ e d _ Hc Htask Hm) as Heff;
      change (event_value e) with n in Heff;
      destruct (DownloadTaskM._trigger_state_event env id n d w1) as [? ?];
      cbn [fst snd] in Heff;
      let Hraised := fresh "Hraised" in
      let Htasks := fresh "Htasks" in
      let Hdeps := fresh "Hdeps" in
      let Hcm := fresh "Hcommitted" in
      let Hfs := fresh "Hfs" in
      let Hok := fresh "Hok" in
      let Hno := fresh "Hno" in
      destruct Heff as (-> & Hraised & Htasks & Hdeps & Hcm & Hfs & Hok & Hno);
      simpl in Hraised, Htasks, Hdeps, Hfs
  end.

Ltac unfold_task_methods :=
  unfold DownloadTaskM.start_download, DownloadTaskM.resume_download,
    DownloadTaskM.complete_download, DownloadTaskM.fail_download,
    DownloadTaskM.cancel_download, DownloadTaskM.pause_download,
    DownloadTaskM.update_task, DownloadTaskM.query_get,
    bind, get_session, put_session, utcnow, ret.

Section DownloadLifecycle.
Import ModelStateMachine.

Lemma legal_download_started_next s next :
  In ((s, DOWNLOAD_STARTED), next) TRANSITIONS → next = DOWNLOADING.
Proof. destruct s; vm_compute; intuition congruence. Qed.

Lemma legal_download_started s :
  legal s DOWNLOAD_STARTED ↔ s = INACTIVE ∨ s = ACTIVE ∨ s = ERROR.
Proof.
  rewrite <- can_transition_legal. destruct s; vm_compute; intuition discriminate.
Qed.

(** X10 — [start_download] of a task whose model row exists, storage
    available: the task becomes downloading with [started_at] stamped,
    download_started is raised for its model key, and the model's stored
    status becomes downloading exactly when its state is INACTIVE, ACTIVE
    or ERROR; in DOWNLOADING, DEPLOYING or TRAINING the event is refused
    and the stored status stays as it is. *)
Theorem start_download_drives_model env w id t m :
  commit_raises env = None →
  task_of (session w) id = Some t →
  model_row (session w) (task_model_id t) (task_model_source t) = Some m →
  let r := DownloadTaskM.start_download env id w in
  let current := state_of_status (Model_status m) in
  fst r = Ret tt
  ∧ (∃ t', task_of (session (snd r)) id = Some t'
           ∧ task_status t' = "downloading" ∧ task_started_at t' = Some (clock w))
  ∧ raised (snd r)
    = raised w ++ [mkRaised (task_model_id t) (task_model_source t) "download_started"]
  ∧ (current = INACTIVE ∨ current = ACTIVE ∨ current = ERROR →
     stored_status (session (snd r)) (task_model_id t) = Some (Some "downloading"))
  ∧ (current = DOWNLOADING ∨ current = DEPLOYING ∨ current = TRAINING →
     stored_status (session (snd r)) (task_model_id t) = Some (Model_status m)).
Proof.
  intros Hc Ht Hm. unfold_task_methods. simpl.
  run_task_effect Hc Ht Hm DOWNLOAD_STARTED. simpl.
  apply model_row_lookup in Hm as Hlook. destruct Hlook as [Hlook _].
  split; [done|]. split.
  { unfold task_of in *. use_frame. rewrite !(find_map_update task_id), Ht by done.
    simpl. eauto. }
  split; [done|]. split.
  - intros Hcur.
    assert (In ((state_of_status (Model_status m), DOWNLOAD_STARTED), DOWNLOADING)
               TRANSITIONS) as Hin.
    { destruct Hcur as [-> | [-> | ->]]; vm_compute; tauto. }
    eapply stored_status_of_alter; [exact (Hok DOWNLOADING Hin)|exact Hlook].
  - intros Hcur.
    assert (¬ legal (state_of_status (Model_status m)) DOWNLOAD_STARTED) as Hill.
    { rewrite legal_download_started. destruct Hcur as [-> | [-> | ->]]; intuition discriminate. }
    unfold stored_status. rewrite (Hno Hill). simpl. by rewrite Hlook.
Qed.

Lemma start_download_drives_model_witness :
  commit_raises Sample.env_ok = None
  ∧ task_of (session (Sample.world_of SampleMore.db_inactive)) "t2"
    = Some SampleMore.task_pending
  ∧ model_row (session (Sample.world_of SampleMore.db_inactive)) "org/m" "huggingface"
    = Some SampleMore.model_inactive
  ∧ stored_status
      (session (snd (DownloadTaskM.start_download Sample.env_ok "t2"
                       (Sample.world_of SampleMore.db_inactive)))) "org/m"
    = Some (Some "downloading").
Proof.
  split; [reflexivity|]. split; [reflexivity|]. split; [reflexivity|].
  destruct (start_download_drives_model Sample.env_ok
              (Sample.world_of SampleMore.db_inactive) "t2" SampleMore.task_pending
              SampleMore.model_inactive eq_refl eq_refl eq_refl)
    as (_ & _ & _ & Hgo & _).
  apply Hgo. left. reflexivity.
Defined.

Lemma legal_download_outcome s e :
  e = DOWNLOAD_COMPLETED ∨ e = DOWNLOAD_FAILED ∨ e = DOWNLOAD_CANCELLED →
  legal s e ↔ s = DOWNLOADING.
Proof.
  intros He. rewrite <- can_transition_legal.
  destruct He as [-> | [-> | ->]]; destruct s; vm_compute; intuition discriminate.
Qed.

(** X11 — The terminal methods of a task act on the model only from
    DOWNLOADING: there [complete_download] and [cancel_download] store
    inactive and [fail_download] stores error; in every other state the
    event is refused and the model's stored status stays as it is, while
    the task itself is marked completed, cancelled or failed all the same. *)
Theorem download_outcome_drives_model env w id t m error_message :
  commit_raises env = None →
  task_of (session w) id = Some t →
  model_row (session w) (task_model_id t) (task_model_source t) = Some m →
  let after_complete := snd (DownloadTaskM.complete_download env id w) in
  let after_fail := snd (DownloadTaskM.fail_download env id error_message w) in
  let after_cancel := snd (DownloadTaskM.cancel_download env id w) in
  (task_status <$> task_of (session after_complete) id = Some "completed"
   ∧ task_status <$> task_of (session after_fail) id = Some "failed"
   ∧ task_status <$> task_of (session after_cancel) id = Some "cancelled")
  ∧ (state_of_status (Model_status m) = DOWNLOADING →
     stored_status (session after_complete) (task_model_id t) = Some (Some "inactive")
     ∧ stored_status (session after_fail) (task_model_id t) = Some (Some "error")
     ∧ stored_status (session after_cancel) (task_model_id t) = Some (Some "inactive"))
  ∧ (state_of_status (Model_status m) ≠ DOWNLOADING →
     stored_status (session after_complete) (task_model_id t) = Some (Model_status m)
     ∧ stored_status (session after_fail) (task_model_id t) = Some (Model_status m)
     ∧ stored_status (session after_cancel) (task_model_id t) = Some (Model_status m)).
Proof.
  intros Hc Ht Hm.
  apply model_row_lookup in Hm as Hlook. destruct Hlook as [Hlook _].
  assert (∀ e next w',
            In ((DOWNLOADING, e), next) TRANSITIONS →
            state_of_status (Model_status m) = DOWNLOADING →
            (∀ next, In ((state_of_status (Model_status m), e), next) TRANSITIONS →
               ∃ ts, models (session w')
                     = alter (fun m => mkModel (Model_source m) (Some (state_value next))
                                               (Some ts))
                             (task_model_id t) (models (session w))) →
            stored_status (session w') (task_model_id t) = Some (Some (state_value next)))
    as Hgo.
  { intros e next w' Hin Hcur Hok. rewrite <- Hcur in Hin.
    destruct (Hok next Hin) as [ts Hmodels].
    by eapply stored_status_of_alter. }
  assert (∀ e w',
            e = DOWNLOAD_COMPLETED ∨ e = DOWNLOAD_FAILED ∨ e = DOWNLOAD_CANCELLED →
            state_of_status (Model_status m) ≠ DOWNLOADING →
            (¬ legal (state_of_status (Model_status m)) e →
               models (session w') = models (session w)) →
            stored_status (session w') (task_model_id t) = Some (Model_status m))
    as Hstay.
  { intros e w' He Hcur Hno. unfold stored_status. rewrite Hno, Hlook; [done|].
    by rewrite (legal_download_outcome _ _ He). }
  cbv zeta. unfold_task_methods. simpl.
  split; [|split].
  - repeat split.
    + run_task_effect Hc Ht Hm DOWNLOAD_COMPLETED. simpl. unfold task_of in *.
      rewrite Htasks, !(find_map_update task_id), Ht by done. done.
    + run_task_effect Hc Ht Hm DOWNLOAD_FAILED. simpl. unfold task_of in *.
      rewrite Htasks, !(find_map_update task_id), Ht by done. done.
    + run_task_effect Hc Ht Hm DOWNLOAD_CANCELLED. simpl. unfold task_of in *.
      rewrite Htasks, !(find_map_update task_id), Ht by done. done.
  - intros Hcur. repeat split.
    + run_task_effect Hc Ht Hm DOWNLOAD_COMPLETED. simpl.
      apply (Hgo DOWNLOAD_COMPLETED INACTIVE); [vm_compute; tauto|done|]. eauto.
    + run_task_effect Hc Ht Hm DOWNLOAD_FAILED. simpl.
      apply (Hgo DOWNLOAD_FAILED ERROR); [vm_compute; tauto|done|]. eauto.
    + run_task_effect Hc Ht Hm DOWNLOAD_CANCELLED. simpl.
      apply (Hgo DOWNLOAD_CANCELLED INACTIVE); [vm_compute; tauto|done|]. eauto.
  - intros Hcur. repeat split.
    + run_task_effect Hc Ht Hm DOWNLOAD_COMPLETED. simpl.
      apply (Hstay DOWNLOAD_COMPLETED); [tauto|done|done].
    + run_task_effect Hc Ht Hm DOWNLOAD_FAILED. simpl.
      apply (Hstay DOWNLOAD_FAILED); [tauto|done|done].
    + run_task_effect Hc Ht Hm DOWNLOAD_CANCELLED. simpl.
      apply (Hstay DOWNLOAD_CANCELLED); [tauto|done|done].
Qed.

Lemma download_outcome_drives_model_witness :
  commit_raises Sample.env_ok = None
  ∧ task_of (session (Sample.world_of Sample.db_downloading)) "t1"
    = Some Sample.task_downloading
  ∧ model_row (session (Sample.world_of Sample.db_downloading)) "org/m" "huggingface"
    = Some Sample.model_downloading
  ∧ stored_status
      (session (snd (DownloadTaskM.fail_download Sample.env_ok "t1" None
                       (Sample.world_of Sample.db_downloading)))) "org/m"
    = Some (Some "error").
Proof.
  split; [reflexivity|]. split; [reflexivity|]. split; [reflexivity|].
  destruct (download_outcome_drives_model Sample.env_ok
              (Sample.world_of Sample.db_downloading) "t1" Sample.task_downloading
              Sample.model_downloading None eq_refl eq_refl eq_refl)
    as (_ & Hgo & _).
  destruct (Hgo eq_refl) as (_ & Hfail & _). exact Hfail.
Defined.

End DownloadLifecycle.

(** * The download service: start, resume, delete, queue *)

Section DownloadServiceMore.
Import ModelStateMachine.

Ltac solve_task_event_effect Hc Ht Hm e :=
  unfold task_event_effect, model_follows; unfold_task_methods; simpl;
  run_task_effect Hc Ht Hm e; simpl;
  split; [done|]; split;
  [unfold task_of in *; simpl;
   match goal with H : download_tasks _ = _ |- _ => rewrite H end;
   rewrite !(find_map_update task_id), Ht by done; simpl; eauto 10|];
  split;
  [intros id' Hne; unfold task_of in *; simpl;
   match goal with H : download_tasks _ = _ |- _ => rewrite H end;
   by rewrite !(find_map_update_ne task_id) by done|];
  split; [done|]; split; [done|]; split; [done|]; split; [done|];
  split; [eauto|done].

Lemma start_download_effect env w id t m :
  commit_raises env = None →
  task_of (session w) id = Some t →
  model_row (session w) (task_model_id t) (task_model_source t) = Some m →
  task_event_effect w (DownloadTaskM.start_download env id w) id t m
    DOWNLOAD_STARTED "downloading".
Proof. intros Hc Ht Hm. solve_task_event_effect Hc Ht Hm DOWNLOAD_STARTED. Qed.

Lemma resume_download_effect env w id t m :
  commit_raises env = None →
  task_of (session w) id = Some t →
  model_row (session w) (task_model_id t) (task_model_source t) = Some m →
  task_event_effect w (DownloadTaskM.resume_download env id w) id t m
    DOWNLOAD_STARTED "downloading".
Proof. intros Hc Ht Hm. solve_task_event_effect Hc Ht Hm DOWNLOAD_STARTED. Qed.

Lemma cancel_download_effect env w id t m :
  commit_raises env = None →
  task_of (session w) id = Some t →
  model_row (session w) (task_model_id t) (task_model_source t) = Some m →
  task_event_effect w (DownloadTaskM.cancel_download env id w) id t m
    DOWNLOAD_CANCELLED "cancelled".
Proof. intros Hc Ht Hm. solve_task_event_effect Hc Ht Hm DOWNLOAD_CANCELLED. Qed.

Lemma stored_status_follows d d' id m e :
  model_follows d d' id (state_of_status (Model_status m)) e →
  models d !! id = Some m →
  (∀ next, In ((state_of_status (Model_status m), e), next) TRANSITIONS →
     stored_status d' id = Some (Some (state_value next)))
  ∧ (¬ legal (state_of_status (Model_status m)) e →
     stored_status d' id = Some (Model_status m)).
Proof.
  intros [Hok Hno] Hlook. split.
  - intros next Hin. destruct (Hok next Hin) as [ts Hmodels].
    by eapply stored_status_of_alter.
  - intros Hill. unfold stored_status. by rewrite (Hno Hill), Hlook.
Qed.

Ltac run_service_method Heff :=
  match goal with
  | |- context [DownloadTaskM.start_download ?env ?id ?w] =>
      destruct (DownloadTaskM.start_download env id w) as [? ?]
  | |- context [DownloadTaskM.resume_download ?env ?id ?w] =>
      destruct (DownloadTaskM.resume_download env id w) as [? ?]
  | |- context [DownloadTaskM.cancel_download ?env ?id ?w] =>
      destruct (DownloadTaskM.cancel_download env id w) as [? ?]
  end;
  let Ht' := fresh "Htask'" in
  let Hothers := fresh "Hothers" in
  let Hraised := fresh "Hraised" in
  let Hdeps := fresh "Hdeps" in
  let Hcm := fresh "Hcommitted" in
  let Hfs := fresh "Hfs" in
  let Hmodel := fresh "Hmodel" in
  destruct Heff as (Hr & Ht' & Hothers & Hraised & Hdeps & Hcm & Hfs & Hmodel);
  cbn [fst snd] in Hr, Ht', Hothers, Hraised, Hdeps, Hcm, Hfs, Hmodel; subst.

(** X12 — Starting a pending or paused task, and resuming a paused or
    failed one, succeed with the storage available whatever the task queue
    does: missing, accepting or raising, the answer is the same, the task
    is stored as downloading and committed, and download_started has been
    raised once for its model.  The model's stored status becomes
    downloading when the table allows the event and stays as it is
    otherwise. *)
Theorem start_and_resume_ignore_celery env celery w id t m :
  commit_raises env = None →
  task_of (session w) id = Some t →
  model_row (session w) (task_model_id t) (task_model_source t) = Some m →
  let started := DownloadServiceOps.start_download env celery id w in
  let resumed := DownloadServiceOps.resume_download env celery id w in
  let effect (message : string) (r : Outcome Dict * World) :=
    fst r = Ret [("message", VStr message); ("task_id", VStr id)]
    ∧ task_status <$> task_of (session (snd r)) id = Some "downloading"
    ∧ committed (snd r) = session (snd r)
    ∧ raised (snd r)
      = raised w ++ [mkRaised (task_model_id t) (task_model_source t) "download_started"]
    ∧ (legal (state_of_status (Model_status m)) DOWNLOAD_STARTED →
       stored_status (session (snd r)) (task_model_id t) = Some (Some "downloading"))
    ∧ (¬ legal (state_of_status (Model_status m)) DOWNLOAD_STARTED →
       stored_status (session (snd r)) (task_model_id t) = Some (Model_status m)) in
  (task_status t = "pending" ∨ task_status t = "paused" →
   effect "download has started" started)
  ∧ (task_status t = "paused" ∨ task_status t = "failed" →
     effect "download has continued" resumed).
Proof.
  intros Hc Ht Hm. cbv zeta.
  apply model_row_lookup in Hm as Hlook. destruct Hlook as [Hlook _].
  assert (∀ d', model_follows (session w) d' (task_model_id t)
                  (state_of_status (Model_status m)) DOWNLOAD_STARTED →
                (legal (state_of_status (Model_status m)) DOWNLOAD_STARTED →
                 stored_status d' (task_model_id t) = Some (Some "downloading"))
                ∧ (¬ legal (state_of_status (Model_status m)) DOWNLOAD_STARTED →
                   stored_status d' (task_model_id t) = Some (Model_status m))) as Hstored.
  { intros d' Hf. destruct (stored_status_follows _ _ _ _ _ Hf Hlook) as [Hok Hno].
    split; [|done]. intros [next Hin]. pose proof (Hok next Hin) as Hs.
    apply legal_download_started_next in Hin. by subst next. }
  split; intros Hst.
  - pose proof (start_download_effect env w id t m Hc Ht Hm) as Heff.
    unfold DownloadServiceOps.start_download, DownloadTaskM.query_get, try_catch, bind,
      get_session, ret. simpl.
    unfold task_of in Ht. rewrite Ht.
    assert (String.eqb (task_status t) "pending" || String.eqb (task_status t) "paused"
            = true) as ->.
    { destruct Hst as [-> | ->]; reflexivity. }
    cbn [negb]. run_service_method Heff.
    unfold commit. rewrite Hc.
    destruct Htask' as (t' & Ht' & Hs' & _).
    destruct (Hstored _ Hmodel) as [Hok Hno].
    destruct celery; simpl; rewrite Ht'; simpl; rewrite Hs'; done.
  - pose proof (resume_download_effect env w id t m Hc Ht Hm) as Heff.
    unfold DownloadServiceOps.resume_download, DownloadTaskM.query_get, try_catch, bind,
      get_session, ret. simpl.
    unfold task_of in Ht. rewrite Ht.
    assert (String.eqb (task_status t) "paused" || String.eqb (task_status t) "failed"
            = true) as ->.
    { destruct Hst as [-> | ->]; reflexivity. }
    cbn [negb]. run_service_method Heff.
    unfold commit. rewrite Hc.
    destruct Htask' as (t' & Ht' & Hs' & _).
    destruct (Hstored _ Hmodel) as [Hok Hno].
    destruct celery; simpl; rewrite Ht'; simpl; rewrite Hs'; done.
Qed.

Lemma start_and_resume_ignore_celery_witness :
  commit_raises Sample.env_ok = None
  ∧ task_of (session (Sample.world_of SampleMore.db_paused)) "t1"
    = Some SampleMore.task_paused
  ∧ model_row (session (Sample.world_of SampleMore.db_paused)) "org/m" "huggingface"
    = Some Sample.model_downloading
  ∧ fst (DownloadServiceOps.resume_download Sample.env_ok (CeleryRaises "broker down") "t1"
           (Sample.world_of SampleMore.db_paused))
    = Ret [("message", VStr "download has continued"); ("task_id", VStr "t1")].
Proof.
  split; [reflexivity|]. split; [reflexivity|]. split; [reflexivity|].
  destruct (start_and_resume_ignore_celery Sample.env_ok (CeleryRaises "broker down")
              (Sample.world_of SampleMore.db_paused) "t1" SampleMore.task_paused
              Sample.model_downloading eq_refl eq_refl eq_refl) as [_ Hresumed].
  destruct (Hresumed (or_introl eq_refl)) as (Hr & _). exact Hr.
Defined.

(** X13 — The guards of the download service leave the world exactly as it
    was: an unknown id raises NotFoundError from start, resume and delete;
    starting a task that is neither pending nor paused, and resuming one
    that is neither paused nor failed, raise ValidationError naming the
    status. *)
Theorem download_guards_leave_world env celery w id :
  (task_of (session w) id = None →
   let e := mkExn NotFoundError ("download task " +:+ id +:+ " does not exist") in
   DownloadServiceOps.start_download env celery id w = (Raise e, w)
   ∧ DownloadServiceOps.resume_download env celery id w = (Raise e, w)
   ∧ DownloadServiceOps.delete_download env id w = (Raise e, w))
  ∧ (∀ t, task_of (session w) id = Some t →
       (task_status t ≠ "pending" → task_status t ≠ "paused" →
        DownloadServiceOps.start_download env celery id w
        = (Raise (mkExn ValidationError
                    ("task status " +:+ task_status t +:+ " cannot start download")), w))
       ∧ (task_status t ≠ "paused" → task_status t ≠ "failed" →
          DownloadServiceOps.resume_download env celery id w
          = (Raise (mkExn ValidationError
                      ("task status " +:+ task_status t +:+ " cannot continue")), w))).
Proof.
  split.
  - intros Ht. unfold task_of in Ht.
    unfold DownloadServiceOps.start_download, DownloadServiceOps.resume_download,
      DownloadServiceOps.delete_download, DownloadTaskM.query_get, bind, get_session, ret.
    simpl. by rewrite Ht.
  - intros t Ht. unfold task_of in Ht.
    unfold DownloadServiceOps.start_download, DownloadServiceOps.resume_download,
      DownloadTaskM.query_get, bind, get_session, ret.
    simpl. rewrite Ht. split; intros H1 H2.
    + apply String.eqb_neq in H1, H2. by rewrite H1, H2.
    + apply String.eqb_neq in H1, H2. by rewrite H1, H2.
Qed.

Lemma transition_storage_failure env w id src ev data notify e :
  commit_raises env = Some e →
  let r := transition env id src ev data notify w in
  (∃ res, fst r = Ret res)
  ∧ session (snd r) = committed w ∧ committed (snd r) = committed w
  ∧ fs (snd r) = fs w ∧ raised (snd r) = raised w.
Proof.
  intros Hc. unfold_sm. simpl.
  destruct (models (session w) !! id) as [m|]; simpl;
    [destruct (bool_decide (Model_source m = src)); simpl|].
  2,3: rewrite Hc; simpl; destruct (exn_kind e); simpl; repeat split; eauto.
  run_current_state id (Model_status m) w.
  destruct (can_transition _ ev) eqn:Hcan; simpl.
  - apply can_transition_legal, legal_next_state in Hcan as [next ->]. simpl.
    case_bool_decide; simpl;
      [destruct notify; simpl; [destruct (push_raises env); simpl|]|];
      rewrite Hc; simpl; destruct (exn_kind e); simpl; use_frame; repeat split; eauto.
  - rewrite Hc; simpl; destruct (exn_kind e); simpl; use_frame; repeat split; eauto.
Qed.

Lemma task_trigger_storage_failure env w id t ev data e :
  commit_raises env = Some e →
  task_of (session w) id = Some t →
  let r := DownloadTaskM._trigger_state_event env id (event_value ev) data w in
  fst r = Ret tt
  ∧ session (snd r) = committed w ∧ committed (snd r) = committed w
  ∧ fs (snd r) = fs w.
Proof.
  intros Hc Ht. unfold task_of in Ht.
  unfold DownloadTaskM._trigger_state_event, DownloadTaskM.query_get, try_catch,
    trigger_model_event, note_raised, bind, get_session, ret. simpl.
  rewrite Ht, ModelEvent_of_value.
  match goal with |- context [transition env ?a ?b ev ?c true ?w1] =>
    destruct (transition_storage_failure env w1 a b ev c true e Hc)
      as ([res Hr] & Hs & Hcm & Hfs & _);
    destruct (transition env a b ev c true w1) as [r1 w2]
  end.
  simpl in *. subst r1. destruct res as [[|] msg]; simpl; repeat split; done.
Qed.

Ltac solve_method_storage_failure Hc Ht ev :=
  unfold_task_methods; simpl;
  match goal with
  | |- context [DownloadTaskM._trigger_state_event ?env ?id ?n ?d ?w1] =>
      let Htask := fresh "Htask" in
      eassert (task_of (session w1) id = Some _) as Htask
        by (unfold task_of in *; simpl; rewrite ?(find_map_update task_id) by done;
            rewrite Ht; reflexivity);
      pose proof (task_trigger_storage_failure env w1 id _ ev d _ Hc Htask) as Heff;
      change (event_value ev) with n in Heff;
      destruct (DownloadTaskM._trigger_state_event env id n d w1) as [? ?];
      cbn [fst snd] in Heff; simpl in Heff
  end;
  done.

Lemma start_download_storage_failure env w id t e :
  commit_raises env = Some e →
  task_of (session w) id = Some t →
  let r := DownloadTaskM.start_download env id w in
  fst r = Ret tt ∧ session (snd r) = committed w ∧ committed (snd r) = committed w
  ∧ fs (snd r) = fs w.
Proof. intros Hc Ht. solve_method_storage_failure Hc Ht DOWNLOAD_STARTED. Qed.

Lemma resume_download_storage_failure env w id t e :
  commit_raises env = Some e →
  task_of (session w) id = Some t →
  let r := DownloadTaskM.resume_download env id w in
  fst r = Ret tt ∧ session (snd r) = committed w ∧ committed (snd r) = committed w
  ∧ fs (snd r) = fs w.
Proof. intros Hc Ht. solve_method_storage_failure Hc Ht DOWNLOAD_STARTED. Qed.

Lemma cancel_download_storage_failure env w id t e :
  commit_raises env = Some e →
  task_of (session w) id = Some t →
  let r := DownloadTaskM.cancel_download env id w in
  fst r = Ret tt ∧ session (snd r) = committed w ∧ committed (snd r) = committed w
  ∧ fs (snd r) = fs w.
Proof. intros Hc Ht. solve_method_storage_failure Hc Ht DOWNLOAD_CANCELLED. Qed.

Ltac run_failing_method Heff :=
  match goal with
  | |- context [DownloadTaskM.start_download ?env ?id ?w] =>
      destruct (DownloadTaskM.start_download env id w) as [? ?]
  | |- context [DownloadTaskM.resume_download ?env ?id ?w] =>
      destruct (DownloadTaskM.resume_download env id w) as [? ?]
  | |- context [DownloadTaskM.cancel_download ?env ?id ?w] =>
      destruct (DownloadTaskM.cancel_download env id w) as [? ?]
  end;
  let Hr := fresh "Hr" in
  let Hs := fresh "Hsession" in
  let Hcm := fresh "Hcommitted" in
  let Hfs := fresh "Hfs" in
  destruct Heff as (Hr & Hs & Hcm & Hfs);
  cbn [fst snd] in Hr, Hs, Hcm, Hfs; subst.

(** X14 — When the commit raises, start, resume and delete raise
    DownloadError carrying the storage error's message, and the session is
    rolled back to the committed tables, which stay as they were.  Deleting
    a task that needs no cancelling has by then already removed its file;
    deleting a pending or downloading one fails in the cancellation, whose
    message is wrapped a second time. *)
Theorem download_storage_failure env celery w id t e :
  commit_raises env = Some e →
  task_of (session w) id = Some t →
  let failure (message : string) (r : Outcome Dict * World) :=
    fst r = Raise (mkExn DownloadError message)
    ∧ session (snd r) = committed w ∧ committed (snd r) = committed w in
  let deleted := DownloadServiceOps.delete_download env id w in
  (task_status t = "pending" ∨ task_status t = "paused" →
   failure ("Failed to start download: " +:+ exn_msg e)
     (DownloadServiceOps.start_download env celery id w))
  ∧ (task_status t = "paused" ∨ task_status t = "failed" →
     failure ("Failed to resume download: " +:+ exn_msg e)
       (DownloadServiceOps.resume_download env celery id w))
  ∧ (task_status t = "pending" ∨ task_status t = "downloading" →
     failure ("Failed to delete download task: "
              +:+ ("Failed to cancel download: " +:+ exn_msg e)) deleted
     ∧ fs (snd deleted) = fs w)
  ∧ (task_status t ≠ "pending" → task_status t ≠ "downloading" →
     failure ("Failed to delete download task: " +:+ exn_msg e) deleted
     ∧ (∀ p, remove_raises env = None → task_file_path t = Some p → p ≠ "" →
             fs w !! p = Some File → fs (snd deleted) = delete p (fs w))).
Proof.
  intros Hc Ht. cbv zeta. pose proof Ht as Hfind. unfold task_of in Hfind.
  split; [|split; [|split]].
  - intros Hst.
    pose proof (start_download_storage_failure env w id t e Hc Ht) as Heff.
    unfold DownloadServiceOps.start_download, DownloadTaskM.query_get, try_catch, bind,
      get_session, ret. simpl. rewrite Hfind.
    assert (String.eqb (task_status t) "pending" || String.eqb (task_status t) "paused"
            = true) as -> by (destruct Hst as [-> | ->]; reflexivity).
    cbn [negb]. run_failing_method Heff. unfold commit. rewrite Hc. simpl. done.
  - intros Hst.
    pose proof (resume_download_storage_failure env w id t e Hc Ht) as Heff.
    unfold DownloadServiceOps.resume_download, DownloadTaskM.query_get, try_catch, bind,
      get_session, ret. simpl. rewrite Hfind.
    assert (String.eqb (task_status t) "paused" || String.eqb (task_status t) "failed"
            = true) as -> by (destruct Hst as [-> | ->]; reflexivity).
    cbn [negb]. run_failing_method Heff. unfold commit. rewrite Hc. simpl. done.
  - intros Hst.
    pose proof (cancel_download_storage_failure env w id t e Hc Ht) as Heff.
    unfold DownloadServiceOps.delete_download, DownloadService.cancel_download,
      DownloadTaskM.query_get, try_catch, bind, get_session, ret. simpl. rewrite Hfind.
    assert (String.eqb (task_status t) "pending" || String.eqb (task_status t) "downloading"
            = true) as -> by (destruct Hst as [-> | ->]; reflexivity).
    cbn [negb]. rewrite Hfind.
    assert (String.eqb (task_status t) "completed" || String.eqb (task_status t) "cancelled"
            = false) as -> by (destruct Hst as [-> | ->]; reflexivity).
    run_failing_method Heff. unfold commit. rewrite Hc. simpl. done.
  - intros H1 H2. apply String.eqb_neq in H1, H2.
    unfold DownloadServiceOps.delete_download, DownloadTaskM.query_get, try_catch, bind,
      get_session, ret. simpl. rewrite Hfind, H1, H2. simpl.
    unfold DownloadServiceOps.session_delete, bind, get_session, put_session.
    pose proof (remove_partial_effect env w (task_file_path t)) as Hrm.
    destruct (remove_raises env) as [msg|] eqn:Hremove.
    + clear Hrm.
      assert (∃ w', DownloadService.remove_partial env (task_file_path t) w = (Ret tt, w')
                    ∧ committed w' = committed w) as (w' & -> & Hcm).
      { unfold DownloadService.remove_partial, Os.get_fs, bind, try_catch, Os.remove,
          Os.rmtree, logger, raise, ret. simpl. rewrite Hremove.
        destruct (truthy_str (task_file_path t) && _); [|eauto].
        destruct (fs w !! _) as [[| |]|]; simpl; eauto. }
      simpl. unfold commit. rewrite Hc. simpl. rewrite Hcm.
      split; [done|]. intros; discriminate.
    + specialize (Hrm eq_refl).
      destruct (DownloadService.remove_partial env (task_file_path t) w) as [r1 w1].
      cbn [fst snd] in Hrm. destruct Hrm as (-> & Hs & Hcm & _ & Hfs).
      simpl. unfold commit. rewrite Hc. simpl. rewrite Hcm.
      split; [done|]. intros p _ Hp Hne Hfile.
      by destruct (Hfs p Hp Hne) as [-> _].
Qed.

Lemma download_storage_failure_witness :
  commit_raises SampleMore.env_commit_fails
  = Some (mkExn OtherException "server closed the connection")
  ∧ task_of (session (Sample.world_of SampleMore.db_paused)) "t1"
    = Some SampleMore.task_paused
  ∧ fst (DownloadServiceOps.start_download SampleMore.env_commit_fails CeleryUnavailable
           "t1" (Sample.world_of SampleMore.db_paused))
    = Raise (mkExn DownloadError "Failed to start download: server closed the connection").
Proof.
  split; [reflexivity|]. split; [reflexivity|].
  destruct (download_storage_failure SampleMore.env_commit_fails CeleryUnavailable
              (Sample.world_of SampleMore.db_paused) "t1" SampleMore.task_paused
              (mkExn OtherException "server closed the connection") eq_refl eq_refl)
    as [Hstart _].
  destruct (Hstart (or_intror eq_refl)) as (Hr & _). exact Hr.
Defined.

Lemma remove_partial_frame env w fp :
  ∃ w', DownloadService.remove_partial env fp w = (Ret tt, w')
        ∧ session w' = session w ∧ committed w' = committed w ∧ raised w' = raised w.
Proof.
  unfold DownloadService.remove_partial, Os.get_fs, bind, try_catch, Os.remove,
    Os.rmtree, Os.get_fs, put_fs, logger, raise, bind, ret. simpl.
  destruct (truthy_str fp && _); [|eauto].
  destruct (fs w !! _) as [[| |]|]; simpl; destruct (remove_raises env); simpl; eauto.
Qed.

Lemma find_filter_out (id : string) (l : list DownloadTask) :
  List.find (fun t => bool_decide (id = task_id t))
    (List.filter (fun t => negb (bool_decide (id = task_id t))) l) = None.
Proof.
  induction l as [|x l IH]; simpl; [done|].
  destruct (bool_decide (id = task_id x)) eqn:Hx; simpl; [done|]. by rewrite Hx.
Qed.

Lemma find_filter_ne (id id' : string) (l : list DownloadTask) :
  id' ≠ id →
  List.find (fun t => bool_decide (id' = task_id t))
    (List.filter (fun t => negb (bool_decide (id = task_id t))) l)
  = List.find (fun t => bool_decide (id' = task_id t)) l.
Proof.
  intros Hne. induction l as [|x l IH]; simpl; [done|].
  destruct (bool_decide (id = task_id x)) eqn:Hx; simpl.
  - apply bool_decide_eq_true in Hx. rewrite bool_decide_false by congruence. done.
  - by rewrite IH.
Qed.

(** X15 — Deleting a task with the storage available removes its row and
    no other, and commits.  A pending or downloading task is cancelled
    first, which raises download_cancelled for its model; any other task,
    a paused one included, is deleted without raising an event, so the
    model table stays as it was. *)
Theorem delete_download_removes_row env w id t m :
  commit_raises env = None →
  task_of (session w) id = Some t →
  model_row (session w) (task_model_id t) (task_model_source t) = Some m →
  let r := DownloadServiceOps.delete_download env id w in
  fst r = Ret [("message", VStr "download task has been deleted"); ("task_id", VStr id)]
  ∧ task_of (session (snd r)) id = None
  ∧ (∀ id', id' ≠ id → task_of (session (snd r)) id' = task_of (session w) id')
  ∧ committed (snd r) = session (snd r)
  ∧ (task_status t = "pending" ∨ task_status t = "downloading" →
     raised (snd r)
     = raised w ++ [mkRaised (task_model_id t) (task_model_source t) "download_cancelled"])
  ∧ (task_status t ≠ "pending" → task_status t ≠ "downloading" →
     raised (snd r) = raised w ∧ models (session (snd r)) = models (session w)).
Proof.
  intros Hc Ht Hm. cbv zeta. pose proof Ht as Hfind. unfold task_of in Hfind.
  unfold DownloadServiceOps.delete_download, DownloadTaskM.query_get, try_catch, bind,
    get_session, ret. simpl. rewrite Hfind.
  destruct (String.eqb (task_status t) "pending"
            || String.eqb (task_status t) "downloading") eqn:Hactive.
  - assert (String.eqb (task_status t) "completed" || String.eqb (task_status t) "cancelled"
            = false) as Hdone.
    { apply orb_true_iff in Hactive as [H|H]; apply String.eqb_eq in H; by rewrite H. }
    pose proof (cancel_download_effect env w id t m Hc Ht Hm) as Heff.
    unfold DownloadService.cancel_download, DownloadTaskM.query_get, try_catch, bind,
      get_session, ret. simpl. rewrite Hfind, Hdone.
    run_service_method Heff. unfold commit. rewrite Hc. simpl.
    destruct Htask' as (t' & Ht' & _). unfold task_of in Ht'. rewrite Ht'. simpl.
    match goal with |- context [DownloadService.remove_partial env ?fp ?w1] =>
      destruct (remove_partial_frame env w1 fp) as (w2 & -> & Hs2 & Hcm2 & Hra2)
    end.
    simpl in Hs2, Hcm2, Hra2. unfold logger. simpl. rewrite Hs2, Ht'. simpl.
    match goal with |- context [DownloadService.remove_partial env ?fp ?w1] =>
      destruct (remove_partial_frame env w1 fp) as (w3 & -> & Hs3 & Hcm3 & Hra3)
    end.
    simpl in Hs3, Hcm3, Hra3.
    unfold DownloadServiceOps.session_delete, bind, get_session, put_session. simpl.
    rewrite ?Hc. simpl. rewrite Hs3, Hra3, Hra2. unfold task_of. simpl.
    split; [done|]. split; [apply find_filter_out|]. split.
    { intros id' Hne. rewrite find_filter_ne by done. apply (Hothers id' Hne). }
    split; [done|]. split; [done|].
    intros H1 H2. apply String.eqb_neq in H1, H2. by rewrite H1, H2 in Hactive.
  - simpl.
    match goal with |- context [DownloadService.remove_partial env ?fp ?w1] =>
      destruct (remove_partial_frame env w1 fp) as (w2 & -> & Hs2 & Hcm2 & Hra2)
    end.
    unfold DownloadServiceOps.session_delete, bind, get_session, put_session. simpl.
    unfold commit. rewrite Hc. simpl. rewrite Hs2, Hra2. unfold task_of. simpl.
    split; [done|]. split; [apply find_filter_out|]. split.
    { intros id' Hne. by rewrite find_filter_ne by done. }
    split; [done|]. split; [|done].
    intros [H|H]; rewrite H in Hactive; discriminate.
Qed.

Lemma delete_download_removes_row_witness :
  commit_raises Sample.env_ok = None
  ∧ task_of (session (Sample.world_of SampleMore.db_paused)) "t1"
    = Some SampleMore.task_paused
  ∧ model_row (session (Sample.world_of SampleMore.db_paused)) "org/m" "huggingface"
    = Some Sample.model_downloading
  ∧ task_of (session (snd (DownloadServiceOps.delete_download Sample.env_ok "t1"
                             (Sample.world_of SampleMore.db_paused)))) "t1" = None.
Proof.
  split; [reflexivity|]. split; [reflexivity|]. split; [reflexivity|].
  destruct (delete_download_removes_row Sample.env_ok
              (Sample.world_of SampleMore.db_paused) "t1" SampleMore.task_paused
              Sample.model_downloading eq_refl eq_refl eq_refl) as (_ & Hgone & _).
  exact Hgone.
Defined.

End DownloadServiceMore.

(** * The queue, the progress callback, the storage check and the paths *)

Section DownloadBookkeeping.

Lemma active_counts (l : list DownloadTask) :
  let active_tasks :=
    List.filter (fun t => String.eqb (task_status t) "pending"
                          || String.eqb (task_status t) "downloading"
                          || String.eqb (task_status t) "paused") l in
  length active_tasks
  = (DownloadServiceOps.count_status "downloading" active_tasks
     + DownloadServiceOps.count_status "pending" active_tasks
     + DownloadServiceOps.count_status "paused" active_tasks)%nat.
Proof.
  cbv zeta. unfold DownloadServiceOps.count_status.
  induction l as [|x l IH]; simpl; [done|].
  destruct (String.eqb (task_status x) "pending") eqn:H1; simpl.
  { apply String.eqb_eq in H1. rewrite H1. simpl. lia. }
  destruct (String.eqb (task_status x) "downloading") eqn:H2; simpl.
  { apply String.eqb_eq in H2. rewrite H2. simpl. lia. }
  destruct (String.eqb (task_status x) "paused") eqn:H3; simpl; [|done].
  apply String.eqb_eq in H3. rewrite H3. simpl. lia.
Qed.

(** X16 — The download queue reads without writing, lists exactly the
    stored tasks that are pending, downloading or paused, in table order,
    and its three counters add up to [total_active]. *)
Theorem download_queue_counts w :
  ∃ q, DownloadServiceOps.get_download_queue w = (Ret q, w)
       ∧ total_active q = length (queue_tasks q)
       ∧ total_active q = (downloading q + pending q + paused q)%nat
       ∧ sublist (queue_tasks q) (download_tasks (session w))
       ∧ ∀ t, t ∈ queue_tasks q
              ↔ t ∈ download_tasks (session w)
                ∧ (task_status t = "pending" ∨ task_status t = "downloading"
                   ∨ task_status t = "paused").
Proof.
  unfold DownloadServiceOps.get_download_queue, DownloadServiceOps.get_active_tasks,
    bind, get_session, ret. simpl.
  eexists. split; [reflexivity|]. simpl.
  split; [done|]. split; [apply active_counts|]. split.
  { induction (download_tasks (session w)) as [|x l IH]; simpl; [constructor|].
    destruct (_ || _); by constructor. }
  intros t. rewrite !list_elem_of_In, filter_In, !orb_true_iff, !String.eqb_eq. tauto.
Qed.

Lemma update_progress_obj_id d tot sp t :
  task_id (fst (DownloadTaskM.update_progress_obj d tot sp t)) = task_id t.
Proof.
  unfold DownloadTaskM.update_progress_obj.
  repeat (match goal with
          | |- context [if ?b then _ else _] => destruct b eqn:?
          | |- context [match ?x with _ => _ end] => destruct x eqn:?
          end; cbn [fst snd]);
    done.
Qed.

Lemma find_map_replace id (c : DownloadTask) (l : list DownloadTask) :
  task_id c = id →
  List.find (fun x => bool_decide (id = task_id x))
    (List.map (fun x => if bool_decide (id = task_id x) then c else x) l)
  = (fun _ => c) <$> List.find (fun x => bool_decide (id = task_id x)) l.
Proof.
  intros Hc. induction l as [|x l IH]; simpl; [done|].
  destruct (bool_decide (id = task_id x)) eqn:Hx.
  - by rewrite Hc, bool_decide_true.
  - by rewrite Hx.
Qed.

(** What the method [update_progress] leaves behind, whether it returns or
    raises. *)
Lemma update_progress_effect id d tot sp w t :
  task_of (session w) id = Some t →
  ∃ res w', DownloadTaskM.update_progress id d tot sp w = (res, w')
            ∧ fs w' = fs w ∧ raised w' = raised w ∧ committed w' = committed w
            ∧ models (session w') = models (session w)
            ∧ ∃ t', task_of (session w') id = Some t'
                    ∧ task_download_size t' = d ∧ task_status t' = task_status t.
Proof.
  intros Ht. pose proof Ht as Hfind. unfold task_of in Hfind.
  assert (task_id t = id) as Hid.
  { apply find_some in Hfind as [_ H]. by apply bool_decide_eq_true in H. }
  unfold DownloadTaskM.update_progress, DownloadTaskM.query_get, DownloadTaskM.update_task,
    utcnow, bind, get_session, put_session, raise, ret. simpl. rewrite Hfind. simpl.
  pose proof (update_progress_obj_id d tot sp t) as Hid'.
  pose proof (update_progress_obj_size d tot sp t) as Hsize.
  pose proof (update_progress_obj_status d tot sp t) as Hstatus.
  destruct (DownloadTaskM.update_progress_obj d tot sp t) as [t1 [e|]]; simpl in *.
  - eexists _, _. split; [reflexivity|]. simpl. do 4 (split; [done|]).
    unfold task_of. simpl. rewrite find_map_replace, Hfind by congruence. simpl. eauto.
  - eexists _, _. split; [reflexivity|]. simpl. do 4 (split; [done|]).
    unfold task_of. simpl.
    rewrite (find_map_update task_id), find_map_replace, Hfind by (done || congruence).
    simpl. eauto.
Qed.

Lemma progress_callback_run env update_state_raises w id downloaded_size total_size
    elapsed_time :
  ∃ w', DownloadWorker.progress_callback env update_state_raises id downloaded_size
          total_size elapsed_time w = (Ret tt, w')
        ∧ fs w' = fs w ∧ raised w' = raised w
        ∧ models (session w') = models (session w)
        ∧ (∀ t, task_of (session w) id = Some t → task_status t ≠ "downloading" →
                session w' = session w ∧ committed w' = committed w)
        ∧ (∀ t x, task_of (session w) id = Some t → task_status t = "downloading" →
                  DownloadWorker.float_of_int downloaded_size = Ret x →
                  ∃ t', task_of (session w') id = Some t'
                        ∧ task_download_size t' = downloaded_size
                        ∧ task_status t' = "downloading").
Proof.
  unfold DownloadWorker.progress_callback, DownloadTaskM.query_get, try_catch, bind,
    get_session, ret. cbv beta iota.
  destruct (task_of (session w) id) as [t|] eqn:Ht; unfold task_of in Ht; rewrite Ht.
  2: { unfold raise, logger. eexists. split; [reflexivity|]. simpl.
       do 3 (split; [done|]). split; intros; discriminate. }
  destruct (String.eqb (task_status t) "downloading") eqn:Hst; cbn [negb].
  2: { apply String.eqb_neq in Hst. unfold logger.
       eexists. split; [reflexivity|]. simpl. do 3 (split; [done|]). split.
       - intros t0 Ht0 Hs0. done.
       - intros t0 x Ht0 Hs0. simplify_eq. }
  apply String.eqb_eq in Hst.
  assert (∀ speed,
            ∃ w', (let (o, w') :=
                     (let (o, w') :=
                        DownloadTaskM.update_progress id downloaded_size (Some total_size)
                          (Some speed) w in
                      match o with
                      | Ret _ =>
                          let (o0, w'0) := commit env w' in
                          match o0 with
                          | Ret _ =>
                              let (o1, w'1) :=
                                match update_state_raises with
                                | Some msg => raise (mkExn OtherException msg)
                                | None => fun w0 => (Ret tt, w0)
                                end w'0 in
                              match o1 with
                              | Ret _ =>
                                  logger LvlInfo
                                    (Text "Download progress: ({}/{} bytes)"
                                          [VInt downloaded_size; VInt total_size]) w'1
                              | Raise e => (Raise e, w'1)
                              end
                          | Raise e => (Raise e, w'0)
                          end
                      | Raise e => (Raise e, w')
                      end) in
                   match o with
                   | Ret a => (Ret a, w')
                   | Raise e =>
                       logger LvlError
                         (Text "Failed to update progress: {}" [VStr (exn_msg e)]) w'
                   end) = (Ret tt, w')
                  ∧ fs w' = fs w ∧ raised w' = raised w
                  ∧ models (session w') = models (session w)
                  ∧ ∃ t', task_of (session w') id = Some t'
                          ∧ task_download_size t' = downloaded_size
                          ∧ task_status t' = "downloading") as Hstore.
  { intros speed.
    destruct (update_progress_effect id downloaded_size (Some total_size) (Some speed) w t Ht)
      as (res & w' & -> & Hfs & Hra & Hcm & Hmodels & t' & Ht' & Hsize & Hstatus).
    rewrite Hst in Hstatus.
    destruct res as [[]|e]; unfold commit, logger, raise; simpl.
    2: { eexists. split; [reflexivity|]. simpl. do 3 (split; [done|]). eauto. }
    destruct (commit_raises env) as [e|]; simpl;
      [|destruct update_state_raises as [msg|]; simpl].
    all: eexists; (split; [reflexivity|]); simpl; do 3 (split; [done|]); eauto. }
  destruct (SFltb (S754_zero false) elapsed_time).
  - unfold DownloadService.lift_outcome.
    destruct (DownloadWorker.float_of_int downloaded_size) as [x|e] eqn:Hconv.
    + unfold ret. cbv beta iota.
      destruct (Hstore (PyFloat (SFdiv Float64.prec Float64.emax x elapsed_time)))
        as (w' & Hrun & Hfs & Hra & Hmodels & Htask).
      exists w'. split; [exact Hrun|]. do 3 (split; [done|]). split.
      * intros t0 Ht0 Hs0. simplify_eq; congruence.
      * intros t0 x0 Ht0 Hs0 _. exact Htask.
    + unfold raise, logger. cbv beta iota.
      eexists. split; [reflexivity|]. simpl. do 3 (split; [done|]). split.
      * intros t0 Ht0 Hs0. simplify_eq; congruence.
      * intros t0 x0 Ht0 Hs0 Hx. discriminate.
  - cbv beta iota.
    destruct (Hstore (PyInt 0)) as (w' & Hrun & Hfs & Hra & Hmodels & Htask).
    exists w'. split; [exact Hrun|]. do 3 (split; [done|]). split.
    * intros t0 Ht0 Hs0. simplify_eq; congruence.
    * intros t0 x0 Ht0 Hs0 _. exact Htask.
Qed.

(** X17 — The progress callback never raises, and it touches neither the
    models nor the files.  A task that has left the state downloading is
    not written at all, so a completed task keeps its progress.  A
    downloading one gets the reported size stored, whether or not the
    commit, the progress computation or the Celery state update fails
    afterwards, unless the size is too large to be converted to a float
    for the speed estimate. *)
Theorem progress_callback_never_raises env update_state_raises w id downloaded_size
    total_size elapsed_time :
  let r := DownloadWorker.progress_callback env update_state_raises id downloaded_size
             total_size elapsed_time w in
  fst r = Ret tt
  ∧ fs (snd r) = fs w ∧ raised (snd r) = raised w
  ∧ models (session (snd r)) = models (session w)
  ∧ (∀ t, task_of (session w) id = Some t → task_status t ≠ "downloading" →
          session (snd r) = session w ∧ committed (snd r) = committed w)
  ∧ (∀ t x, task_of (session w) id = Some t → task_status t = "downloading" →
            DownloadWorker.float_of_int downloaded_size = Ret x →
            ∃ t', task_of (session (snd r)) id = Some t'
                  ∧ task_download_size t' = downloaded_size
                  ∧ task_status t' = "downloading").
Proof.
  cbv zeta.
  destruct (progress_callback_run env update_state_raises w id downloaded_size total_size
              elapsed_time) as (w' & -> & H).
  cbn [fst snd]. split; [done|]. exact H.
Qed.

(** X18 — The storage check passes exactly when the free space is at
    least the required space, and then leaves the world alone.  Everything
    else ends in a StorageError whose message starts with "Failed to check
    storage space: ": the failure of the disk query, and also the error
    that reports insufficient space, which the handler of the same block
    catches and wraps again.  The tables and the files are not touched. *)
Theorem check_storage_space_outcome disk_usage required_space w :
  let r := DownloadServiceOps._check_storage_space disk_usage required_space w in
  session (snd r) = session w ∧ committed (snd r) = committed w ∧ fs (snd r) = fs w
  ∧ (fst r = Ret tt ↔ ∃ free_space, disk_usage = Ret free_space
                                    ∧ required_space ≤ free_space)
  ∧ (fst r = Ret tt → snd r = w)
  ∧ (∀ e, fst r = Raise e →
          exn_kind e = StorageError
          ∧ ∃ reason, exn_msg e = "Failed to check storage space: " +:+ reason)
  ∧ (∀ free_space, disk_usage = Ret free_space → free_space < required_space →
       fst r = Raise (mkExn StorageError
                        ("Failed to check storage space: "
                         +:+ ("Storage space insufficient, need "
                              +:+ pretty (required_space `div` 1024 ^ 3)
                              +:+ "GB, available "
                              +:+ pretty (free_space `div` 1024 ^ 3) +:+ "GB")))).
Proof.
  cbv zeta.
  unfold DownloadServiceOps._check_storage_space, DownloadService.lift_outcome, try_catch,
    bind, logger, raise, ret.
  destruct disk_usage as [free|e0]; cbn [fst snd session committed fs].
  - destruct (free <? required_space) eqn:Hlt; cbn [fst snd session committed fs exn_kind exn_msg].
    + apply Z.ltb_lt in Hlt. do 3 (split; [done|]). split.
      { split; [done|]. intros (f & Hf & Hle). simplify_eq. lia. }
      split; [done|]. split.
      { intros e He. simplify_eq. cbn [exn_kind exn_msg]. eauto. }
      intros f Hf _. by simplify_eq.
    + apply Z.ltb_ge in Hlt. do 3 (split; [done|]). split.
      { split; [eauto|done]. }
      split; [done|]. split; [done|].
      intros f Hf Hlt'. simplify_eq. lia.
  - do 3 (split; [done|]). split.
    { split; [done|]. by intros (f & Hf & _). }
    split; [done|]. split.
    { intros e He. simplify_eq. cbn [exn_kind exn_msg]. eauto. }
    intros f Hf. discriminate.
Qed.

Lemma replace_char_app a b s1 s2 :
  DownloadServiceOps.replace_char a b (s1 +:+ s2)
  = DownloadServiceOps.replace_char a b s1 +:+ DownloadServiceOps.replace_char a b s2.
Proof.
  induction s1 as [|c s1 IH]; [done|].
  change (String c s1 +:+ s2) with (String c (s1 +:+ s2)).
  cbn [DownloadServiceOps.replace_char]. rewrite IH. done.
Qed.

Lemma replace_char_absent a b s :
  contains_char a s = false → DownloadServiceOps.replace_char a b s = s.
Proof.
  induction s as [|c s IH]; [done|]. cbn [contains_char DownloadServiceOps.replace_char].
  intros H. apply orb_false_iff in H as [Hc Hs]. rewrite Hc, IH by done. done.
Qed.

Lemma replace_char_removes a b s :
  a ≠ b → contains_char a (DownloadServiceOps.replace_char a b s) = false.
Proof.
  intros Hne. induction s as [|c s IH]; [done|].
  cbn [contains_char DownloadServiceOps.replace_char]. rewrite IH, orb_false_r.
  destruct (Ascii.eqb c a) eqn:Hc; [|done].
  apply Ascii.eqb_neq. congruence.
Qed.

Lemma replace_char_keeps_absent a b c s :
  c ≠ b → contains_char c s = false →
  contains_char c (DownloadServiceOps.replace_char a b s) = false.
Proof.
  intros Hne. induction s as [|x s IH]; [done|].
  cbn [contains_char DownloadServiceOps.replace_char].
  intros H. apply orb_false_iff in H as [Hx Hs]. rewrite IH, orb_false_r by done.
  destruct (Ascii.eqb x a); [|done]. apply Ascii.eqb_neq. congruence.
Qed.

Lemma replace_char_length a b s :
  String.length (DownloadServiceOps.replace_char a b s) = String.length s.
Proof. induction s as [|c s IH]; [done|]. simpl. by rewrite IH. Qed.

(** X19 — The directory name of a model has the length of the model id
    and holds neither a slash nor a colon.  An id without those characters
    is its own directory name, naming is idempotent, and ids that differ
    only in a slash, a colon or an underscore at one place share one
    directory. *)
Theorem model_dir_name_flat model_id :
  let name := DownloadServiceOps.model_dir_name model_id in
  contains_char "/" name = false
  ∧ contains_char ":" name = false
  ∧ String.length name = String.length model_id
  ∧ DownloadServiceOps.model_dir_name name = name
  ∧ (contains_char "/" model_id = false → contains_char ":" model_id = false →
     name = model_id)
  ∧ (∀ rest,
       DownloadServiceOps.model_dir_name (model_id +:+ "/" +:+ rest)
       = DownloadServiceOps.model_dir_name (model_id +:+ "_" +:+ rest)
       ∧ DownloadServiceOps.model_dir_name (model_id +:+ ":" +:+ rest)
         = DownloadServiceOps.model_dir_name (model_id +:+ "_" +:+ rest)).
Proof.
  cbv zeta. unfold DownloadServiceOps.model_dir_name.
  assert (contains_char "/"
            (DownloadServiceOps.replace_char ":" "_"
               (DownloadServiceOps.replace_char "/" "_" model_id)) = false) as Hslash.
  { apply replace_char_keeps_absent; [done|]. by apply replace_char_removes. }
  assert (contains_char ":"
            (DownloadServiceOps.replace_char ":" "_"
               (DownloadServiceOps.replace_char "/" "_" model_id)) = false) as Hcolon.
  { by apply replace_char_removes. }
  split; [done|]. split; [done|]. split.
  { by rewrite !replace_char_length. }
  split.
  { rewrite (replace_char_absent "/") by done. by rewrite (replace_char_absent ":"). }
  split.
  { intros H1 H2. rewrite (replace_char_absent "/") by done.
    by rewrite (replace_char_absent ":"). }
  intros rest. rewrite !replace_char_app. done.
Qed.

End DownloadBookkeeping.

(** * Deployments: the status methods and the service around them *)

Ltac run_deployment_effect Hc Hx Hm e :=
  match goal with
  | |- context [DeploymentM._trigger_state_event ?env ?id ?n ?d ?w1] =>
      let Hdep := fresh "Hdep" in
      let Heff := fresh "Heff" in
      eassert (deployment_of (session w1) id = Some _) as Hdep
        by (unfold deployment_of in *; simpl; rewrite ?(find_map_update dep_id) by done;
            rewrite Hx; reflexivity);
      pose proof (deployment_trigger_effect env w1 id _ e d _ Hc Hdep Hm) as Heff;
      change (event_value e) with n in Heff;
      destruct (DeploymentM._trigger_state_event env id n d w1) as [? ?];
      cbn [fst snd] in Heff;
      let Hraised := fresh "Hraised" in
      let Htasks := fresh "Htasks" in
      let Hdeps := fresh "Hdeps" in
      let Hcm := fresh "Hcommitted" in
      let Hfs := fresh "Hfs" in
      let Hok := fresh "Hok" in
      let Hno := fresh "Hno" in
      destruct Heff as (-> & Hraised & Htasks & Hdeps & Hcm & Hfs & Hok & Hno);
      simpl in Hraised, Htasks, Hdeps, Hfs
  end.

Ltac unfold_deployment_methods :=
  unfold DeploymentOps.start_deployment, DeploymentOps.complete_deployment,
    DeploymentOps.stop_deployment, DeploymentOps.fail_deployment,
    DeploymentM.update_deployment, DeploymentM.query_get,
    bind, get_session, put_session, utcnow, ret.

Ltac solve_deployment_event_effect Hc Hx Hm e :=
  unfold deployment_event_effect, model_follows; unfold_deployment_methods; simpl;
  run_deployment_effect Hc Hx Hm e; simpl;
  split; [done|]; split;
  [unfold deployment_of in *; simpl;
   match goal with H : deployments _ = _ |- _ => rewrite H end;
   rewrite !(find_map_update dep_id), Hx by done; simpl; eauto 10|];
  split;
  [intros id' Hne; unfold deployment_of in *; simpl;
   match goal with H : deployments _ = _ |- _ => rewrite H end;
   by rewrite !(find_map_update_ne dep_id) by done|];
  split; [done|]; split; [done|]; split; [done|]; split; [done|];
  split; [eauto|done].

Section DeploymentLifecycle.
Import ModelStateMachine.


Lemma stop_deployment_effect env w id x m :
  commit_raises env = None →
  deployment_of (session w) id = Some x →
  model_row (session w) (dep_model_id x) (dep_model_source x) = Some m →
  deployment_event_effect w (DeploymentOps.stop_deployment env id w) id x m
    DEPLOY_STOPPED "stopped".
Proof. intros Hc Hx Hm. solve_deployment_event_effect Hc Hx Hm DEPLOY_STOPPED. Qed.



Lemma legal_deploy_events s :
  (legal s DEPLOY_STARTED ↔ s ≠ DEPLOYING ∧ s ≠ TRAINING)
  ∧ (legal s DEPLOY_COMPLETED ↔ s = DEPLOYING)
  ∧ (legal s DEPLOY_STOPPED ↔ s = ACTIVE)
  ∧ (legal s DEPLOY_FAILED ↔ s = DEPLOYING).
Proof.
  rewrite <- !can_transition_legal.
  destruct s; vm_compute; intuition (congruence || discriminate).
Qed.





Lemma find_deployment_filter_out (id : string) (l : list Deployment) :
  List.find (fun x => bool_decide (id = dep_id x))
    (List.filter (fun x => negb (bool_decide (id = dep_id x))) l) = None.
Proof.
  induction l as [|x l IH]; simpl; [done|].
  destruct (bool_decide (id = dep_id x)) eqn:Hx; simpl; [done|]. by rewrite Hx.
Qed.

Lemma find_deployment_filter_ne (id id' : string) (l : list Deployment) :
  id' ≠ id →
  List.find (fun x => bool_decide (id' = dep_id x))
    (List.filter (fun x => negb (bool_decide (id = dep_id x))) l)
  = List.find (fun x => bool_decide (id' = dep_id x)) l.
Proof.
  intros Hne. induction l as [|x l IH]; simpl; [done|].
  destruct (bool_decide (id = dep_id x)) eqn:Hx; simpl.
  - apply bool_decide_eq_true in Hx. rewrite bool_decide_false by congruence. done.
  - by rewrite IH.
Qed.

(** The service's stop of a running or deploying deployment, storage
    available. *)
Lemma service_stop_effect env how w id x m :
  commit_raises env = None →
  deployment_of (session w) id = Some x →
  model_row (session w) (dep_model_id x) (dep_model_source x) = Some m →
  dep_status x = "running" ∨ dep_status x = "deploying" →
  ∃ w', DeploymentServiceOps.stop_deployment env how id w
        = (Ret [("message", VStr "部署已停止"); ("deployment_id", VStr id)], w')
        ∧ (∃ x', deployment_of (session w') id = Some x' ∧ dep_status x' = "stopped")
        ∧ (∀ id', id' ≠ id → deployment_of (session w') id' = deployment_of (session w) id')
        ∧ raised w'
          = raised w ++ [mkRaised (dep_model_id x) (dep_model_source x) "deploy_stopped"]
        ∧ committed w' = session w'
        ∧ model_follows (session w) (session w') (dep_model_id x)
            (state_of_status (Model_status m)) DEPLOY_STOPPED.
Proof.
  intros Hc Hx Hm Hst. pose proof Hx as Hfind. unfold deployment_of in Hfind.
  unfold DeploymentServiceOps.stop_deployment, DeploymentM.query_get, try_catch, bind,
    get_session, ret. simpl. rewrite Hfind.
  assert (String.eqb (dep_status x) "running" || String.eqb (dep_status x) "deploying"
          = true) as -> by (destruct Hst as [-> | ->]; reflexivity).
  cbn [negb].
  destruct (truthy_str (dep_container_id x));
    [unfold DeploymentServiceOps._stop_container, logger, bind, ret; destruct how|];
    simpl.
  all: match goal with |- context [DeploymentOps.stop_deployment ?env0 ?id0 ?w1] =>
         destruct (stop_deployment_effect env0 w1 id0 x m Hc Hx Hm)
           as (Hr & Hx' & Hothers & Hraised & _ & Hcm & _ & Hmodel);
         destruct (DeploymentOps.stop_deployment env0 id0 w1) as [r2 w2]
       end.
  all: cbn [fst snd] in *; subst r2; unfold commit; rewrite Hc; simpl.
  all: eexists; split; [reflexivity|]; simpl.
  all: destruct Hx' as (x' & Hx' & Hs' & _).
  all: split; [eauto|]; split; [done|]; split; [done|]; split; done.
Qed.

(** X21 — Stopping a deployment: an unknown id raises NotFoundError and a
    deployment that is neither running nor deploying raises
    ValidationError, both leaving the world as it was.  Otherwise, with the
    storage available, the stop succeeds whether or not the process could
    be stopped: the deployment is stored as stopped and committed, and
    deploy_stopped is raised once.  The model becomes inactive only from
    ACTIVE; stopping a deployment whose model is still deploying leaves the
    model's stored status as it is. *)
Theorem stop_deployment_service env how w id :
  (deployment_of (session w) id = None →
   DeploymentServiceOps.stop_deployment env how id w
   = (Raise (mkExn NotFoundError ("部署 " +:+ id +:+ " 不存在")), w))
  ∧ (∀ x, deployment_of (session w) id = Some x →
          dep_status x ≠ "running" → dep_status x ≠ "deploying" →
          DeploymentServiceOps.stop_deployment env how id w
          = (Raise (mkExn ValidationError ("部署状态 " +:+ dep_status x +:+ " 不能停止")), w))
  ∧ (∀ x m, deployment_of (session w) id = Some x →
            dep_status x = "running" ∨ dep_status x = "deploying" →
            commit_raises env = None →
            model_row (session w) (dep_model_id x) (dep_model_source x) = Some m →
            let r := DeploymentServiceOps.stop_deployment env how id w in
            fst r = Ret [("message", VStr "部署已停止"); ("deployment_id", VStr id)]
            ∧ dep_status <$> deployment_of (session (snd r)) id = Some "stopped"
            ∧ committed (snd r) = session (snd r)
            ∧ raised (snd r)
              = raised w ++ [mkRaised (dep_model_id x) (dep_model_source x) "deploy_stopped"]
            ∧ (state_of_status (Model_status m) = ACTIVE →
               stored_status (session (snd r)) (dep_model_id x) = Some (Some "inactive"))
            ∧ (state_of_status (Model_status m) ≠ ACTIVE →
               stored_status (session (snd r)) (dep_model_id x) = Some (Model_status m))).
Proof.
  split; [|split].
  - intros Hx. unfold deployment_of in Hx.
    unfold DeploymentServiceOps.stop_deployment, DeploymentM.query_get, bind, get_session,
      ret. simpl. by rewrite Hx.
  - intros x Hx H1 H2. unfold deployment_of in Hx. apply String.eqb_neq in H1, H2.
    unfold DeploymentServiceOps.stop_deployment, DeploymentM.query_get, bind, get_session,
      ret. simpl. by rewrite Hx, H1, H2.
  - intros x m Hx Hst Hc Hm. cbv zeta.
    apply model_row_lookup in Hm as Hlook. destruct Hlook as [Hlook _].
    destruct (service_stop_effect env how w id x m Hc Hx Hm Hst)
      as (w' & -> & (x' & Hx' & Hs') & _ & Hraised & Hcm & Hok & Hno).
    cbn [fst snd]. split; [done|]. split; [by rewrite Hx', <- Hs'|].
    split; [done|]. split; [done|].
    destruct (legal_deploy_events (state_of_status (Model_status m)))
      as (_ & _ & Hstop & _).
    split.
    + intros Hcur. rewrite Hcur in Hok.
      destruct (Hok INACTIVE) as [ts Hmodels]; [vm_compute; tauto|].
      by eapply stored_status_of_alter.
    + intros Hcur. unfold stored_status. rewrite Hno, Hlook; [done|]. by rewrite Hstop.
Qed.

(** X22 — Deleting a deployment with the storage available removes its
    row and no other, and commits.  A running or deploying deployment is
    stopped first, which raises deploy_stopped for its model; any other
    deployment is deleted without raising an event, so the model table
    stays as it was. *)
Theorem delete_deployment_removes_row env how w id x m :
  commit_raises env = None →
  deployment_of (session w) id = Some x →
  model_row (session w) (dep_model_id x) (dep_model_source x) = Some m →
  let r := DeploymentServiceOps.delete_deployment env how id w in
  fst r = Ret [("message", VStr "部署已删除"); ("deployment_id", VStr id)]
  ∧ deployment_of (session (snd r)) id = None
  ∧ (∀ id', id' ≠ id → deployment_of (session (snd r)) id' = deployment_of (session w) id')
  ∧ committed (snd r) = session (snd r)
  ∧ (dep_status x = "running" ∨ dep_status x = "deploying" →
     raised (snd r)
     = raised w ++ [mkRaised (dep_model_id x) (dep_model_source x) "deploy_stopped"])
  ∧ (dep_status x ≠ "running" → dep_status x ≠ "deploying" →
     raised (snd r) = raised w ∧ models (session (snd r)) = models (session w)).
Proof.
  intros Hc Hx Hm. cbv zeta. pose proof Hx as Hfind. unfold deployment_of in Hfind.
  unfold DeploymentServiceOps.delete_deployment, DeploymentM.query_get, try_catch, bind,
    get_session, ret. cbv beta. rewrite Hfind. cbv beta iota.
  destruct (String.eqb (dep_status x) "running"
            || String.eqb (dep_status x) "deploying") eqn:Hactive.
  - assert (dep_status x = "running" ∨ dep_status x = "deploying") as Hst.
    { apply orb_true_iff in Hactive as [H|H]; apply String.eqb_eq in H; tauto. }
    destruct (service_stop_effect env how w id x m Hc Hx Hm Hst)
      as (w' & Hrun & _ & Hothers & Hraised & Hcm & _).
    rewrite Hrun.
    unfold DeploymentServiceOps.session_delete, commit, logger, bind,
      get_session, put_session, ret. rewrite Hc. simpl.
    unfold deployment_of in *. simpl.
    split; [done|]. split; [apply find_deployment_filter_out|]. split.
    { intros id' Hne. rewrite find_deployment_filter_ne by done. by apply Hothers. }
    split; [done|]. split; [done|].
    intros H1 H2. apply String.eqb_neq in H1, H2. by rewrite H1, H2 in Hactive.
  - unfold DeploymentServiceOps.session_delete, commit, logger, bind,
      get_session, put_session, ret. rewrite Hc. simpl.
    unfold deployment_of. simpl.
    split; [done|]. split; [apply find_deployment_filter_out|]. split.
    { intros id' Hne. by rewrite find_deployment_filter_ne by done. }
    split; [done|]. split; [|done].
    intros [H|H]; rewrite H in Hactive; discriminate.
Qed.

Lemma delete_deployment_removes_row_witness :
  commit_raises Sample.env_ok = None
  ∧ deployment_of (session (Sample.world_of SampleMore.db_deploying)) "d1"
    = Some SampleMore.deployment_deploying
  ∧ model_row (session (Sample.world_of SampleMore.db_deploying)) "org/m" "huggingface"
    = Some SampleMore.model_deploying
  ∧ deployment_of
      (session (snd (DeploymentServiceOps.delete_deployment Sample.env_ok
                       DeploymentServiceOps.ContainerStopped
                       "d1" (Sample.world_of SampleMore.db_deploying)))) "d1" = None.
Proof.
  split; [reflexivity|]. split; [reflexivity|]. split; [reflexivity|].
  destruct (delete_deployment_removes_row Sample.env_ok
              DeploymentServiceOps.ContainerStopped
              (Sample.world_of SampleMore.db_deploying) "d1"
              SampleMore.deployment_deploying SampleMore.model_deploying
              eq_refl eq_refl eq_refl) as (_ & Hgone & _).
  exact Hgone.
Defined.

(** X23 — Reading the status of a deployment raises no event and leaves
    the model table alone.  A running deployment whose process is gone is,
    with the storage available, stored as stopped and committed, its health
    status staying as it was, and the answer shows the stopped row; a
    deployment that is not running, has no process id or whose process is
    alive is answered as stored, the world staying as it was. *)
Theorem status_query_marks_dead_process env w id x :
  deployment_of (session w) id = Some x →
  let r := DeploymentServiceOps.get_deployment_status env id w in
  let dead :=
    dep_status x = "running" ∧ truthy_str (dep_container_id x) = true
    ∧ check_container_status env (default "" (dep_container_id x)) = false in
  raised (snd r) = raised w
  ∧ models (session (snd r)) = models (session w)
  ∧ model_status_queue (snd r) = model_status_queue w
  ∧ (dead → commit_raises env = None →
     (∃ x', fst r = Ret (Some x') ∧ dep_status x' = "stopped"
            ∧ dep_health_status x' = dep_health_status x
            ∧ deployment_of (committed (snd r)) id = Some x'))
  ∧ (¬ dead → r = (Ret (Some x), w)).
Proof.
  intros Hx. cbv zeta. pose proof Hx as Hfind. unfold deployment_of in Hfind.
  unfold DeploymentServiceOps.get_deployment_status, DeploymentOps.is_running,
    DeploymentM.query_get, DeploymentM.update_deployment, utcnow, commit, bind,
    get_session, put_session, ret. simpl. rewrite Hfind.
  destruct (String.eqb (dep_status x) "running") eqn:Hrun; simpl.
  2: { rewrite Hfind. do 3 (split; [done|]). split; [|done].
       intros (Hst & _). rewrite Hst in Hrun. discriminate. }
  destruct (truthy_str (dep_container_id x)) eqn:Hcid; simpl.
  2: { rewrite Hfind. do 3 (split; [done|]). split; [|done].
       intros (_ & ? & _). discriminate. }
  destruct (check_container_status env _) eqn:Halive; simpl.
  { rewrite Hfind. do 3 (split; [done|]). split; [|done].
    intros (_ & _ & ?). discriminate. }
  apply String.eqb_eq in Hrun.
  destruct (commit_raises env) as [e|] eqn:Hc; simpl.
  - do 3 (split; [done|]). split; [done|]. intros Hnot. destruct Hnot. done.
  - do 3 (split; [done|]). split.
    + intros _ _. unfold deployment_of. simpl.
      rewrite !(find_map_update dep_id), Hfind by done. simpl.
      eexists. split; [reflexivity|]. done.
    + intros Hnot. destruct Hnot. done.
Qed.

Lemma status_query_marks_dead_process_witness :
  deployment_of (session (Sample.world_of Sample.db_active)) "d1"
  = Some Sample.deployment_running
  ∧ raised (snd (DeploymentServiceOps.get_deployment_status SampleMore.env_process_gone "d1"
                   (Sample.world_of Sample.db_active))) = [].
Proof.
  split; [reflexivity|].
  destruct (status_query_marks_dead_process SampleMore.env_process_gone
              (Sample.world_of Sample.db_active) "d1" Sample.deployment_running eq_refl)
    as (Hraised & _).
  exact Hraised.
Defined.

End DeploymentLifecycle.

(** * Ports: unreadable socket table, and no reservation *)

Section PortsMore.
Import ModelStateMachine.

Lemma check_port_closed env port w :
  net_connections env = None →
  ∃ w', SystemService.check_port_availability env port w = (Ret false, w')
        ∧ session w' = session w ∧ committed w' = committed w
        ∧ length (log w') = S (length (log w)).
Proof.
  intros Hn. unfold SystemService.check_port_availability, logger, bind, ret. rewrite Hn.
  eexists. split; [reflexivity|]. simpl. rewrite length_app. simpl.
  repeat split; lia.
Qed.

Lemma first_available_closed env ports w :
  net_connections env = None →
  ∃ w', SystemService.first_available env ports w = (Ret None, w')
        ∧ session w' = session w ∧ committed w' = committed w
        ∧ length (log w') = (length (log w) + length ports)%nat.
Proof.
  intros Hn. revert w. induction ports as [|p ports IH]; intros w.
  - exists w. simpl. unfold ret. repeat split; lia.
  - cbn [SystemService.first_available]. unfold bind.
    destruct (check_port_closed env p w Hn) as (w1 & -> & Hs1 & Hc1 & Hl1).
    destruct (IH w1) as (w2 & -> & Hs2 & Hc2 & Hl2).
    exists w2. split; [done|]. simpl. repeat split; try congruence. lia.
Qed.

(** What create does once the port is allocated. *)
Lemma create_deployment_run env w model_id source name config m p :
  commit_raises env = None →
  model_row (session w) model_id source = Some m →
  List.find (fun x => bool_decide (dep_name x = name)) (deployments (session w)) = None →
  DeploymentService._allocate_port env (config ≫= DeploymentService.cfg_port) w
  = (Ret (Some p), w) →
  p ≠ 0 →
  let d := DeploymentService.new_deployment (uuid4 env) model_id source name p
             (default "0.0.0.0" (config ≫= DeploymentService.cfg_host)) (clock w) in
  let r := DeploymentService.create_deployment env model_id source name config w in
  fst r = Ret d
  ∧ session (snd r) = with_deployments (deployments (session w) ++ [d]) (session w)
  ∧ committed (snd r) = session (snd r).
Proof.
  intros Hc Hm Hname Hal Hp. cbv zeta.
  unfold DeploymentService.create_deployment, try_catch, query_model, bind, get_session,
    ret.
  unfold model_row in Hm. simpl. rewrite Hm. simpl. rewrite Hname. simpl.
  rewrite Hal. simpl. apply Z.eqb_neq in Hp. rewrite Hp. simpl.
  unfold utcnow, put_session, commit, logger. simpl. rewrite Hc. simpl. done.
Qed.

(** X24 — When the socket table cannot be read the port checks fail
    closed: every port counts as taken, a scan of any range finds nothing
    and logs one error per port it tried, a preferred port is refused as
    occupied, and no deployment can be created; the failed create rolls the
    session back to the committed tables. *)
Theorem port_checks_fail_closed env w :
  net_connections env = None →
  (∀ port, fst (SystemService.check_port_availability env port w) = Ret false)
  ∧ (∀ start_port end_port,
       let r := SystemService.find_available_port env start_port end_port w in
       fst r = Ret None
       ∧ length (log (snd r))
         = (length (log w) + Z.to_nat (end_port + 1 - start_port))%nat)
  ∧ (∀ p, p ≠ 0 →
       fst (DeploymentService._allocate_port env (Some p) w)
       = Raise (mkExn ValidationError ("端口 " +:+ pretty p +:+ " 已被占用")))
  ∧ fst (DeploymentService._allocate_port env None w) = Ret None
  ∧ (∀ model_id source name config,
       let c := DeploymentService.create_deployment env model_id source name config w in
       (∃ e, fst c = Raise e)
       ∧ session (snd c) = committed w ∧ committed (snd c) = committed w).
Proof.
  intros Hn. split; [|split; [|split; [|split]]].
  - intros port. by destruct (check_port_closed env port w Hn) as (w' & -> & _).
  - intros start_port end_port. cbv zeta. unfold SystemService.find_available_port.
    destruct (first_available_closed env (seqZ start_port (end_port + 1 - start_port)) w Hn)
      as (w' & -> & _ & _ & Hlog).
    simpl. split; [done|]. by rewrite Hlog, length_seqZ.
  - intros p Hp. unfold DeploymentService._allocate_port. simpl.
    apply Z.eqb_neq in Hp. rewrite Hp. simpl. unfold bind.
    by destruct (check_port_closed env p w Hn) as (w' & -> & _).
  - unfold DeploymentService._allocate_port. simpl.
    unfold SystemService.find_available_port.
    by destruct (first_available_closed env (seqZ 8000 (9000 + 1 - 8000)) w Hn)
      as (w' & -> & _).
  - intros model_id source name config. cbv zeta.
    unfold DeploymentService.create_deployment, try_catch, query_model, bind, get_session,
      rollback, logger, raise, ret. simpl.
    destruct (models (session w) !! model_id) as [m|]; simpl;
      [destruct (bool_decide (Model_source m = source)); simpl|].
    2,3: split; [eauto|done].
    destruct (find _ (deployments (session w))); simpl; [split; [eauto|done]|].
    unfold DeploymentService._allocate_port.
    destruct (DownloadTaskM.truthy_int (config ≫= DeploymentService.cfg_port)).
    + unfold bind.
      destruct (check_port_closed env (default 0 (config ≫= DeploymentService.cfg_port))
                  w Hn) as (w' & -> & _ & Hcm & _).
      simpl. split; [eauto|]. by rewrite Hcm.
    + unfold SystemService.find_available_port.
      destruct (first_available_closed env (seqZ 8000 (9000 + 1 - 8000)) w Hn)
        as (w' & -> & _ & Hcm & _).
      simpl. split; [eauto|]. by rewrite Hcm.
Qed.

Lemma port_checks_fail_closed_witness :
  net_connections SampleMore.env_psutil_fails = None
  ∧ fst (DeploymentService._allocate_port SampleMore.env_psutil_fails (Some 8080)
           (Sample.world_of Sample.db_active))
    = Raise (mkExn ValidationError ("端口 " +:+ pretty 8080 +:+ " 已被占用")).
Proof.
  split; [reflexivity|].
  destruct (port_checks_fail_closed SampleMore.env_psutil_fails
              (Sample.world_of Sample.db_active) eq_refl) as (_ & _ & Hpref & _).
  apply Hpref. lia.
Defined.

Lemma allocate_scan env conns w :
  net_connections env = Some conns →
  DeploymentService._allocate_port env None w
  = (Ret (snd <$> list_find (fun p => ¬ listening conns p) (seqZ 8000 (9000 + 1 - 8000))), w).
Proof.
  intros Hn. unfold DeploymentService._allocate_port. simpl.
  unfold SystemService.find_available_port. by rewrite (first_available_run env conns _ w Hn).
Qed.

Lemma find_name_app (name : string) (l : list Deployment) (d : Deployment) :
  List.find (fun x => bool_decide (dep_name x = name)) l = None →
  dep_name d ≠ name →
  List.find (fun x => bool_decide (dep_name x = name)) (l ++ [d]) = None.
Proof.
  intros Hl Hd. induction l as [|x l IH]; simpl in *.
  - by rewrite bool_decide_false.
  - destruct (bool_decide (dep_name x = name)); [done|]. by apply IH.
Qed.

(** X25 — Allocation reserves nothing: the scan looks only at listening
    sockets, not at the ports of stored deployments.  While the socket
    table stays the same, two deployments created one after the other
    without a preferred port are both stored with the same port. *)
Theorem ports_are_not_reserved env1 env2 conns w p
    model_id1 source1 name1 m1 model_id2 source2 name2 m2 :
  net_connections env1 = Some conns → net_connections env2 = Some conns →
  commit_raises env1 = None → commit_raises env2 = None →
  model_row (session w) model_id1 source1 = Some m1 →
  model_row (session w) model_id2 source2 = Some m2 →
  List.find (fun x => bool_decide (dep_name x = name1)) (deployments (session w)) = None →
  List.find (fun x => bool_decide (dep_name x = name2)) (deployments (session w)) = None →
  name1 ≠ name2 →
  fst (SystemService.find_available_port env1 8000 9000 w) = Ret (Some p) →
  let c1 := DeploymentService.create_deployment env1 model_id1 source1 name1 None w in
  let c2 := DeploymentService.create_deployment env2 model_id2 source2 name2 None (snd c1) in
  ∃ d1 d2, fst c1 = Ret d1 ∧ fst c2 = Ret d2
           ∧ dep_port d1 = Some p ∧ dep_port d2 = Some p
           ∧ dep_name d1 = name1 ∧ dep_name d2 = name2
           ∧ deployments (committed (snd c2)) = deployments (session w) ++ [d1; d2].
Proof.
  intros Hn1 Hn2 Hc1 Hc2 Hm1 Hm2 Hname1 Hname2 Hne Hp. cbv zeta.
  pose proof Hp as Hrange. apply (find_available_port_Some env1 conns w 8000 9000 p Hn1) in Hrange.
  assert (p ≠ 0) as Hnz by lia.
  pose proof (allocate_scan env1 conns w Hn1) as Hal1.
  assert (snd <$> list_find (fun p => ¬ listening conns p) (seqZ 8000 (9000 + 1 - 8000))
          = Some p) as Hscan.
  { revert Hp. unfold SystemService.find_available_port.
    rewrite (first_available_run env1 conns _ w Hn1). simpl. by intros [= ->]. }
  rewrite Hscan in Hal1.
  destruct (create_deployment_run env1 w model_id1 source1 name1 None m1 p Hc1 Hm1 Hname1
              Hal1 Hnz) as (Hr1 & Hs1 & Hcm1).
  destruct (DeploymentService.create_deployment env1 model_id1 source1 name1 None w)
    as [r1 w1].
  cbn [fst snd] in Hr1, Hs1, Hcm1 |- *.
  pose proof (allocate_scan env2 conns w1 Hn2) as Hal2. rewrite Hscan in Hal2.
  assert (model_row (session w1) model_id2 source2 = Some m2) as Hm2' by by rewrite Hs1.
  assert (List.find (fun x => bool_decide (dep_name x = name2)) (deployments (session w1))
          = None) as Hname2'.
  { rewrite Hs1. simpl. by apply find_name_app. }
  destruct (create_deployment_run env2 w1 model_id2 source2 name2 None m2 p Hc2 Hm2' Hname2'
              Hal2 Hnz) as (Hr2 & Hs2 & Hcm2).
  destruct (DeploymentService.create_deployment env2 model_id2 source2 name2 None w1)
    as [r2 w2].
  cbn [fst snd] in Hr2, Hs2, Hcm2 |- *.
  eexists _, _. split; [exact Hr1|]. split; [exact Hr2|].
  split; [done|]. split; [done|]. split; [done|]. split; [done|].
  rewrite Hcm2, Hs2, Hs1. simpl. by rewrite <- app_assoc.
Qed.

Lemma ports_are_not_reserved_witness :
  net_connections Sample.env_ok = Some [] ∧ net_connections SampleMore.env_next = Some []
  ∧ commit_raises Sample.env_ok = None ∧ commit_raises SampleMore.env_next = None
  ∧ model_row (session (Sample.world_of Sample.db_active)) "org/m" "huggingface"
    = Some Sample.model_active
  ∧ List.find (fun x => bool_decide (dep_name x = "dep2"))
      (deployments (session (Sample.world_of Sample.db_active))) = None
  ∧ List.find (fun x => bool_decide (dep_name x = "dep3"))
      (deployments (session (Sample.world_of Sample.db_active))) = None
  ∧ "dep2" ≠ "dep3"
  ∧ fst (SystemService.find_available_port Sample.env_ok 8000 9000
           (Sample.world_of Sample.db_active)) = Ret (Some 8000)
  ∧ ∃ d1 d2,
      fst (DeploymentService.create_deployment Sample.env_ok "org/m" "huggingface" "dep2"
             None (Sample.world_of Sample.db_active)) = Ret d1
      ∧ dep_port d1 = Some 8000 ∧ dep_port d2 = Some 8000 ∧ dep_name d2 = "dep3".
Proof.
  assert (fst (SystemService.find_available_port Sample.env_ok 8000 9000
                 (Sample.world_of Sample.db_active)) = Ret (Some 8000)) as Hp.
  { apply (find_available_port_Some Sample.env_ok [] _ 8000 9000 8000 eq_refl).
    split; [lia|]. split; [|intros q Hq; lia].
    unfold listening. intros H. by apply Exists_nil in H. }
  assert ("dep2" ≠ "dep3") as Hne by (intros H; discriminate H).
  do 8 (split; [done|]). split; [exact Hp|].
  destruct (ports_are_not_reserved Sample.env_ok SampleMore.env_next []
              (Sample.world_of Sample.db_active) 8000
              "org/m" "huggingface" "dep2" Sample.model_active
              "org/m" "huggingface" "dep3" Sample.model_active
              eq_refl eq_refl eq_refl eq_refl eq_refl eq_refl eq_refl eq_refl Hne Hp)
    as (d1 & d2 & Hr1 & _ & Hp1 & Hp2 & _ & Hn2 & _).
  exists d1, d2. done.
Defined.

End PortsMore.

(** * The listener of the event queue *)

Section Listener.
Context {E : Type}.

Lemma listener_loop_delivered channel (type_of : E → PyVal) (cb : E → option string)
    (steps : list (bool * EventQueue.GetResult E)) :
  ∃ processed rest,
    steps = processed ++ rest
    ∧ Forall (fun step => EventQueue.stops step = false) processed
    ∧ (rest = [] ∨ ∃ step rest', rest = step :: rest' ∧ EventQueue.stops step = true)
    ∧ fst (EventQueue.listener_loop channel type_of (Some cb) steps)
      = omap EventQueue.event_of processed.
Proof.
  induction steps as [|[running got] steps IH].
  - exists [], []. repeat split; [constructor|by left].
  - cbn [EventQueue.listener_loop].
    destruct running; cbn [negb].
    2: { exists [], ((false, got) :: steps). split; [done|]. split; [constructor|].
         split; [right; eauto|done]. }
    destruct IH as (processed & rest & Hsteps & Hrun & Hrest & Hdel).
    destruct got as [ev| |].
    + exists ((true, EventQueue.GotEvent ev) :: processed), rest.
      split; [by rewrite Hsteps|]. split; [by constructor|]. split; [done|].
      destruct (EventQueue.listener_loop channel type_of (Some cb) steps) as [delivered lines].
      simpl in Hdel. subst delivered.
      destruct (cb ev); reflexivity.
    + exists [], ((true, EventQueue.GotStop) :: steps). split; [done|].
      split; [constructor|]. split; [right; eauto|done].
    + exists ((true, EventQueue.GotEmpty) :: processed), rest.
      split; [by rewrite Hsteps|]. split; [by constructor|]. split; [done|].
      exact Hdel.
Qed.

(** X26 — A listener with a registered callback hands over, in queue
    order, exactly the events it takes from the queue before it first
    finds the running flag cleared or takes the stop signal; time-outs are
    skipped, nothing is handed over after that point, and a callback that
    raises on an event does not keep the later events from being handed
    over.  Without a registered callback nothing is handed over. *)
Theorem listener_delivers_in_order channel (type_of : E → PyVal)
    (steps : list (bool * EventQueue.GetResult E)) :
  (∀ callback,
     ∃ processed rest,
       steps = processed ++ rest
       ∧ Forall (fun step => EventQueue.stops step = false) processed
       ∧ (rest = [] ∨ ∃ step rest', rest = step :: rest' ∧ EventQueue.stops step = true)
       ∧ fst (EventQueue._queue_listener channel type_of (Some callback) steps)
         = omap EventQueue.event_of processed)
  ∧ (∀ callback callback',
       fst (EventQueue._queue_listener channel type_of (Some callback) steps)
       = fst (EventQueue._queue_listener channel type_of (Some callback') steps))
  ∧ fst (EventQueue._queue_listener channel type_of None steps) = [].
Proof.
  assert (∀ callback,
            fst (EventQueue._queue_listener channel type_of callback steps)
            = fst (EventQueue.listener_loop channel type_of callback steps)) as Hfst.
  { intros callback. unfold EventQueue._queue_listener.
    by destruct (EventQueue.listener_loop channel type_of callback steps). }
  split; [|split].
  - intros callback. rewrite Hfst. apply listener_loop_delivered.
  - intros callback callback'.
    destruct (listener_loop_delivered channel type_of callback steps)
      as (p1 & r1 & Hs1 & Hrun1 & Hrest1 & Hd1).
    rewrite !Hfst. clear Hfst p1 r1 Hs1 Hrun1 Hrest1 Hd1.
    induction steps as [|[running got] steps IH]; [done|].
    cbn [EventQueue.listener_loop]. destruct running; cbn [negb]; [|done].
    destruct got as [ev| |]; [|done|exact IH].
    destruct (EventQueue.listener_loop channel type_of (Some callback) steps) as [d1 l1].
    destruct (EventQueue.listener_loop channel type_of (Some callback') steps) as [d2 l2].
    simpl in IH. subst d2. by destruct (callback ev), (callback' ev).
  - rewrite Hfst. clear Hfst.
    induction steps as [|[running got] steps IH]; [done|].
    cbn [EventQueue.listener_loop]. destruct running; cbn [negb]; [|done].
    destruct got as [ev| |]; [|done|exact IH].
    destruct (EventQueue.listener_loop channel type_of None steps) as [d l].
    exact IH.
Qed.

End Listener.
